(** * MENTOR run orchestration: a shallow embedding of [mentor_py_api/run_store.py]

    The development models the run registry ([TrainingRunStore]), the
    file-backed status payload ([TrainingStatusPayload.from_files]), the
    metadata store ([TrainingRunMetadata]) and the recovery scan
    ([resume_unfinished_runs]), and states the properties of the design
    document about them.

    Modelling conventions.
    - Python values that travel through JSON are dynamically typed, so the
      records built from a loaded document carry [pyval] fields; the field
      types the dataclass declares are [TrainingOptions.well_typed].
    - Strings are byte strings; [lower] folds the ASCII letters, which agrees
      with [str.lower] on every membership test against the ASCII words the
      source compares with.
    - A file is text in its declared encoding; what reading and parsing it
      yields is its [content]: an [OSError], a [JSONDecodeError], or a value,
      and [json.loads] gives back the value [json.dumps] was given.
    - [os.path] and [pathlib] are the POSIX flavour; a path names the node
      found by walking its components from one root, and [..] is not
      resolved.
    - An exception is a value of [exn]; a computation that raises keeps the
      state it had reached ([M]).
    - [TrainingRunState.start_new] runs inside the event loop, as its two
      callers do; the task of a run is known by its state ([TaskState]),
      which the environment advances.
    - The [log] callback prints a line per message to a sink. *)

From stdpp Require Import gmap strings list pretty.
From Stdlib Require Import ZArith Ascii.
From Stdlib Require PrimFloat.

Set Warnings "-register-all".
Open Scope string_scope.
Open Scope list_scope.

(** ** Python values and exceptions *)

Inductive pyval :=
| PNone
| PBool (b : bool)
| PInt (z : Z)
| PFloat (f : PrimFloat.float)
| PStr (s : string)
| PList (l : list pyval)
| PDict (d : list (string * pyval)).

Inductive exn :=
  OSError | JSONDecodeError | KeyError | AttributeError | TypeError | OverflowError.

Inductive result (A : Type) :=
| Ok (a : A)
| Raise (e : exn).
Arguments Ok {A} a.
Arguments Raise {A} e.

Definition bind {A B} (r : result A) (k : A → result B) : result B :=
  match r with
  | Ok a => k a
  | Raise e => Raise e
  end.

Notation "'let*' x := r 'in' k" := (bind r (λ x, k))
  (at level 10, x name, r at level 100, k at level 200, only parsing).

Definition exn_eqb (a b : exn) : bool :=
  match a, b with
  | OSError, OSError | JSONDecodeError, JSONDecodeError | KeyError, KeyError
  | AttributeError, AttributeError | TypeError, TypeError
  | OverflowError, OverflowError => true
  | _, _ => false
  end.

(** [try: body except (e1, e2, ...): handler] *)
Definition try_except {A} (body : result A) (caught : list exn) (handler : result A) : result A :=
  match body with
  | Ok a => Ok a
  | Raise e => if existsb (exn_eqb e) caught then handler else Raise e
  end.

(** Truth value of a Python object ([if v:], [not v], [v or d]). *)
Definition truthy (v : pyval) : bool :=
  match v with
  | PNone => false
  | PBool b => b
  | PInt z => negb (z =? 0)%Z
  | PFloat f => negb (PrimFloat.eqb f PrimFloat.zero)
  | PStr s => negb (String.eqb s "")
  | PList l => match l with [] => false | _ => true end
  | PDict d => match d with [] => false | _ => true end
  end.

(** A dict as its items; a dict has one item per key, and lookup takes the
    first. *)
Fixpoint assoc {V} (d : list (string * V)) (k : string) : option V :=
  match d with
  | [] => None
  | (k', v) :: d' => if String.eqb k' k then Some v else assoc d' k
  end.

(** [payload.get(key, default)]: only a dict has the method. *)
Definition py_get (payload : pyval) (key : string) (dflt : pyval) : result pyval :=
  match payload with
  | PDict d => Ok (default dflt (assoc d key))
  | _ => Raise AttributeError
  end.

(** [payload[key]] with a string key. *)
Definition py_getitem (payload : pyval) (key : string) : result pyval :=
  match payload with
  | PDict d => match assoc d key with Some v => Ok v | None => Raise KeyError end
  | _ => Raise TypeError
  end.

(** ** Strings *)

Definition lower_ascii (c : Ascii.ascii) : Ascii.ascii :=
  let n := Ascii.N_of_ascii c in
  if ((65 <=? n) && (n <=? 90))%N then Ascii.ascii_of_N (n + 32) else c.

Fixpoint lower (s : string) : string :=
  match s with
  | EmptyString => EmptyString
  | String c r => String (lower_ascii c) (lower r)
  end.

Definition startswith (s pre : string) : bool := String.prefix pre s.

(** [s.endswith(suf)]: some tail of [s] is [suf]. *)
Fixpoint endswith (s suf : string) : bool :=
  String.eqb s suf
  || match s with
     | EmptyString => false
     | String _ r => endswith r suf
     end.

(** ** Paths *)

(** [posixpath.join(a, b)] *)
Definition os_path_join (a b : string) : string :=
  if startswith b "/" then b
  else if String.eqb a "" || endswith a "/" then a +:+ b
  else a +:+ "/" +:+ b.

(** The pieces of [s] between separators, [cur] being the piece under way. *)
Fixpoint split_sep (s : string) (cur : string) : list string :=
  match s with
  | EmptyString => [cur]
  | String c r =>
      if Ascii.eqb c "/"%char then cur :: split_sep r "" else split_sep r (cur +:+ String c "")
  end.

Definition is_component (x : string) : bool :=
  negb (String.eqb x "") && negb (String.eqb x ".").

(** The components that name a node: empty pieces and [.] do not count. *)
Definition components (s : string) : list string :=
  List.filter is_component (split_sep s "").

(** [pathlib.Path]: an anchor and the parts under it. *)
Module Path.
Record t := mk { absolute : bool; parts : list string }.

(** [Path(s)] *)
Definition of_string (s : string) : t :=
  {| absolute := startswith s "/"; parts := components s |}.

(** [p / s] *)
Definition div (p : t) (s : string) : t :=
  if startswith s "/" then of_string s
  else {| absolute := absolute p; parts := parts p ++ components s |}.

Fixpoint join_parts (l : list string) : string :=
  match l with
  | [] => ""
  | [x] => x
  | x :: r => x +:+ "/" +:+ join_parts r
  end.

(** [str(p)] *)
Definition to_string (p : t) : string :=
  if absolute p then "/" +:+ join_parts (parts p)
  else match parts p with [] => "." | l => join_parts l end.

(** [p.name] *)
Definition name (p : t) : string := List.last (parts p) "".

(** [p.parent] *)
Definition parent (p : t) : t :=
  {| absolute := absolute p; parts := removelast (parts p) |}.

(** An entry [n] of directory [p], as [p.iterdir()] yields it. *)
Definition child (p : t) (n : string) : t :=
  {| absolute := absolute p; parts := parts p ++ [n] |}.
End Path.

Notation "p // s" := (Path.div p s) (at level 40, left associativity).

Definition build_training_status_path (results_directory run_id : string) : string :=
  os_path_join (os_path_join (os_path_join results_directory run_id) "run_logs")
    "training_status.json".

Definition build_run_directory (results_directory run_id : string) : string :=
  os_path_join results_directory run_id.

(** ** The host: file system, descriptors, working directory *)

(** What [open] followed by [json.load] yields on a regular file. *)
Inductive content :=
| Unreadable                 (* [open] raises [OSError] *)
| Malformed                  (* [json.JSONDecodeError] *)
| Json (v : pyval).

Inductive node :=
| Dir
| File (c : content).

Inductive TaskState {Outcome : Type} :=
| Pending
| Cancelled
| Returned (outcome : Outcome)
| Failed (exc : string).
Arguments TaskState : clear implicits.

Record Host := {
  files : gmap (list string) node;     (* nodes by component sequence *)
  fd_regular : Z → bool;               (* open descriptors of regular files *)
  abspath : string → string;           (* [os.path.abspath] in the working directory *)
}.

(** The root is a directory; every other node is an entry of [files]. *)
Definition lookup_node (h : Host) (k : list string) : option node :=
  match k with
  | [] => Some Dir
  | _ => files h !! k
  end.

Definition is_file_node (n : option node) : bool :=
  match n with Some (File _) => true | _ => false end.

Definition is_dir_node (n : option node) : bool :=
  match n with Some Dir => true | _ => false end.

Definition os_path_isfile (h : Host) (p : string) : bool :=
  is_file_node (lookup_node h (components p)).

(** The empty string names nothing. *)
Definition os_path_isdir (h : Host) (p : string) : bool :=
  negb (String.eqb p "") && is_dir_node (lookup_node h (components p)).

Definition Path_exists (h : Host) (p : Path.t) : bool :=
  match lookup_node h (Path.parts p) with Some _ => true | None => false end.

Definition Path_is_dir (h : Host) (p : Path.t) : bool :=
  is_dir_node (lookup_node h (Path.parts p)).

(** [json.load(open(k))], also [json.loads(k.read_text())] *)
Definition read_json (h : Host) (k : list string) : result pyval :=
  match lookup_node h k with
  | Some (File (Json v)) => Ok v
  | Some (File Malformed) => Raise JSONDecodeError
  | Some (File Unreadable) | Some Dir | None => Raise OSError
  end.

(** The names under directory [k], as [os.listdir] reports them. *)
Definition listdir (h : Host) (k : list string) : list string :=
  omap (λ kn : list string * node,
          let k' := kn.1 in
          if decide (take (length k) k' = k)
          then match drop (length k) k' with [n] => Some n | _ => None end
          else None)
       (map_to_list (files h)).

(** ** Effects: state and exceptions *)

Definition M (S A : Type) : Type := S → result A * S.

Definition ret {S A} (a : A) : M S A := λ s, (Ok a, s).
Definition lift {S A} (r : result A) : M S A := λ s, (r, s).
Definition seq {S A B} (m : M S A) (k : A → M S B) : M S B :=
  λ s, match m s with
       | (Ok a, s') => k a s'
       | (Raise e, s') => (Raise e, s')
       end.

Notation "x <- m ;; k" := (seq m (λ x, k))
  (at level 100, m at next level, right associativity, only parsing).
Notation "m ;;; k" := (seq m (λ _, k))
  (at level 100, right associativity, only parsing).

(** [Path.mkdir(parents=True, exist_ok=True)]: walk down from the root,
    creating what is absent; a regular file in the way is an [OSError]. *)
Fixpoint mkdir_from (above below : list string) : M (gmap (list string) node) () :=
  match below with
  | [] => ret ()
  | c :: below' =>
      let k := above ++ [c] in
      λ fs, match fs !! k with
            | Some (File _) => (Raise OSError, fs)
            | Some Dir => mkdir_from k below' fs
            | None => mkdir_from k below' (<[k := Dir]> fs)
            end
  end.

Definition with_files {A} (m : M (gmap (list string) node) A) : M Host A :=
  λ h, let '(r, fs) := m (files h) in
       (r, {| files := fs; fd_regular := fd_regular h; abspath := abspath h |}).

Definition Path_mkdir (p : Path.t) : M Host () :=
  with_files (mkdir_from [] (Path.parts p)).

(** [k.write_text(json.dumps(v))]: the parent must be a directory and [k]
    must not be one; reading the file back parses to [v]. *)
Definition write_json (k : list string) (v : pyval) : M Host () :=
  λ h, if is_dir_node (lookup_node h (removelast k)) && negb (is_dir_node (lookup_node h k))
       then with_files (λ fs, (Ok (), <[k := File (Json v)]> fs)) h
       else (Raise OSError, h).

(** ** options.py *)

Definition DEFAULT_RESULTS_DIRECTORY : string := "X:\workspace\ml-agents\results".

Module TrainingOptions.
Record t := mk {
  env_executable_path : pyval;        (* Optional[str] *)
  trainer_config_path : pyval;        (* str *)
  run_id : pyval;                     (* str *)
  results_directory : pyval;          (* str *)
  conda_environment_name : pyval;     (* str *)
  base_port : pyval;                  (* Optional[int] *)
  no_graphics : pyval;                (* bool *)
  skip_conda : pyval;                 (* bool *)
  launch_tensorboard : pyval;         (* bool *)
  default_results_directory : pyval;  (* str = DEFAULT_RESULTS_DIRECTORY *)
}.

Definition is_str (v : pyval) : bool := match v with PStr _ => true | _ => false end.
Definition is_bool (v : pyval) : bool := match v with PBool _ => true | _ => false end.
Definition is_opt_str (v : pyval) : bool :=
  match v with PNone | PStr _ => true | _ => false end.
Definition is_opt_int (v : pyval) : bool :=
  match v with PNone | PInt _ => true | _ => false end.

(** The field types the dataclass declares. *)
Definition well_typed (o : t) : bool :=
  is_opt_str (env_executable_path o) && is_str (trainer_config_path o)
  && is_str (run_id o) && is_str (results_directory o)
  && is_str (conda_environment_name o) && is_opt_int (base_port o)
  && is_bool (no_graphics o) && is_bool (skip_conda o)
  && is_bool (launch_tensorboard o) && is_str (default_results_directory o).
End TrainingOptions.

(** ** run_store.py *)

Definition _normalize_status (status : option string) : string :=
  let lookup :=
    [ ("success", "succeeded");
      ("succeeded", "succeeded");
      ("completed", "succeeded");
      ("failure", "failed");
      ("failed", "failed") ] in
  match status with
  | Some status =>
      if negb (String.eqb status "") then
        let normalized := lower status in
        default status (assoc lookup normalized)
      else "completed"
  | None => "completed"
  end.

Definition _try_read_status (h : Host) (path : string) : result (option string) :=
  try_except
    (let* data := read_json h (components path) in
     match data with
     | PDict d =>
         match assoc d "status" with
         | Some (PStr value) => Ok (Some value)
         | _ => Ok None
         end
     | _ => Ok None
     end)
    [OSError; JSONDecodeError]
    (Ok None).

Definition _is_completed_status (status : option string) : bool :=
  match status with
  | None => false
  | Some status =>
      if String.eqb status "" then false
      else bool_decide (lower status ∈ ["succeeded"; "success"; "failed"; "failure"; "completed"])
  end.

Module TrainingStatusPayload.
Record t := mk {
  run_id : pyval;
  status : string;
  completed : bool;
  exit_code : option Z;
  results_directory : pyval;
  training_status_path : option string;
  message : option string;
  tensorboard_url : option string;
}.

Definition from_files (h : Host) (run_id results_directory : string) : result t :=
  let training_status_path := build_training_status_path results_directory run_id in
  if os_path_isfile h training_status_path then
    let* status_text := _try_read_status h training_status_path in
    let normalized := _normalize_status status_text in
    Ok {| run_id := PStr run_id;
          status := normalized;
          completed := true;
          exit_code := None;
          results_directory := PStr results_directory;
          training_status_path := Some training_status_path;
          message := None;
          tensorboard_url := None |}
  else
    let run_directory := build_run_directory results_directory run_id in
    if os_path_isdir h run_directory then
      Ok {| run_id := PStr run_id;
            status := "unknown";
            completed := false;
            exit_code := None;
            results_directory := PStr results_directory;
            training_status_path := Some training_status_path;
            message := Some "Run directory exists but training_status.json has not been written yet.";
            tensorboard_url := None |}
    else
      Ok {| run_id := PStr run_id;
            status := "not-found";
            completed := false;
            exit_code := None;
            results_directory := PStr results_directory;
            training_status_path := Some training_status_path;
            message := Some ("No run data found at '" +:+ run_directory +:+ "'.");
            tensorboard_url := None |}.
End TrainingStatusPayload.

Module TrainingRunOutcome.
(** [error] is the exception, known by its text [str(error)]. *)
Record t := mk { exit_code : option Z; error : option string }.

(** [x or 0] on an optional int *)
Definition or_zero (x : option Z) : Z :=
  match x with
  | Some z => if (z =? 0)%Z then 0%Z else z
  | None => 0%Z
  end.

Definition is_success (self : t) : bool :=
  match error self with None => true | Some _ => false end
  && (or_zero (exit_code self) =? 0)%Z.

Definition from_exit_code (exit_code : Z) : t :=
  {| exit_code := Some exit_code; error := None |}.

Definition from_error (error : string) : t :=
  {| exit_code := None; error := Some error |}.
End TrainingRunOutcome.

(** A value used where [os.fspath] or [Path] wants a string. *)
Definition as_str (v : pyval) : result string :=
  match v with
  | PStr s => Ok s
  | _ => Raise TypeError
  end.

Module TrainingRunMetadata.
Record t := mk {
  env_path : pyval;
  config_path : pyval;
  run_id : pyval;
  results_directory : pyval;
  conda_environment_name : pyval;
  base_port : pyval;
  no_graphics : pyval;
  skip_conda : pyval;
  launch_tensorboard : pyval;
}.

Definition metadata_file_name : string := "run_metadata.json".

Definition save (run_directory : Path.t) (options : TrainingOptions.t) : M Host () :=
  let metadata_path := run_directory // "run_logs" // metadata_file_name in
  Path_mkdir (Path.parent metadata_path) ;;;
  let payload :=
    PDict [ ("envPath", TrainingOptions.env_executable_path options);
            ("configPath", TrainingOptions.trainer_config_path options);
            ("runId", TrainingOptions.run_id options);
            ("resultsDirectory", TrainingOptions.results_directory options);
            ("condaEnvironmentName", TrainingOptions.conda_environment_name options);
            ("basePort", TrainingOptions.base_port options);
            ("noGraphics", TrainingOptions.no_graphics options);
            ("skipConda", TrainingOptions.skip_conda options);
            ("launchTensorboard", TrainingOptions.launch_tensorboard options) ] in
  write_json (Path.parts metadata_path) payload.

Definition try_load (h : Host) (run_directory : Path.t) : result (option t) :=
  let metadata_path := run_directory // "run_logs" // metadata_file_name in
  if negb (Path_exists h metadata_path) then Ok None
  else
    try_except
      (let* payload := read_json h (Path.parts metadata_path) in
       let* env_path := py_get payload "envPath" PNone in
       let* config_path := py_getitem payload "configPath" in
       let* run_id := py_getitem payload "runId" in
       let* results_directory := py_getitem payload "resultsDirectory" in
       let* conda_environment_name := py_getitem payload "condaEnvironmentName" in
       let* base_port := py_get payload "basePort" PNone in
       let* no_graphics := py_get payload "noGraphics" (PBool false) in
       let* skip_conda := py_get payload "skipConda" (PBool false) in
       let* launch_tensorboard := py_get payload "launchTensorboard" (PBool false) in
       Ok (Some {| env_path := env_path;
                   config_path := config_path;
                   run_id := run_id;
                   results_directory := results_directory;
                   conda_environment_name := conda_environment_name;
                   base_port := base_port;
                   no_graphics := no_graphics;
                   skip_conda := skip_conda;
                   launch_tensorboard := launch_tensorboard |}))
      [OSError; KeyError; JSONDecodeError]
      (Ok None).

Definition to_options (self : t) : TrainingOptions.t :=
  {| TrainingOptions.env_executable_path := env_path self;
     TrainingOptions.trainer_config_path := config_path self;
     TrainingOptions.run_id := run_id self;
     TrainingOptions.results_directory := results_directory self;
     TrainingOptions.conda_environment_name := conda_environment_name self;
     TrainingOptions.base_port := base_port self;
     TrainingOptions.no_graphics := no_graphics self;
     TrainingOptions.skip_conda := skip_conda self;
     TrainingOptions.launch_tensorboard := launch_tensorboard self;
     TrainingOptions.default_results_directory := PStr DEFAULT_RESULTS_DIRECTORY |}.
End TrainingRunMetadata.

Module TrainingSessionRunner.
Definition DEFAULT_TENSORBOARD_PORT : Z := 6006.

(** The URL of a runner built without an explicit port: the default port
    when the monitor is requested, whether or not one already listens. *)
Definition tensorboard_url (options : TrainingOptions.t) : option string :=
  if truthy (TrainingOptions.launch_tensorboard options)
  then Some ("http://localhost:" +:+ pretty DEFAULT_TENSORBOARD_PORT)
  else None.
End TrainingSessionRunner.

Module TrainingRunState.
Record t := mk {
  options : TrainingOptions.t;
  log_path : string;
  tensorboard_url : option string;
  _task : TaskState TrainingRunOutcome.t;
}.

(** Runs inside the event loop; the task it schedules has not run yet
    when it returns. *)
Definition start_new (options : TrainingOptions.t) : M Host t :=
  results_directory <- lift (as_str (TrainingOptions.results_directory options)) ;;
  run_id <- lift (as_str (TrainingOptions.run_id options)) ;;
  let run_directory := Path.of_string results_directory // run_id in
  let run_logs_directory := run_directory // "run_logs" in
  Path_mkdir run_logs_directory ;;;
  TrainingRunMetadata.save run_directory options ;;;
  let log_path := run_logs_directory // "mentor-api.log" in
  ret {| options := options;
         log_path := Path.to_string log_path;
         tensorboard_url := TrainingSessionRunner.tensorboard_url options;
         _task := Pending |}.

Definition is_completed (self : t) : bool :=
  match _task self with Pending => false | _ => true end.

Definition to_payload (self : t) : result TrainingStatusPayload.t :=
  let '(status, exit_code, message) :=
    match _task self with
    | Cancelled => ("failed", None, Some "Training was canceled.")
    | Returned outcome =>
        (if TrainingRunOutcome.is_success outcome then "succeeded" else "failed",
         TrainingRunOutcome.exit_code outcome,
         match TrainingRunOutcome.error outcome with
         | Some error => Some error
         | None => None
         end)
    | Failed exc => ("failed", None, Some exc)
    | Pending => ("running", None, None)
    end in
  let* results_directory := as_str (TrainingOptions.results_directory (options self)) in
  let* run_id := as_str (TrainingOptions.run_id (options self)) in
  let training_status_path := build_training_status_path results_directory run_id in
  let completed := negb (String.eqb status "running") in
  Ok {| TrainingStatusPayload.run_id := TrainingOptions.run_id (options self);
        TrainingStatusPayload.status := status;
        TrainingStatusPayload.completed := completed;
        TrainingStatusPayload.exit_code := exit_code;
        TrainingStatusPayload.results_directory :=
          TrainingOptions.results_directory (options self);
        TrainingStatusPayload.training_status_path := Some training_status_path;
        TrainingStatusPayload.message := message;
        TrainingStatusPayload.tensorboard_url := tensorboard_url self |}.
End TrainingRunState.

Module TrainingStartResult.
Record t := mk {
  is_started : bool;
  run : option TrainingRunState.t;
  message : option string;
}.

Definition started (run : TrainingRunState.t) : t := mk true (Some run) None.

Definition conflict (run : TrainingRunState.t) (message : option string) : t :=
  mk false (Some run) message.
End TrainingStartResult.

(** ** The process: host, registry, log sink *)

Record World := {
  host : Host;
  _runs : gmap string TrainingRunState.t;   (* [TrainingRunStore._runs] *)
  sink : list string;                       (* what the [log] callback has printed *)
}.

Definition on_host {A} (m : M Host A) : M World A :=
  λ w, let '(r, h) := m (host w) in
       (r, {| host := h; _runs := _runs w; sink := sink w |}).

Definition get_world : M World World := λ w, (Ok w, w).

Definition set_run (key : string) (state : TrainingRunState.t) : M World () :=
  λ w, (Ok (), {| host := host w; _runs := <[key := state]> (_runs w); sink := sink w |}).

Definition print_line (line : string) : M World () :=
  λ w, (Ok (), {| host := host w; _runs := _runs w; sink := sink w ++ [line] |}).

(** The key a value makes in a dict whose keys are all strings: a string is
    itself, a list or a dict cannot be hashed, anything else matches no key. *)
Definition hashable (v : pyval) : result (option string) :=
  match v with
  | PStr s => Ok (Some s)
  | PList _ | PDict _ => Raise TypeError
  | _ => Ok None
  end.

(** [os.path.isfile] on a value that is not a string: an int (a bool is
    one) names a descriptor, which must fit a C int. *)
Inductive isfile_outcome := IsFile | NotFile | StatOverflowError.

Definition fd_isfile (h : Host) (fd : Z) : isfile_outcome :=
  if ((-2147483648 <=? fd) && (fd <=? 2147483647))%Z
  then if fd_regular h fd then IsFile else NotFile
  else StatOverflowError.

Module TrainingRunStore.

Definition _resolve_results_directory (h : Host) (results_dir_override : option string) : string :=
  let candidate :=
    match results_dir_override with
    | Some d => if String.eqb d "" then DEFAULT_RESULTS_DIRECTORY else d
    | None => DEFAULT_RESULTS_DIRECTORY
    end in
  abspath h candidate.

Definition try_start (options : TrainingOptions.t) : M World TrainingStartResult.t :=
  key <- lift (hashable (TrainingOptions.run_id options)) ;;
  w <- get_world ;;
  let start :=
    state <- on_host (TrainingRunState.start_new options) ;;
    run_id <- lift (as_str (TrainingOptions.run_id options)) ;;
    set_run run_id state ;;;
    ret (TrainingStartResult.started state) in
  match key with
  | Some run_id =>
      match _runs w !! run_id with
      | Some existing =>
          if negb (TrainingRunState.is_completed existing) then
            ret (TrainingStartResult.conflict existing
                   (Some ("Training run '" +:+ run_id +:+ "' is already in progress.")))
          else start
      | None => start
      end
  | None => start
  end.

Definition get_status (w : World) (run_id : string) (results_dir_override : option string)
  : result TrainingStatusPayload.t :=
  match _runs w !! run_id with
  | Some tracked => TrainingRunState.to_payload tracked
  | None =>
      let results_dir := _resolve_results_directory (host w) results_dir_override in
      TrainingStatusPayload.from_files (host w) run_id results_dir
  end.

(** [messages.append(msg)] followed by [if log: log(msg)]; the result is
    what was appended. *)
Definition emit (log : option (string → string)) (msg : string) : M World (list string) :=
  match log with
  | Some render => print_line (render msg) ;;; ret [msg]
  | None => ret [msg]
  end.

(** [not env_path or not os.path.isfile(env_path)
     or not env_path.lower().endswith(".exe")]:
    [Ok (Some text)] when the test holds, [text] being what
    [{env_path or '<null>'}] prints; [Ok None] when it does not. *)
Definition env_path_rejected (h : Host) (env_path : pyval) : result (option string) :=
  if negb (truthy env_path) then Ok (Some "<null>")
  else
    let by_descriptor (fd : Z) (text : string) :=
      match fd_isfile h fd with
      | NotFile => Ok (Some text)
      | IsFile => Raise AttributeError          (* an int has no [lower] *)
      | StatOverflowError => Raise OverflowError
      end in
    match env_path with
    | PStr s =>
        if negb (os_path_isfile h s) || negb (endswith (lower s) ".exe")
        then Ok (Some s) else Ok None
    | PInt z => by_descriptor z (pretty z)
    | PBool b => by_descriptor (if b then 1 else 0)%Z (if b then "True" else "False")
    | _ => Raise TypeError
    end.

(** One turn of the loop of [resume_unfinished_runs]; the result is what
    the turn appends to [messages]. *)
Definition resume_entry (log : option (string → string)) (results_dir : string)
    (run_directory : Path.t) : M World (list string) :=
  w <- get_world ;;
  if negb (Path_is_dir (host w) run_directory) then ret []
  else
    let run_id := Path.name run_directory in
    let status_path := build_training_status_path results_dir run_id in
    status <- lift (_try_read_status (host w) status_path) ;;
    if _is_completed_status status then ret []
    else
      metadata <- lift (TrainingRunMetadata.try_load (host w) run_directory) ;;
      match metadata with
      | None =>
          emit log ("Skipped '" +:+ run_id
                    +:+ "' because run_metadata.json is missing or unreadable.")
      | Some metadata =>
          let env_path := TrainingRunMetadata.env_path metadata in
          rejected <- lift (env_path_rejected (host w) env_path) ;;
          match rejected with
          | Some text =>
              emit log ("Skipped '" +:+ run_id
                        +:+ "' because envPath is missing or not a valid .exe ("
                        +:+ text +:+ ").")
          | None =>
              start_result <- try_start (TrainingRunMetadata.to_options metadata) ;;
              let status_label :=
                lower (match status with
                       | Some s => if String.eqb s "" then "unknown" else s
                       | None => "unknown"
                       end) in
              if TrainingStartResult.is_started start_result then
                emit log ("Resumed unfinished training '" +:+ run_id
                          +:+ "' (previous status: " +:+ status_label +:+ ").")
              else
                emit log (match TrainingStartResult.message start_result with
                          | Some m =>
                              if String.eqb m ""
                              then "Training run '" +:+ run_id +:+ "' is already active."
                              else m
                          | None => "Training run '" +:+ run_id +:+ "' is already active."
                          end)
          end
      end.

Fixpoint resume_loop (log : option (string → string)) (results_dir : string)
    (entries : list Path.t) (messages : list string) : M World (list string) :=
  match entries with
  | [] => ret messages
  | run_directory :: rest =>
      appended <- resume_entry log results_dir run_directory ;;
      resume_loop log results_dir rest (messages ++ appended)
  end.

Definition resume_unfinished_runs (log : option (string → string))
    (results_dir_override : option string) : M World (list string) :=
  w <- get_world ;;
  let results_dir := _resolve_results_directory (host w) results_dir_override in
  if negb (os_path_isdir (host w) results_dir) then
    emit log ("Results directory '" +:+ results_dir
              +:+ "' does not exist. Nothing to resume.")
  else
    let entries :=
      Path.child (Path.of_string results_dir)
        <$> listdir (host w) (components results_dir) in
    resume_loop log results_dir entries [].

End TrainingRunStore.

(** ** Vocabulary of the statements *)

(** The words that denote success, and failure, once lowered. *)
Definition success_words : list string := ["success"; "succeeded"; "completed"].
Definition failure_words : list string := ["failure"; "failed"].

(** The string held by the ["status"] field of a node's JSON object, if the
    node is a readable regular file holding an object with such a field. *)
Definition status_field (n : option node) : option string :=
  match n with
  | Some (File (Json (PDict d))) =>
      match assoc d "status" with
      | Some (PStr s) => Some s
      | _ => None
      end
  | _ => None
  end.

(** The node of the terminal status file of run [run_id]. *)
Definition status_node (h : Host) (results_dir run_id : string) : option node :=
  lookup_node h (components (build_training_status_path results_dir run_id)).

(** The record tracked for [run_id] has a task that is not done. *)
Definition running (w : World) (run_id : string) : Prop :=
  ∃ existing, _runs w !! run_id = Some existing
              ∧ TrainingRunState.is_completed existing = false.

(** The node of the metadata document of the run kept in [run_directory]. *)
Definition metadata_node (h : Host) (run_directory : Path.t) : option node :=
  lookup_node h
    (Path.parts (run_directory // "run_logs" // TrainingRunMetadata.metadata_file_name)).

(** [options] with the dataclass default in [default_results_directory]. *)
Definition with_default_results_directory (options : TrainingOptions.t) : TrainingOptions.t :=
  {| TrainingOptions.env_executable_path := TrainingOptions.env_executable_path options;
     TrainingOptions.trainer_config_path := TrainingOptions.trainer_config_path options;
     TrainingOptions.run_id := TrainingOptions.run_id options;
     TrainingOptions.results_directory := TrainingOptions.results_directory options;
     TrainingOptions.conda_environment_name := TrainingOptions.conda_environment_name options;
     TrainingOptions.base_port := TrainingOptions.base_port options;
     TrainingOptions.no_graphics := TrainingOptions.no_graphics options;
     TrainingOptions.skip_conda := TrainingOptions.skip_conda options;
     TrainingOptions.launch_tensorboard := TrainingOptions.launch_tensorboard options;
     TrainingOptions.default_results_directory := PStr DEFAULT_RESULTS_DIRECTORY |}.

(** Every node of [h] outside the metadata documents is still there, as it
    was, in [h']. *)
Definition keeps_files (h h' : Host) : Prop :=
  ∀ (k : list string) (n : node),
    last k ≠ Some TrainingRunMetadata.metadata_file_name →
    files h !! k = Some n → files h' !! k = Some n.

(** A plain name: one piece, a component, not anchored. *)
Definition leaf (b : string) : Prop :=
  split_sep b "" = [b] ∧ is_component b = true ∧ startswith b "/" = false.



(** ** Proof steps *)

(** Unfold the plumbing of [M]. *)
Ltac run_steps := unfold seq, lift, get_world, on_host, set_run, ret.

(** Go through the words of a literal list that [H] says a string is in,
    closing each case with [tac]. *)
Ltac each_word H tac :=
  unfold success_words, failure_words in H; cbn [app] in H;
  repeat (apply elem_of_cons in H as [H | H]; [tac H|]);
  by apply elem_of_nil in H.

(** ** Sample worlds *)

(** A results root [res] with five runs: [fresh] has a directory and
    nothing else, [done] has a terminal status file saying [Success],
    [blank] has one whose status is the empty string, [lost] has one saying
    [failed], and [bad] has a metadata document that is a JSON array. *)
Definition sample_host : Host :=
  {| files :=
       list_to_map
         [ (["res"], Dir);
           (["res"; "fresh"], Dir);
           (["res"; "done"], Dir);
           (["res"; "done"; "run_logs"], Dir);
           (["res"; "done"; "run_logs"; "training_status.json"],
            File (Json (PDict [("status", PStr "Success")])));
           (["res"; "blank"], Dir);
           (["res"; "blank"; "run_logs"], Dir);
           (["res"; "blank"; "run_logs"; "training_status.json"],
            File (Json (PDict [("status", PStr "")])));
           (["res"; "lost"], Dir);
           (["res"; "lost"; "run_logs"], Dir);
           (["res"; "lost"; "run_logs"; "training_status.json"],
            File (Json (PDict [("status", PStr "failed")])));
           (["res"; "bad"], Dir);
           (["res"; "bad"; "run_logs"], Dir);
           (["res"; "bad"; "run_logs"; "run_metadata.json"], File (Json (PList []))) ];
     fd_regular := λ _, false;
     abspath := λ p, p |}.

Definition sample_world : World :=
  {| host := sample_host; _runs := ∅; sink := [] |}.

Definition sample_options : TrainingOptions.t :=
  {| TrainingOptions.env_executable_path := PStr "env/Ball.exe";
     TrainingOptions.trainer_config_path := PStr "config/ppo/3DBall.yaml";
     TrainingOptions.run_id := PStr "r1";
     TrainingOptions.results_directory := PStr "res";
     TrainingOptions.conda_environment_name := PStr "mlagents";
     TrainingOptions.base_port := PInt 5005;
     TrainingOptions.no_graphics := PBool true;
     TrainingOptions.skip_conda := PBool false;
     TrainingOptions.launch_tensorboard := PBool true;
     TrainingOptions.default_results_directory := PStr DEFAULT_RESULTS_DIRECTORY |}.

(** The same options built with another value for the dataclass field
    [default_results_directory]. *)
Definition relocated_options : TrainingOptions.t :=
  {| TrainingOptions.env_executable_path := PStr "env/Ball.exe";
     TrainingOptions.trainer_config_path := PStr "config/ppo/3DBall.yaml";
     TrainingOptions.run_id := PStr "r1";
     TrainingOptions.results_directory := PStr "res";
     TrainingOptions.conda_environment_name := PStr "mlagents";
     TrainingOptions.base_port := PInt 5005;
     TrainingOptions.no_graphics := PBool true;
     TrainingOptions.skip_conda := PBool false;
     TrainingOptions.launch_tensorboard := PBool true;
     TrainingOptions.default_results_directory := PStr "D:\results" |}.

(** A record whose process has exited with code 1 and no error. *)
Definition exited_state : TrainingRunState.t :=
  {| TrainingRunState.options := sample_options;
     TrainingRunState.log_path := "res/r1/run_logs/mentor-api.log";
     TrainingRunState.tensorboard_url := Some "http://localhost:6006";
     TrainingRunState._task := Returned (TrainingRunOutcome.from_exit_code 1) |}.

Definition exited_world : World :=
  {| host := sample_host; _runs := {[ "r1" := exited_state ]}; sink := [] |}.



(** ** The registry over time *)

(** What the coroutine [_execute] of [start_new] makes of a run of the
    supervisor: its exit code, or the exception it raised. *)
Definition _execute (run : Z + string) : TrainingRunOutcome.t :=
  match run with
  | inl exit_code => TrainingRunOutcome.from_exit_code exit_code
  | inr exc => TrainingRunOutcome.from_error exc
  end.

(** The record under [key] with its task in state [task]. *)
Definition with_task (task : TaskState TrainingRunOutcome.t) (state : TrainingRunState.t)
  : TrainingRunState.t :=
  {| TrainingRunState.options := TrainingRunState.options state;
     TrainingRunState.log_path := TrainingRunState.log_path state;
     TrainingRunState.tensorboard_url := TrainingRunState.tensorboard_url state;
     TrainingRunState._task := task |}.





(** From [runs] to [runs'] no identifier is dropped, a record that is
    still running stays the very same record, and a completed one is
    either kept or replaced by a record whose task is pending. *)
Definition registry_extends (runs runs' : gmap string TrainingRunState.t) : Prop :=
  ∀ key state,
    runs !! key = Some state →
    runs' !! key = Some state
    ∨ (TrainingRunState.is_completed state = true
       ∧ ∃ state', runs' !! key = Some state'
                   ∧ TrainingRunState._task state' = Pending).

(** What the sink receives for the messages [added]. *)
Definition logged (log : option (string → string)) (added : list string) : list string :=
  match log with
  | Some render => render <$> added
  | None => []
  end.

(** A results root [runs] with one unfinished run, [ball], whose metadata
    document names the run [ball-7] and an executable that exists. *)
Definition recoverable_host : Host :=
  {| files :=
       list_to_map
         [ (["runs"], Dir);
           (["runs"; "ball"], Dir);
           (["runs"; "ball"; "run_logs"], Dir);
           (["runs"; "ball"; "run_logs"; "run_metadata.json"],
            File (Json (PDict [ ("envPath", PStr "env/Ball.EXE");
                                ("configPath", PStr "config/ppo/3DBall.yaml");
                                ("runId", PStr "ball-7");
                                ("resultsDirectory", PStr "runs");
                                ("condaEnvironmentName", PStr "mlagents");
                                ("noGraphics", PBool true) ])));
           (["env"], Dir);
           (["env"; "Ball.EXE"], File Unreadable);
           (["notes.txt"], File Malformed) ];
     fd_regular := λ _, false;
     abspath := λ p, p |}.

Definition recoverable_world : World :=
  {| host := recoverable_host; _runs := ∅; sink := [] |}.

(** [recoverable_world] after the scan has taken its turn on [ball]. *)
Definition resumed_world : World :=
  (TrainingRunStore.resume_entry None "runs" (Path.of_string "runs/ball")
     recoverable_world).2.

(** ** training_runner.py: the commands of a session *)

(** [TrainingOptions] with the field types the dataclass declares, which
    is what the parser builds and the runner is written for. *)
Module TypedOptions.
Record t := mk {
  env_executable_path : option string;
  trainer_config_path : string;
  run_id : string;
  results_directory : string;
  conda_environment_name : string;
  base_port : option Z;
  no_graphics : bool;
  skip_conda : bool;
  launch_tensorboard : bool;
}.

Definition opt_str (v : option string) : pyval :=
  match v with Some s => PStr s | None => PNone end.

Definition opt_int (v : option Z) : pyval :=
  match v with Some z => PInt z | None => PNone end.

(** The object itself, built with the default for
    [default_results_directory]. *)
Definition to_options (o : t) : TrainingOptions.t :=
  {| TrainingOptions.env_executable_path := opt_str (env_executable_path o);
     TrainingOptions.trainer_config_path := PStr (trainer_config_path o);
     TrainingOptions.run_id := PStr (run_id o);
     TrainingOptions.results_directory := PStr (results_directory o);
     TrainingOptions.conda_environment_name := PStr (conda_environment_name o);
     TrainingOptions.base_port := opt_int (base_port o);
     TrainingOptions.no_graphics := PBool (no_graphics o);
     TrainingOptions.skip_conda := PBool (skip_conda o);
     TrainingOptions.launch_tensorboard := PBool (launch_tensorboard o);
     TrainingOptions.default_results_directory := PStr DEFAULT_RESULTS_DIRECTORY |}.
End TypedOptions.

(** What a runner sees of the machine: the disk, the variable [CONDA_EXE],
    and the local ports that accept a connection. *)
Record RunnerEnv := {
  runner_host : Host;
  CONDA_EXE : option string;
  port_in_use : Z → bool;
}.

Module SessionRunner.
Record t := mk {
  options : TypedOptions.t;
  log_path : string;
  _reuse_existing_tensorboard : bool;
  _tensorboard_port : option Z;
}.

(** [explicit_port or DEFAULT_TENSORBOARD_PORT], then the probe of the
    port: the result is the port and whether a monitor is reused. *)
Definition _determine_tensorboard_port (env : RunnerEnv) (explicit_port : option Z)
  : Z * bool :=
  let desired :=
    match explicit_port with
    | Some p => if (p =? 0)%Z then TrainingSessionRunner.DEFAULT_TENSORBOARD_PORT else p
    | None => TrainingSessionRunner.DEFAULT_TENSORBOARD_PORT
    end in
  if port_in_use env desired then (desired, true) else (desired, false).

(** [TrainingSessionRunner(options, log_path, tensorboard_port)] *)
Definition init (env : RunnerEnv) (options : TypedOptions.t) (log_path : string)
    (tensorboard_port : option Z) : t :=
  if TypedOptions.launch_tensorboard options then
    let '(port, reuse) := _determine_tensorboard_port env tensorboard_port in
    {| options := options; log_path := log_path;
       _reuse_existing_tensorboard := reuse; _tensorboard_port := Some port |}
  else
    {| options := options; log_path := log_path;
       _reuse_existing_tensorboard := false; _tensorboard_port := tensorboard_port |}.

Definition tensorboard_url (self : t) : option string :=
  match _tensorboard_port self with
  | None => None
  | Some port => Some ("http://localhost:" +:+ pretty port)
  end.






End SessionRunner.



(** ** From a request to the options of a run

    [cli_args.py] turns the fields of a request into an argument list,
    [options.py] parses argument lists into options, and [app.py] chains
    the two before it asks the registry for a run.

    Further conventions.
    - Text is ASCII. [isspace] is [str.isspace] below 128 (the six
      characters C knows and the separators 28 to 31) and is what
      [str.strip] removes; [int] skips only the six ([is_c_space]);
      [str.isalnum] holds of the ASCII letters and digits.
    - The interpreter is known by its digit limit on conversions between
      integers and text ([sys.get_int_max_str_digits], 0 for none), the text
      [strftime] makes of the clock, and the lines a text file yields when
      it is iterated over.
    - A parser returns the pair [(options, None)] or [(None, error)]; the
      pair is a value of a sum, [inr options] or [inl error]. *)

(** *** Text *)

Definition isspace (c : ascii) : bool :=
  let n := Ascii.N_of_ascii c in
  ((9 <=? n) && (n <=? 13) || (28 <=? n) && (n <=? 32))%N.

Definition is_c_space (c : ascii) : bool :=
  let n := Ascii.N_of_ascii c in
  ((9 <=? n) && (n <=? 13) || (n =? 32))%N.

Definition is_digit (c : ascii) : bool :=
  let n := Ascii.N_of_ascii c in ((48 <=? n) && (n <=? 57))%N.

Definition isalpha (c : ascii) : bool :=
  let n := Ascii.N_of_ascii c in
  ((65 <=? n) && (n <=? 90) || (97 <=? n) && (n <=? 122))%N.

Definition isalnum (c : ascii) : bool := isalpha c || is_digit c.

(** [s.lstrip(chars)], [s.rstrip(chars)] and [s.strip(chars)], for the
    characters that satisfy [p]. *)
Fixpoint lstrip_with (p : ascii → bool) (s : string) : string :=
  match s with
  | String c r => if p c then lstrip_with p r else s
  | EmptyString => EmptyString
  end.

Fixpoint rstrip_with (p : ascii → bool) (s : string) : string :=
  match s with
  | String c r =>
      match rstrip_with p r with
      | EmptyString => if p c then EmptyString else String c EmptyString
      | r' => String c r'
      end
  | EmptyString => EmptyString
  end.

Definition strip_with (p : ascii → bool) (s : string) : string :=
  rstrip_with p (lstrip_with p s).

(** [s.strip()] *)
Definition strip (s : string) : string := strip_with isspace s.

(** [s[n:]] and [s[:n]] for [n] not negative. *)
Fixpoint drop_chars (n : nat) (s : string) : string :=
  match n, s with
  | S n', String _ r => drop_chars n' r
  | _, _ => s
  end.

Fixpoint take_chars (n : nat) (s : string) : string :=
  match n, s with
  | S n', String c r => String c (take_chars n' r)
  | _, _ => EmptyString
  end.

(** [s.find(c)] for a character: the first index of [c], or -1. *)
Fixpoint find_char (s : string) (c : ascii) : Z :=
  match s with
  | String c' r =>
      if Ascii.eqb c' c then 0%Z
      else let i := find_char r c in if (i <? 0)%Z then (-1)%Z else (i + 1)%Z
  | EmptyString => (-1)%Z
  end.

Fixpoint map_chars (f : ascii → ascii) (s : string) : string :=
  match s with
  | String c r => String (f c) (map_chars f r)
  | EmptyString => EmptyString
  end.

(** Truth value of an [Optional[str]] and of an [Optional[bool]]. *)
Definition str_truthy (v : option string) : bool :=
  match v with
  | Some s => negb (String.eqb s "")
  | None => false
  end.

Definition bool_truthy (v : option bool) : bool := default false v.

(** [a or b] on [Optional[str]] *)
Definition str_or (a b : option string) : option string :=
  if str_truthy a then a else b.

(** *** Integers and text *)

Record Interpreter := {
  int_max_str_digits : nat;            (* [sys.get_int_max_str_digits()] *)
  utcnow : string;                     (* [datetime.utcnow().strftime("%Y%m%d-%H%M%S")] *)
  text_lines : string → list string;   (* the lines read from a file before its
                                          stream ends or fails *)
}.

(** The limit applies above [sys.int_info.str_digits_check_threshold]. *)
Definition str_digits_check_threshold : nat := 640.

Definition over_digit_limit (i : Interpreter) (length digits : nat) : bool :=
  (str_digits_check_threshold <? length)%nat
  && (0 <? int_max_str_digits i)%nat
  && (int_max_str_digits i <? digits)%nat.

(** [str(n)]: the decimal text of [n]; [None] is [ValueError], raised
    beyond the digit limit. *)
Definition py_str_int (i : Interpreter) (n : Z) : option string :=
  let text := pretty n in
  if over_digit_limit i (String.length text) (String.length (pretty (Z.abs n)))
  then None else Some text.

Definition digit_value (c : ascii) : Z := (Z.of_N (Ascii.N_of_ascii c) - 48)%Z.

(** The digits and single underscores at the head of [s], read after
    [prev]: the value and number of the digits and the text that follows
    them; [None] when two underscores meet or an underscore comes last. *)
Fixpoint scan_digits (s : string) (prev : ascii) (value : Z) (digits : nat)
  : option (Z * nat * string) :=
  match s with
  | String c r =>
      if is_digit c then scan_digits r c (10 * value + digit_value c)%Z (S digits)
      else if Ascii.eqb c "_" then
        if Ascii.eqb prev "_" then None else scan_digits r c value digits
      else if Ascii.eqb prev "_" then None else Some (value, digits, s)
  | EmptyString => if Ascii.eqb prev "_" then None else Some (value, digits, s)
  end.

(** The sign at the head of [s], as whether it is [-], and what follows. *)
Definition split_sign (s : string) : bool * string :=
  match s with
  | String c r =>
      if Ascii.eqb c "+" then (false, r)
      else if Ascii.eqb c "-" then (true, r)
      else (false, s)
  | EmptyString => (false, s)
  end.

(** [int(text)] in base ten: white space, a sign, digits with single
    underscores between them, white space; [None] is [ValueError]. *)
Definition py_int (i : Interpreter) (text : string) : option Z :=
  let '(negative, s) := split_sign (lstrip_with is_c_space text) in
  if startswith s "_" then None
  else
    match scan_digits s "000" 0 0 with
    | Some (value, digits, rest) =>
        if (digits =? 0)%nat then None
        else if negb (String.eqb (lstrip_with is_c_space rest) "") then None
        else if over_digit_limit i digits digits then None
        else Some (if negative then (- value)%Z else value)
    | None => None
    end.

(** *** cli_args.py *)

Module TrainingRequest.
Record t := mk {
  results_dir : option string;
  conda_env : option string;
  base_port : option Z;
  no_graphics : option bool;
  skip_conda : option bool;
  tensorboard : option bool;
  env_path : option string;
  config : option string;
  run_id : option string;
}.
End TrainingRequest.

Module ReportInterpreterRequest.
Record t := mk {
  results_dir : option string;
  run_id : option string;
  prompt : option string;
  openai_model : option string;
  openai_api_key : option string;
  check_openai : option bool;
}.
End ReportInterpreterRequest.

Module cli_args.

(** [if value: args.extend([name, value])] *)
Definition extend_if (name : string) (value : option string) : list string :=
  match value with
  | Some v => if String.eqb v "" then [] else [name; v]
  | None => []
  end.

(** [if flag: args.append(name)] *)
Definition append_if (name : string) (flag : option bool) : list string :=
  if bool_truthy flag then [name] else [].

(** [None] is the [ValueError] of [str(request.base_port)]. *)
Definition from_training (i : Interpreter) (request : TrainingRequest.t)
    (env_path_override config_override run_id_override : option string)
  : option (list string) :=
  let env_path := str_or env_path_override (TrainingRequest.env_path request) in
  let config := str_or config_override (TrainingRequest.config request) in
  let args :=
    extend_if "--env-path" env_path
    ++ extend_if "--config" config
    ++ extend_if "--run-id" run_id_override
    ++ extend_if "--results-dir" (TrainingRequest.results_dir request)
    ++ extend_if "--conda-env" (TrainingRequest.conda_env request) in
  match TrainingRequest.base_port request with
  | Some port =>
      match py_str_int i port with
      | Some text =>
          Some (args ++ ["--base-port"; text]
                ++ append_if "--no-graphics" (TrainingRequest.no_graphics request)
                ++ append_if "--skip-conda" (TrainingRequest.skip_conda request)
                ++ append_if "--tensorboard" (TrainingRequest.tensorboard request))
      | None => None
      end
  | None =>
      Some (args
            ++ append_if "--no-graphics" (TrainingRequest.no_graphics request)
            ++ append_if "--skip-conda" (TrainingRequest.skip_conda request)
            ++ append_if "--tensorboard" (TrainingRequest.tensorboard request))
  end.

(** The two fields every report request has. *)
Definition from_report (run_id results_dir : option string) : list string :=
  extend_if "--run-id" run_id ++ extend_if "--results-dir" results_dir.

Definition from_report_interpreter (request : ReportInterpreterRequest.t) : list string :=
  from_report (ReportInterpreterRequest.run_id request)
              (ReportInterpreterRequest.results_dir request)
  ++ extend_if "--prompt" (ReportInterpreterRequest.prompt request)
  ++ extend_if "--openai-model" (ReportInterpreterRequest.openai_model request)
  ++ extend_if "--openai-api-key" (ReportInterpreterRequest.openai_api_key request)
  ++ append_if "--check-openai" (ReportInterpreterRequest.check_openai request).
End cli_args.

(** *** options.py *)

Module options.

Definition DEFAULT_CONDA_ENV : string := "mlagents".
Definition DEFAULT_PROMPT : string := "Explain current results".
Definition DEFAULT_MODEL : string := "gpt-4o-mini".

Definition _abspath (h : Host) (path : string) : string := abspath h path.

(** The pair [(full_path, None)] or [(None, error)]. *)
Definition _normalize_file (h : Host) (path description : string) : string + string :=
  let full_path := _abspath h path in
  if negb (os_path_isfile h full_path)
  then inl ("Could not find the specified " +:+ description +:+ " at '"
            +:+ full_path +:+ "'.")
  else inr full_path.

Definition _normalize_directory (h : Host) (path : string) : string + string :=
  inr (abspath h path).

Fixpoint _count_leading_spaces (text : string) : nat :=
  match text with
  | String c r =>
      if Ascii.eqb c " " then S (_count_leading_spaces r)
      else if Ascii.eqb c "009" then S (S (_count_leading_spaces r))
      else 0%nat
  | EmptyString => 0%nat
  end.

(** What the loop of [_normalize_behavior_name] appends for [ch]. *)
Definition behavior_char (ch : ascii) : ascii :=
  if isalnum ch then lower_ascii ch
  else if Ascii.eqb ch "-" || Ascii.eqb ch "_" then ch
  else "-"%char.

Definition _normalize_behavior_name (behavior_name : string) : option string :=
  if String.eqb (strip behavior_name) "" then None
  else
    let normalized := strip_with (Ascii.eqb "-") (map_chars behavior_char behavior_name) in
    if String.eqb normalized "" then None else Some normalized.

(** The loop of [_extract_behavior_name] over the lines of the stream;
    leaving the loop, by [break] or at its end, gives [None]. *)
Fixpoint behavior_of_lines (lines : list string) (in_behaviors : bool)
    (behaviors_indent : nat) : option string :=
  match lines with
  | [] => None
  | raw_line :: rest =>
      if String.eqb (strip raw_line) "" then
        behavior_of_lines rest in_behaviors behaviors_indent
      else
        let indent := _count_leading_spaces raw_line in
        let trimmed := strip raw_line in
        if startswith trimmed "#" then
          behavior_of_lines rest in_behaviors behaviors_indent
        else if negb in_behaviors then
          if startswith (lower trimmed) "behaviors:"
          then behavior_of_lines rest true indent
          else behavior_of_lines rest in_behaviors behaviors_indent
        else if (indent <=? behaviors_indent)%nat then None
        else
          let colon_index := find_char trimmed ":" in
          if (colon_index <=? 0)%Z then
            behavior_of_lines rest in_behaviors behaviors_indent
          else
            let behavior_name := strip (take_chars (Z.to_nat colon_index) trimmed) in
            let normalized := _normalize_behavior_name behavior_name in
            if str_truthy normalized then normalized
            else behavior_of_lines rest in_behaviors behaviors_indent
  end.

Definition _extract_behavior_name (i : Interpreter) (h : Host)
    (trainer_config_path : option string) : option string :=
  match trainer_config_path with
  | Some path =>
      if String.eqb path "" || negb (os_path_isfile h path) then None
      else behavior_of_lines (text_lines i path) false 0
  | None => None
  end.

Definition _default_run_id (i : Interpreter) (h : Host)
    (trainer_config_path : option string) : string :=
  let timestamp := utcnow i in
  let behavior := _extract_behavior_name i h trainer_config_path in
  match behavior with
  | Some b => if String.eqb b "" then "run-" +:+ timestamp
              else "run-" +:+ b +:+ "-" +:+ timestamp
  | None => "run-" +:+ timestamp
  end.

(** The argument loop of the three parsers: an argument must start with
    [--]; when its key is one of [value_keys] the next argument is its
    value, whatever it looks like; [handle] is the chain of tests on the
    key, which updates the local variables or ends the parse with an
    error. *)
Section ArgumentLoop.
Context {Locals : Type}.
Variable value_keys : list string.
Variable handle : string → option string → Locals → result (string + Locals).

Fixpoint parse_loop (args : list string) (locals : Locals) : result (string + Locals) :=
  match args with
  | [] => Ok (inr locals)
  | raw_arg :: rest =>
      if negb (startswith raw_arg "--")
      then Ok (inl ("Unrecognized argument '" +:+ raw_arg +:+ "'."))
      else
        let key := drop_chars 2 raw_arg in
        if existsb (String.eqb key) value_keys then
          match rest with
          | [] => Ok (inl ("Missing value for --" +:+ key +:+ "."))
          | value :: rest' =>
              match handle key (Some value) locals with
              | Ok (inr locals') => parse_loop rest' locals'
              | stop => stop
              end
          end
        else
          match handle key None locals with
          | Ok (inr locals') => parse_loop rest locals'
          | stop => stop
          end
  end.
End ArgumentLoop.

(** What a method or function of [str] makes of [value], which is [None]
    for a key that takes no value. *)
Definition method_of (value : option string) : result string :=
  match value with Some v => Ok v | None => Raise AttributeError end.

Definition argument_of (value : option string) : result string :=
  match value with Some v => Ok v | None => Raise TypeError end.

Module TrainingOptions.

Record locals := mk_locals {
  env_path : option string;
  config_path : option string;
  run_id : option string;
  results_dir : option string;
  conda_env : option string;
  base_port : option Z;
  no_graphics : bool;
  skip_conda : bool;
  launch_tensorboard : bool;
}.

Definition initial : locals :=
  {| env_path := None; config_path := None; run_id := None; results_dir := None;
     conda_env := None; base_port := None; no_graphics := false; skip_conda := false;
     launch_tensorboard := false |}.

Definition value_keys : list string :=
  ["env-path"; "config"; "run-id"; "results-dir"; "conda-env"; "base-port"].

Definition handle (i : Interpreter) (h : Host) (key : string) (value : option string)
    (l : locals) : result (string + locals) :=
  if String.eqb key "env-path" then
    let* v := argument_of value in
    match _normalize_file h v "environment executable" with
    | inl error => Ok (inl error)
    | inr full_path =>
        Ok (inr {| env_path := Some full_path; config_path := config_path l;
                   run_id := run_id l; results_dir := results_dir l;
                   conda_env := conda_env l; base_port := base_port l;
                   no_graphics := no_graphics l; skip_conda := skip_conda l;
                   launch_tensorboard := launch_tensorboard l |})
    end
  else if String.eqb key "config" then
    let* v := argument_of value in
    match _normalize_file h v "trainer config" with
    | inl error => Ok (inl error)
    | inr full_path =>
        Ok (inr {| env_path := env_path l; config_path := Some full_path;
                   run_id := run_id l; results_dir := results_dir l;
                   conda_env := conda_env l; base_port := base_port l;
                   no_graphics := no_graphics l; skip_conda := skip_conda l;
                   launch_tensorboard := launch_tensorboard l |})
    end
  else if String.eqb key "run-id" then
    let* v := method_of value in
    if String.eqb (strip v) "" then Ok (inl "--run-id must not be empty.")
    else
      Ok (inr {| env_path := env_path l; config_path := config_path l;
                 run_id := Some (strip v); results_dir := results_dir l;
                 conda_env := conda_env l; base_port := base_port l;
                 no_graphics := no_graphics l; skip_conda := skip_conda l;
                 launch_tensorboard := launch_tensorboard l |})
  else if String.eqb key "results-dir" then
    let* v := argument_of value in
    match _normalize_directory h v with
    | inl error => Ok (inl error)
    | inr directory =>
        Ok (inr {| env_path := env_path l; config_path := config_path l;
                   run_id := run_id l; results_dir := Some directory;
                   conda_env := conda_env l; base_port := base_port l;
                   no_graphics := no_graphics l; skip_conda := skip_conda l;
                   launch_tensorboard := launch_tensorboard l |})
    end
  else if String.eqb key "conda-env" then
    let* v := method_of value in
    let trimmed := strip v in
    if String.eqb trimmed "" then Ok (inl "--conda-env must not be empty.")
    else
      Ok (inr {| env_path := env_path l; config_path := config_path l;
                 run_id := run_id l; results_dir := results_dir l;
                 conda_env := Some trimmed; base_port := base_port l;
                 no_graphics := no_graphics l; skip_conda := skip_conda l;
                 launch_tensorboard := launch_tensorboard l |})
  else if String.eqb key "base-port" then
    let* v := argument_of value in
    match py_int i v with
    | None => Ok (inl "--base-port must be a positive integer.")
    | Some port =>
        if (port <=? 0)%Z then Ok (inl "--base-port must be a positive integer.")
        else
          Ok (inr {| env_path := env_path l; config_path := config_path l;
                     run_id := run_id l; results_dir := results_dir l;
                     conda_env := conda_env l; base_port := Some port;
                     no_graphics := no_graphics l; skip_conda := skip_conda l;
                     launch_tensorboard := launch_tensorboard l |})
    end
  else if String.eqb key "no-graphics" then
    Ok (inr {| env_path := env_path l; config_path := config_path l;
               run_id := run_id l; results_dir := results_dir l;
               conda_env := conda_env l; base_port := base_port l;
               no_graphics := true; skip_conda := skip_conda l;
               launch_tensorboard := launch_tensorboard l |})
  else if String.eqb key "skip-conda" then
    Ok (inr {| env_path := env_path l; config_path := config_path l;
               run_id := run_id l; results_dir := results_dir l;
               conda_env := conda_env l; base_port := base_port l;
               no_graphics := no_graphics l; skip_conda := true;
               launch_tensorboard := launch_tensorboard l |})
  else if String.eqb key "tensorboard" then
    Ok (inr {| env_path := env_path l; config_path := config_path l;
               run_id := run_id l; results_dir := results_dir l;
               conda_env := conda_env l; base_port := base_port l;
               no_graphics := no_graphics l; skip_conda := skip_conda l;
               launch_tensorboard := true |})
  else Ok (inl ("Unknown option '--" +:+ key +:+ "'.")).

(** What follows the loop. *)
Definition finish (i : Interpreter) (h : Host) (l : locals) : string + TypedOptions.t :=
  if negb (str_truthy (config_path l)) then inl "--config is required."
  else
    let results_dir :=
      if negb (str_truthy (results_dir l))
      then match _normalize_directory h DEFAULT_RESULTS_DIRECTORY with
           | inr directory => inr (Some directory)
           | inl error => inl error
           end
      else inr (results_dir l) in
    match results_dir with
    | inl error => inl error
    | inr results_dir =>
        if negb (str_truthy results_dir)
        then inl "Failed to resolve default results directory."
        else
          let run_id :=
            if negb (str_truthy (run_id l))
            then _default_run_id i h (config_path l) else default "" (run_id l) in
          let conda_env :=
            if negb (str_truthy (conda_env l))
            then DEFAULT_CONDA_ENV else default "" (conda_env l) in
          inr {| TypedOptions.env_executable_path := env_path l;
                 TypedOptions.trainer_config_path := default "" (config_path l);
                 TypedOptions.run_id := run_id;
                 TypedOptions.results_directory := default "" results_dir;
                 TypedOptions.conda_environment_name := conda_env;
                 TypedOptions.base_port := base_port l;
                 TypedOptions.no_graphics := no_graphics l;
                 TypedOptions.skip_conda := skip_conda l;
                 TypedOptions.launch_tensorboard := launch_tensorboard l |}
    end.

Definition try_parse (i : Interpreter) (h : Host) (args : list string)
  : result (string + TypedOptions.t) :=
  let* parsed := parse_loop value_keys (handle i h) args initial in
  match parsed with
  | inl error => Ok (inl error)
  | inr l => Ok (finish i h l)
  end.
End TrainingOptions.

Module ReportOptions.
Record t := mk { run_id : string; results_directory : string }.

Record locals := mk_locals {
  l_run_id : option string;
  l_results_directory : option string;
}.

Definition initial : locals := {| l_run_id := None; l_results_directory := None |}.

Definition value_keys : list string := ["run-id"; "results-dir"].

Definition handle (h : Host) (key : string) (value : option string) (l : locals)
  : result (string + locals) :=
  if String.eqb key "run-id" then
    let* v := method_of value in
    if String.eqb (strip v) "" then Ok (inl "--run-id must not be empty.")
    else Ok (inr {| l_run_id := Some (strip v);
                    l_results_directory := l_results_directory l |})
  else if String.eqb key "results-dir" then
    let* v := argument_of value in
    match _normalize_directory h v with
    | inl error => Ok (inl error)
    | inr directory =>
        Ok (inr {| l_run_id := l_run_id l; l_results_directory := Some directory |})
    end
  else Ok (inl ("Unknown option '--" +:+ key +:+ "'.")).

(** The resolution of the results directory that ends the two report
    parsers. *)
Definition resolve_results_directory (h : Host) (results_directory : option string)
  : string + string :=
  let resolved :=
    if negb (str_truthy results_directory)
    then match _normalize_directory h DEFAULT_RESULTS_DIRECTORY with
         | inr directory => inr (Some directory)
         | inl error => inl error
         end
    else inr results_directory in
  match resolved with
  | inl error => inl error
  | inr resolved =>
      if negb (str_truthy resolved)
      then inl "Failed to resolve default results directory."
      else inr (default "" resolved)
  end.

Definition finish (h : Host) (l : locals) : string + t :=
  if negb (str_truthy (l_run_id l)) then inl "--run-id is required."
  else
    match resolve_results_directory h (l_results_directory l) with
    | inl error => inl error
    | inr results_directory =>
        inr {| run_id := default "" (l_run_id l);
               results_directory := results_directory |}
    end.

Definition try_parse (h : Host) (args : list string) : result (string + t) :=
  let* parsed := parse_loop value_keys (handle h) args initial in
  match parsed with
  | inl error => Ok (inl error)
  | inr l => Ok (finish h l)
  end.
End ReportOptions.

Module ReportInterpreterOptions.
Record t := mk {
  run_id : string;
  results_directory : string;
  prompt : string;
  openai_model : option string;
  openai_api_key : option string;
  check_openai : bool;
}.

Record locals := mk_locals {
  l_run_id : option string;
  l_results_directory : option string;
  l_prompt : string;
  l_openai_model : option string;
  l_openai_api_key : option string;
  l_check_openai : bool;
}.

Definition initial : locals :=
  {| l_run_id := None; l_results_directory := None; l_prompt := DEFAULT_PROMPT;
     l_openai_model := None; l_openai_api_key := None; l_check_openai := false |}.

Definition value_keys : list string :=
  ["run-id"; "results-dir"; "prompt"; "openai-model"; "openai-api-key"].

Definition handle (h : Host) (key : string) (value : option string) (l : locals)
  : result (string + locals) :=
  if String.eqb key "run-id" then
    let* v := method_of value in
    if String.eqb (strip v) "" then Ok (inl "--run-id must not be empty.")
    else
      Ok (inr {| l_run_id := Some (strip v);
                 l_results_directory := l_results_directory l;
                 l_prompt := l_prompt l; l_openai_model := l_openai_model l;
                 l_openai_api_key := l_openai_api_key l;
                 l_check_openai := l_check_openai l |})
  else if String.eqb key "results-dir" then
    let* v := argument_of value in
    match _normalize_directory h v with
    | inl error => Ok (inl error)
    | inr directory =>
        Ok (inr {| l_run_id := l_run_id l; l_results_directory := Some directory;
                   l_prompt := l_prompt l; l_openai_model := l_openai_model l;
                   l_openai_api_key := l_openai_api_key l;
                   l_check_openai := l_check_openai l |})
    end
  else if String.eqb key "prompt" then
    let* v := method_of value in
    Ok (inr {| l_run_id := l_run_id l; l_results_directory := l_results_directory l;
               l_prompt := if negb (String.eqb (strip v) "") then strip v else l_prompt l;
               l_openai_model := l_openai_model l;
               l_openai_api_key := l_openai_api_key l;
               l_check_openai := l_check_openai l |})
  else if String.eqb key "openai-model" then
    let* v := method_of value in
    Ok (inr {| l_run_id := l_run_id l; l_results_directory := l_results_directory l;
               l_prompt := l_prompt l; l_openai_model := Some (strip v);
               l_openai_api_key := l_openai_api_key l;
               l_check_openai := l_check_openai l |})
  else if String.eqb key "openai-api-key" then
    let* v := method_of value in
    Ok (inr {| l_run_id := l_run_id l; l_results_directory := l_results_directory l;
               l_prompt := l_prompt l; l_openai_model := l_openai_model l;
               l_openai_api_key := Some (strip v);
               l_check_openai := l_check_openai l |})
  else if String.eqb key "check-openai" then
    Ok (inr {| l_run_id := l_run_id l; l_results_directory := l_results_directory l;
               l_prompt := l_prompt l; l_openai_model := l_openai_model l;
               l_openai_api_key := l_openai_api_key l;
               l_check_openai := true |})
  else Ok (inl ("Unknown option '--" +:+ key +:+ "'.")).

Definition finish (h : Host) (l : locals) : string + t :=
  if negb (str_truthy (l_run_id l)) then inl "--run-id is required."
  else
    match ReportOptions.resolve_results_directory h (l_results_directory l) with
    | inl error => inl error
    | inr results_directory =>
        inr {| run_id := default "" (l_run_id l);
               results_directory := results_directory;
               prompt := l_prompt l;
               openai_model :=
                 if negb (str_truthy (l_openai_model l))
                 then Some DEFAULT_MODEL else l_openai_model l;
               openai_api_key := l_openai_api_key l;
               check_openai := l_check_openai l |}
    end.

Definition try_parse (h : Host) (args : list string) : result (string + t) :=
  let* parsed := parse_loop value_keys (handle h) args initial in
  match parsed with
  | inl error => Ok (inl error)
  | inr l => Ok (finish h l)
  end.
End ReportInterpreterOptions.
End options.

(** *** app.py *)

Module app.

Definition _normalize_run_id (requested_run_id : option string) : option string :=
  match requested_run_id with
  | Some id =>
      if String.eqb id "" || String.eqb (strip id) "" then None
      else
        let trimmed := strip id in
        if String.eqb (lower trimmed) "first3dballrun" then None else Some trimmed
  | None => None
  end.

(** The arguments the [/train] handler parses: the resolution of the three
    overrides, then [from_training]. *)
Definition train_arguments (i : Interpreter) (request : TrainingRequest.t)
  : option (list string) :=
  let resolved_env_path := str_or (TrainingRequest.env_path request) None in
  let resolved_config :=
    str_or (TrainingRequest.config request) (Some "config/ppo/3DBall.yaml") in
  let resolved_run_id := _normalize_run_id (TrainingRequest.run_id request) in
  cli_args.from_training i request resolved_env_path resolved_config resolved_run_id.
End app.

(** *** report_interpreter.py: the retry loop *)

Module report_interpreter.

Definition MAX_RETRIES : nat := 3.

(** What a call of [_call_openai] does: it returns the completion, or
    raises [OpenAiResponseError], or raises another exception. *)
Inductive call_outcome :=
| Completion (message : string)
| OpenAiResponseError (status_code : Z) (response_body : string)
| OtherException (text : string).

(** What [_call_openai_with_retry] raises. *)
Inductive raised :=
| LastError (error : call_outcome)
| RuntimeError (text : string).

(** What the loop does that the outside sees. *)
Inductive effect :=
| Call (attempt : nat)
| Sleep (delay : Z).

(** The loop over [attempt in range(1, MAX_RETRIES + 1)], from [attempts]
    on: [call] tells what the call of each attempt does; the result is the
    completion or the last error, and the effects in their order. *)
Fixpoint retry_loop (call : nat → call_outcome) (attempts : list nat) (delay : Z)
    (last_error : option call_outcome) : (string + option call_outcome) * list effect :=
  match attempts with
  | [] => (inr last_error, [])
  | attempt :: rest =>
      match call attempt with
      | Completion message => (inl message, [Call attempt])
      | OpenAiResponseError status_code response_body =>
          let exc := OpenAiResponseError status_code response_body in
          if negb (status_code =? 429)%Z || (attempt =? MAX_RETRIES)%nat
          then (inr (Some exc), [Call attempt])
          else
            let '(r, effects) := retry_loop call rest (delay * 2)%Z (Some exc) in
            (r, Call attempt :: Sleep delay :: effects)
      | OtherException text => (inr (Some (OtherException text)), [Call attempt])
      end
  end.

Definition _call_openai_with_retry (call : nat → call_outcome)
  : (string + raised) * list effect :=
  let '(r, effects) := retry_loop call (List.seq 1 MAX_RETRIES) 1 None in
  (match r with
   | inl message => inl message
   | inr (Some last_error) => inr (LastError last_error)
   | inr None => inr (RuntimeError "OpenAI call failed without an exception.")
   end, effects).
End report_interpreter.

(** *** Vocabulary of the statements *)

(** Every character of [s] satisfies [p]. *)
Fixpoint all_chars (p : ascii → bool) (s : string) : bool :=
  match s with
  | String c r => p c && all_chars p r
  | EmptyString => true
  end.

(** The characters of a normalized name: lower-case letters, digits,
    hyphen and underscore. *)
Definition name_char (c : ascii) : bool :=
  let n := Ascii.N_of_ascii c in
  ((97 <=? n) && (n <=? 122) || (48 <=? n) && (n <=? 57) || (n =? 45) || (n =? 95))%N.

(** The characters of the time stamp [%Y%m%d-%H%M%S]. *)
Definition stamp_char (c : ascii) : bool := is_digit c || Ascii.eqb c "-".

(** [s] neither starts nor ends with a character that satisfies [p]. *)
Definition trimmed (p : ascii → bool) (s : string) : Prop := strip_with p s = s.

(** The effects of a loop that made [n] calls: a call per attempt, and
    between two calls a sleep of twice the time of the one before. *)
Definition attempts_made (n : nat) : list report_interpreter.effect :=
  take (2 * n - 1)
    [ report_interpreter.Call 1; report_interpreter.Sleep 1;
      report_interpreter.Call 2; report_interpreter.Sleep 2;
      report_interpreter.Call 3 ].

Definition is_rate_limited (outcome : report_interpreter.call_outcome) : bool :=
  match outcome with
  | report_interpreter.OpenAiResponseError status_code _ => (status_code =? 429)%Z
  | _ => false
  end.

(** The refusals that a [/train] request can meet. *)
Definition train_refusal (h : Host) (error : string) : Prop :=
  (∃ path, os_path_isfile h path = false
           ∧ error = "Could not find the specified environment executable at '"
                     +:+ path +:+ "'.")
  ∨ (∃ path, os_path_isfile h path = false
             ∧ error = "Could not find the specified trainer config at '"
                       +:+ path +:+ "'.")
  ∨ error = "--conda-env must not be empty."
  ∨ error = "--base-port must be a positive integer."
  ∨ error = "Failed to resolve default results directory.".

(** Case analysis on the tests of a chain of [if key == ...]. *)
Ltac each_key :=
  repeat match goal with
         | |- context [if String.eqb ?key ?name then _ else _] =>
             destruct (String.eqb key name) eqn:?
         end.

(** *** Fixtures *)

Definition sample_interpreter : Interpreter :=
  {| int_max_str_digits := 4300;
     utcnow := "20240131-093000";
     text_lines := λ _, ["# trainer"; "Behaviors:"; "  3D Ball:"; "    trainer_type: ppo"] |}.

(** A machine with the executable and the trainer configuration of a run. *)
Definition training_host : Host :=
  {| files :=
       list_to_map
         [ (["env"], Dir);
           (["env"; "Ball.exe"], File Unreadable);
           (["config"], Dir);
           (["config"; "ppo"], Dir);
           (["config"; "ppo"; "3DBall.yaml"], File Malformed) ];
     fd_regular := λ _, false;
     abspath := λ p, p |}.

Definition sample_request : TrainingRequest.t :=
  {| TrainingRequest.results_dir := Some "--skip-conda";
     TrainingRequest.conda_env := None;
     TrainingRequest.base_port := Some 5005%Z;
     TrainingRequest.no_graphics := Some true;
     TrainingRequest.skip_conda := None;
     TrainingRequest.tensorboard := Some false;
     TrainingRequest.env_path := Some "env/Ball.exe";
     TrainingRequest.config := None;
     TrainingRequest.run_id := Some " First3DBallRun " |}.

(** * Properties *)

(** ** Reading and normalising the terminal status *)

Section Status.
Import TrainingStatusPayload.

Lemma _try_read_status_eq (h : Host) (path : string) :
  _try_read_status h path = Ok (status_field (lookup_node h (components path))).
Proof.
  unfold _try_read_status, read_json, status_field.
  destruct (lookup_node h (components path)) as [[|[| |v]]|]; try reflexivity.
  destruct v; try reflexivity.
  simpl. destruct (assoc d "status") as [[]|]; reflexivity.
Qed.

Lemma lower_nonempty (s : string) : lower s ≠ "" → String.eqb s "" = false.
Proof. destruct s; simpl; [congruence | reflexivity]. Qed.

Lemma _normalize_status_success (s : string) :
  lower s ∈ success_words → _normalize_status (Some s) = "succeeded".
Proof.
  intros Hs. unfold _normalize_status.
  rewrite lower_nonempty.
  - each_word Hs ltac:(fun H => rewrite H; reflexivity).
  - intros E. rewrite E in Hs. each_word Hs ltac:(fun H => discriminate H).
Qed.

Lemma _normalize_status_failure (s : string) :
  lower s ∈ failure_words → _normalize_status (Some s) = "failed".
Proof.
  intros Hs. unfold _normalize_status.
  rewrite lower_nonempty.
  - each_word Hs ltac:(fun H => rewrite H; reflexivity).
  - intros E. rewrite E in Hs. each_word Hs ltac:(fun H => discriminate H).
Qed.


(** With a terminal status file in place, [from_files] takes its first
    branch. *)
Lemma from_files_terminal (h : Host) (run_id results_dir : string) :
  os_path_isfile h (build_training_status_path results_dir run_id) = true →
  from_files h run_id results_dir =
    Ok {| run_id := PStr run_id;
          status := _normalize_status (status_field (status_node h results_dir run_id));
          completed := true;
          exit_code := None;
          results_directory := PStr results_dir;
          training_status_path := Some (build_training_status_path results_dir run_id);
          message := None;
          tensorboard_url := None |}.
Proof.
  intros Hf. unfold from_files. rewrite Hf, _try_read_status_eq. reflexivity.
Qed.

Lemma status_field_isfile (h : Host) (results_dir run_id s : string) :
  status_field (status_node h results_dir run_id) = Some s →
  os_path_isfile h (build_training_status_path results_dir run_id) = true.
Proof.
  unfold status_node, os_path_isfile, status_field.
  destruct (lookup_node _ _) as [[|c]|]; try discriminate. reflexivity.
Qed.

(** [from_files] always returns. *)
Lemma from_files_returns (h : Host) (run_id results_dir : string) :
  ∃ p, from_files h run_id results_dir = Ok p.
Proof.
  unfold from_files. rewrite _try_read_status_eq. simpl.
  destruct (os_path_isfile _ _); [eauto|]. destruct (os_path_isdir _ _); eauto.
Qed.

(** C6. Normalisation of the terminal status is case-insensitive: when
    the terminal status file of a run is a JSON object with a string
    ["status"] field, the file-backed answer is ["succeeded"] if the
    field is any casing of success, succeeded or completed, and
    ["failed"] if it is any casing of failure or failed; and that answer
    is what [get_status] returns for the run when the registry tracks no
    record for it. *)
Theorem get_status_normalizes_synonyms (h : Host) (run_id results_dir s : string) :
  status_field (status_node h results_dir run_id) = Some s →
  ∃ p, from_files h run_id results_dir = Ok p
       ∧ (lower s ∈ success_words → status p = "succeeded")
       ∧ (lower s ∈ failure_words → status p = "failed")
       ∧ ∀ w results_dir_override,
           host w = h →
           TrainingRunStore._resolve_results_directory h results_dir_override
             = results_dir →
           _runs w !! run_id = None →
           TrainingRunStore.get_status w run_id results_dir_override = Ok p.
Proof.
  intros Hs.
  rewrite from_files_terminal by eauto using status_field_isfile.
  eexists; split; [reflexivity|]. cbn [status]. rewrite Hs.
  split; [apply _normalize_status_success|].
  split; [apply _normalize_status_failure|].
  intros w ov <- <- Hnone. unfold TrainingRunStore.get_status. rewrite Hnone.
  rewrite from_files_terminal by eauto using status_field_isfile.
  by rewrite Hs.
Qed.

(** The document [{"status": "Success"}] yields ["succeeded"]. *)
Lemma get_status_normalizes_synonyms_witness :
  ∃ p, TrainingRunStore.get_status sample_world "done" (Some "res") = Ok p
       ∧ status p = "succeeded".
Proof.
  destruct (get_status_normalizes_synonyms sample_host "done" "res" "Success" eq_refl)
    as (p & _ & Hok & _ & Hget).
  exists p. split; [by apply Hget|].
  apply Hok. apply elem_of_cons. by left.
Defined.


End Status.

Section TerminalFile.
Import TrainingStatusPayload.



End TerminalFile.

(** ** Outcomes and the live record *)

Section Outcome.
Import TrainingRunOutcome.

(** C5, as stated, fails on the outcome with neither exit code nor
    error: it counts as a success although its exit code is not zero. *)
Lemma absent_exit_code_is_success :
  let o := {| exit_code := None; error := None |} in
  ¬ (is_success o = true ↔ error o = None ∧ exit_code o = Some 0%Z).
Proof. simpl. intros [H _]. by destruct (H eq_refl) as [_ ?]. Qed.

(** C5, amended. [is_success] holds iff the error is absent and the exit
    code is zero or absent. *)
Theorem is_success_iff (o : t) :
  is_success o = true
  ↔ error o = None ∧ (exit_code o = Some 0%Z ∨ exit_code o = None).
Proof.
  destruct o as [[z|] [e|]]; unfold is_success, or_zero; simpl;
    try (split; [discriminate | intros [? _]; discriminate]).
  - destruct (Z.eqb_spec z 0) as [->|Hz]; simpl.
    + split; auto.
    + destruct (Z.eqb_spec z 0); [done|]. split; [discriminate|].
      intros [_ [[=] | [=]]]. done.
  - split; auto.
Qed.
End Outcome.

Section LivePayload.
Import TrainingStatusPayload.

(** C4, as stated, fails: a record whose process exited with code 1 and
    no error is reported as failed with no message, and so is a run known
    only by a terminal status file saying [failed]. *)
Lemma failed_without_message :
  (∃ p, TrainingRunStore.get_status exited_world "r1" None = Ok p
        ∧ status p = "failed" ∧ message p = None)
  ∧ (∃ p, TrainingRunStore.get_status sample_world "lost" (Some "res") = Ok p
          ∧ status p = "failed" ∧ message p = None).
Proof.
  split; eexists; (split; [reflexivity|]); split; reflexivity.
Qed.

(** C4, amended. A status query that answers ["failed"] carries a
    message exactly when the answer comes from a tracked record whose
    task was cancelled, raised, or returned an outcome with an error. It
    carries none when the outcome has no error (a non-zero exit code) and
    none when the answer comes from the terminal status file. *)
Theorem failed_message_iff (w : World) (run_id : string)
    (results_dir_override : option string) (p : t) :
  TrainingRunStore.get_status w run_id results_dir_override = Ok p →
  status p = "failed" →
  (message p ≠ None
   ↔ ∃ tracked, _runs w !! run_id = Some tracked
       ∧ match TrainingRunState._task tracked with
         | Cancelled | Failed _ => True
         | Returned outcome => TrainingRunOutcome.error outcome ≠ None
         | Pending => False
         end).
Proof.
  unfold TrainingRunStore.get_status.
  destruct (_runs w !! run_id) as [tracked|] eqn:Hrun.
  - unfold TrainingRunState.to_payload.
    destruct (TrainingRunState._task tracked) as [| |o|exc] eqn:Ht;
      (destruct (as_str (TrainingOptions.results_directory _)) as [rd|];
         [|discriminate]);
      (destruct (as_str (TrainingOptions.run_id _)) as [rid|]; [|discriminate]);
      cbn; intros [= <-]; cbn; intros Hst; try discriminate.
    + split; [intros _; exists tracked; by rewrite Ht | discriminate].
    + split.
      * intros Hm. exists tracked. rewrite Ht. split; [done|].
        by destruct (TrainingRunOutcome.error o).
      * intros (t' & [= <-] & Ho). rewrite Ht in Ho.
        by destruct (TrainingRunOutcome.error o).
    + split; [intros _; exists tracked; by rewrite Ht | discriminate].
  - intros Hp Hst.
    assert (message p = None) as ->.
    { unfold from_files in Hp. rewrite _try_read_status_eq in Hp. cbn in Hp.
      destruct (os_path_isfile _ _); [by injection Hp as <-|].
      destruct (os_path_isdir _ _); injection Hp as <-; discriminate. }
    split; [done|]. by intros (t' & [=] & _).
Qed.

Lemma failed_message_iff_witness :
  ∃ p, TrainingRunStore.get_status exited_world "r1" None = Ok p
       ∧ status p = "failed"
       ∧ message p = None
       ∧ (message p ≠ None
          ↔ ∃ tracked, _runs exited_world !! "r1" = Some tracked
              ∧ match TrainingRunState._task tracked with
                | Cancelled | Failed _ => True
                | Returned outcome => TrainingRunOutcome.error outcome ≠ None
                | Pending => False
                end).
Proof.
  eexists. split; [reflexivity|]. split; [reflexivity|]. split; [reflexivity|].
  exact (failed_message_iff exited_world "r1" None _ eq_refl eq_refl).
Defined.
End LivePayload.

(** ** The metadata store *)

Section Metadata.
Import TrainingRunMetadata.

Lemma metadata_path_parts (d : Path.t) :
  Path.parts (d // "run_logs" // metadata_file_name)
  = Path.parts d ++ ["run_logs"; "run_metadata.json"].
Proof. unfold Path.div. simpl. by rewrite <- app_assoc. Qed.

Lemma lookup_node_snoc (h : Host) (k : list string) (x : string) :
  lookup_node h (k ++ [x]) = files h !! (k ++ [x]).
Proof. by destruct k. Qed.

Lemma try_load_node (h : Host) (d : Path.t) :
  try_load h d =
    match metadata_node h d with
    | None => Ok None
    | Some Dir | Some (File Unreadable) | Some (File Malformed) => Ok None
    | Some (File (Json payload)) =>
        try_except
          (let* env_path := py_get payload "envPath" PNone in
           let* config_path := py_getitem payload "configPath" in
           let* run_id := py_getitem payload "runId" in
           let* results_directory := py_getitem payload "resultsDirectory" in
           let* conda_environment_name := py_getitem payload "condaEnvironmentName" in
           let* base_port := py_get payload "basePort" PNone in
           let* no_graphics := py_get payload "noGraphics" (PBool false) in
           let* skip_conda := py_get payload "skipConda" (PBool false) in
           let* launch_tensorboard := py_get payload "launchTensorboard" (PBool false) in
           Ok (Some (mk env_path config_path run_id results_directory
                       conda_environment_name base_port no_graphics skip_conda
                       launch_tensorboard)))
          [OSError; KeyError; JSONDecodeError]
          (Ok None)
    end.
Proof.
  unfold try_load, metadata_node, Path_exists, read_json.
  destruct (lookup_node h _) as [[|[| |payload]]|]; reflexivity.
Qed.

(** No metadata file: absent, not an error. *)
Lemma try_load_no_file (h : Host) (d : Path.t) :
  metadata_node h d = None → try_load h d = Ok None.
Proof. intros H. by rewrite try_load_node, H. Qed.

(** A file that cannot be read or is not JSON: absent. *)
Lemma try_load_unparsable (h : Host) (d : Path.t) :
  metadata_node h d = Some (File Unreadable)
  ∨ metadata_node h d = Some (File Malformed) →
  try_load h d = Ok None.
Proof. intros [H|H]; by rewrite try_load_node, H. Qed.

(** An object that lacks a required field: absent. *)
Lemma try_load_missing_required (h : Host) (d : Path.t) (fields : list (string * pyval))
    (key : string) :
  metadata_node h d = Some (File (Json (PDict fields))) →
  key ∈ ["configPath"; "runId"; "resultsDirectory"; "condaEnvironmentName"] →
  assoc fields key = None →
  try_load h d = Ok None.
Proof.
  intros H Hkey Hnone. rewrite try_load_node, H. cbn [py_get py_getitem bind].
  repeat (apply elem_of_cons in Hkey as [-> | Hkey];
          [ rewrite ?Hnone;
            repeat (match goal with
                    | |- context [assoc fields ?k] =>
                        destruct (assoc fields k); cbn [bind]
                    end);
            try reflexivity; try discriminate
          | ]).
  by apply elem_of_nil in Hkey.
Qed.

(** An object with the four required fields loads; an optional field that
    is missing takes its default. *)
Lemma try_load_object (h : Host) (d : Path.t) (fields : list (string * pyval))
    (config_path run_id results_directory conda_environment_name : pyval) :
  metadata_node h d = Some (File (Json (PDict fields))) →
  assoc fields "configPath" = Some config_path →
  assoc fields "runId" = Some run_id →
  assoc fields "resultsDirectory" = Some results_directory →
  assoc fields "condaEnvironmentName" = Some conda_environment_name →
  try_load h d =
    Ok (Some {| env_path := default PNone (assoc fields "envPath");
                config_path := config_path;
                run_id := run_id;
                results_directory := results_directory;
                conda_environment_name := conda_environment_name;
                base_port := default PNone (assoc fields "basePort");
                no_graphics := default (PBool false) (assoc fields "noGraphics");
                skip_conda := default (PBool false) (assoc fields "skipConda");
                launch_tensorboard :=
                  default (PBool false) (assoc fields "launchTensorboard") |}).
Proof.
  intros H H1 H2 H3 H4. rewrite try_load_node, H.
  cbn [py_get py_getitem bind]. rewrite H1, H2, H3, H4. reflexivity.
Qed.

(** A document that parses to anything but an object makes [try_load]
    raise: [payload.get] is looked up on a value that has no such
    method, and [AttributeError] is not among the exceptions caught. *)
Lemma try_load_not_an_object (h : Host) (d : Path.t) (payload : pyval) :
  metadata_node h d = Some (File (Json payload)) →
  (∀ fields, payload ≠ PDict fields) →
  try_load h d = Raise AttributeError.
Proof.
  intros H Hv. rewrite try_load_node, H.
  destruct payload; try reflexivity. by destruct (Hv d0).
Qed.

(** C7 at the failing input: the metadata document of run [bad] is the
    JSON array [[]], a valid JSON document in which every required field
    is missing; [try_load] raises instead of returning absent. *)
Theorem try_load_array_document_raises :
  metadata_node sample_host (Path.of_string "res/bad") = Some (File (Json (PList [])))
  ∧ try_load sample_host (Path.of_string "res/bad") = Raise AttributeError.
Proof. split; reflexivity. Qed.

(** What [save] leaves on disk, when it succeeds. *)
Lemma save_node (h h' : Host) (d : Path.t) (o : TrainingOptions.t) :
  save d o h = (Ok (), h') →
  metadata_node h' d =
    Some (File (Json (PDict
      [ ("envPath", TrainingOptions.env_executable_path o);
        ("configPath", TrainingOptions.trainer_config_path o);
        ("runId", TrainingOptions.run_id o);
        ("resultsDirectory", TrainingOptions.results_directory o);
        ("condaEnvironmentName", TrainingOptions.conda_environment_name o);
        ("basePort", TrainingOptions.base_port o);
        ("noGraphics", TrainingOptions.no_graphics o);
        ("skipConda", TrainingOptions.skip_conda o);
        ("launchTensorboard", TrainingOptions.launch_tensorboard o) ]))).
Proof.
  unfold save, seq, metadata_node.
  destruct (Path_mkdir _ h) as [[[]|e] h1]; [|discriminate].
  unfold write_json, with_files.
  destruct (_ && _); [|discriminate].
  intros [= <-]. rewrite metadata_path_parts.
  change (Path.parts d ++ ["run_logs"; "run_metadata.json"])
    with (Path.parts d ++ ["run_logs"] ++ ["run_metadata.json"]).
  rewrite app_assoc, lookup_node_snoc. cbn [files]. apply lookup_insert_eq.
Qed.

(** C9, as stated, fails on options built with another value for the
    dataclass field [default_results_directory]: the document does not
    hold that field, and [to_options] fills in the default. *)
Lemma roundtrip_resets_default_results_directory :
  TrainingOptions.well_typed relocated_options = true
  ∧ ∃ h' m, save (Path.of_string "res/r1") relocated_options sample_host = (Ok (), h')
            ∧ try_load h' (Path.of_string "res/r1") = Ok (Some m)
            ∧ to_options m ≠ relocated_options.
Proof.
  split; [reflexivity|].
  destruct (save (Path.of_string "res/r1") relocated_options sample_host)
    as [r h'] eqn:Hsave.
  assert (r = Ok ()) as -> by (by vm_compute in Hsave; injection Hsave as <- _).
  exists h'. pose proof (save_node _ _ _ _ Hsave) as Hnode.
  eexists. split; [reflexivity|]. split.
  - rewrite try_load_node, Hnode. reflexivity.
  - discriminate.
Qed.

(** C9, amended. After [save d o] has succeeded, [try_load d] returns
    metadata whose [to_options] agrees with [o] on the nine persisted
    fields and has the default in [default_results_directory]; it equals
    [o] whenever [o] has that default. *)
Theorem save_try_load_roundtrip (h h' : Host) (d : Path.t) (o : TrainingOptions.t) :
  save d o h = (Ok (), h') →
  ∃ m, try_load h' d = Ok (Some m)
       ∧ to_options m = with_default_results_directory o
       ∧ (TrainingOptions.default_results_directory o = PStr DEFAULT_RESULTS_DIRECTORY →
          to_options m = o).
Proof.
  intros Hsave. apply save_node in Hsave.
  eexists. split; [|split].
  - rewrite try_load_node, Hsave. reflexivity.
  - reflexivity.
  - intros Hd. destruct o. simpl in Hd. subst. reflexivity.
Qed.

Lemma save_try_load_roundtrip_witness :
  ∃ h' m, save (Path.of_string "res/r1") sample_options sample_host = (Ok (), h')
          ∧ try_load h' (Path.of_string "res/r1") = Ok (Some m)
          ∧ to_options m = sample_options.
Proof.
  destruct (save (Path.of_string "res/r1") sample_options sample_host)
    as [r h'] eqn:Hsave.
  assert (r = Ok ()) as -> by (by vm_compute in Hsave; injection Hsave as <- _).
  destruct (save_try_load_roundtrip _ _ _ _ Hsave) as (m & Hm & _ & Heq).
  exists h', m. split; [reflexivity|]. split; [exact Hm|]. apply Heq. reflexivity.
Defined.
End Metadata.

(** ** When a start goes through *)

Section StartNew.
Lemma mkdir_from_keeps (below above : list string) (fs fs' : gmap (list string) node)
    (r : result ()) (k : list string) (n : node) :
  mkdir_from above below fs = (r, fs') → fs !! k = Some n → fs' !! k = Some n.
Proof.
  revert above fs. induction below as [|c below IH]; intros above fs; cbn.
  - by intros [= _ <-].
  - destruct (fs !! (above ++ [c])) as [[|?]|] eqn:Hk.
    + apply IH.
    + by intros [= _ <-].
    + intros Hm Hn. eapply IH; [exact Hm|].
      rewrite lookup_insert_ne; [done|]. intros <-. congruence.
Qed.




End StartNew.

(** ** The registry *)

Section Registry.
Import TrainingRunStore TrainingStartResult.

Lemma running_dec (w : World) (r : string) : running w r ∨ ¬ running w r.
Proof.
  unfold running. destruct (_runs w !! r) as [existing|] eqn:Hrun.
  - destruct (TrainingRunState.is_completed existing) eqn:Hc.
    + right. intros (e & [= <-] & He). congruence.
    + left. eauto.
  - right. by intros (e & [=] & _).
Qed.

(** A start under an identifier whose record is still running is turned
    down, and nothing changes. *)
Lemma try_start_conflict (w : World) (o : TrainingOptions.t) (r : string)
    (existing : TrainingRunState.t) :
  TrainingOptions.run_id o = PStr r →
  _runs w !! r = Some existing →
  TrainingRunState.is_completed existing = false →
  try_start o w =
    (Ok (conflict existing (Some ("Training run '" +:+ r +:+ "' is already in progress."))),
     w).
Proof.
  intros Hr Hrun Hc. unfold try_start; run_steps. rewrite Hr. cbn.
  rewrite Hrun, Hc. reflexivity.
Qed.

(** Otherwise [start_new] decides: its record is stored under the
    identifier, or its exception leaves the registry as it was. *)
Lemma try_start_fresh (w : World) (o : TrainingOptions.t) (r : string) :
  TrainingOptions.run_id o = PStr r →
  ¬ running w r →
  try_start o w =
    match TrainingRunState.start_new o (host w) with
    | (Ok state, h') =>
        (Ok (started state),
         {| host := h'; _runs := <[r := state]> (_runs w); sink := sink w |})
    | (Raise e, h') =>
        (Raise e, {| host := h'; _runs := _runs w; sink := sink w |})
    end.
Proof.
  intros Hr Hnot. unfold try_start.
  generalize (TrainingRunState.start_new o). intros start_new.
  run_steps. rewrite Hr. cbn.
  assert (match _runs w !! r with
          | Some existing => TrainingRunState.is_completed existing = true
          | None => True
          end) as Hcase.
  { destruct (_runs w !! r) as [existing|] eqn:Hrun; [|done].
    destruct (TrainingRunState.is_completed existing) eqn:Hc; [done|].
    destruct Hnot. exists existing. done. }
  destruct (_runs w !! r) as [existing|]; [rewrite Hcase; cbn|];
    destruct (start_new (host w)) as [[state|e] h']; reflexivity.
Qed.




End Registry.

(** ** The recovery scan *)

Section Frame.
(** What a start writes: directories that were absent, and one metadata
    document. *)

Lemma keeps_files_refl (h : Host) : keeps_files h h.
Proof. by intros k n _ H. Qed.

Lemma keeps_files_trans (h1 h2 h3 : Host) :
  keeps_files h1 h2 → keeps_files h2 h3 → keeps_files h1 h3.
Proof. intros H12 H23 k n Hk H. eauto. Qed.

Lemma Path_mkdir_keeps (p : Path.t) (h h' : Host) (r : result ()) :
  Path_mkdir p h = (r, h') → keeps_files h h'.
Proof.
  unfold Path_mkdir, with_files.
  destruct (mkdir_from _ _ _) as [r0 fs'] eqn:Hm. intros [= _ <-] k n _ Hn.
  cbn. eapply mkdir_from_keeps; eauto.
Qed.

Lemma save_keeps (d : Path.t) (o : TrainingOptions.t) (h h' : Host) (r : result ()) :
  TrainingRunMetadata.save d o h = (r, h') → keeps_files h h'.
Proof.
  unfold TrainingRunMetadata.save, seq. rewrite metadata_path_parts.
  destruct (Path_mkdir _ h) as [[[]|e] h1] eqn:Hm.
  - unfold write_json, with_files. intros Hw.
    eapply keeps_files_trans; [eapply Path_mkdir_keeps, Hm|].
    destruct (_ && _); injection Hw as _ <-; [|apply keeps_files_refl].
    intros k n Hk Hn. cbn [files]. rewrite lookup_insert_ne; [done|].
    intros <-. apply Hk.
    change (Path.parts d ++ ["run_logs"; "run_metadata.json"])
      with (Path.parts d ++ ["run_logs"] ++ ["run_metadata.json"]).
    by rewrite app_assoc, last_snoc.
  - intros [= _ <-]. eapply Path_mkdir_keeps, Hm.
Qed.

Lemma start_new_keeps (o : TrainingOptions.t) (h h' : Host)
    (r : result TrainingRunState.t) :
  TrainingRunState.start_new o h = (r, h') → keeps_files h h'.
Proof.
  unfold TrainingRunState.start_new; run_steps.
  destruct (as_str (TrainingOptions.results_directory o));
    [|intros [= _ <-]; apply keeps_files_refl].
  destruct (as_str (TrainingOptions.run_id o));
    [|intros [= _ <-]; apply keeps_files_refl].
  destruct (Path_mkdir _ h) as [[[]|] h1] eqn:Hm;
    [|intros [= _ <-]; eapply Path_mkdir_keeps, Hm].
  destruct (TrainingRunMetadata.save _ o h1) as [[[]|] h2] eqn:Hs;
    intros [= _ <-];
    (eapply keeps_files_trans; [eapply Path_mkdir_keeps, Hm | eapply save_keeps, Hs]).
Qed.

Lemma try_start_keeps (o : TrainingOptions.t) (w w' : World)
    (r : result TrainingStartResult.t) :
  TrainingRunStore.try_start o w = (r, w') → keeps_files (host w) (host w').
Proof.
  unfold TrainingRunStore.try_start.
  pose proof (start_new_keeps o (host w)) as Hkeep. revert Hkeep.
  generalize (TrainingRunState.start_new o). intros start_new Hkeep.
  unfold seq, lift, get_world, on_host, set_run, ret.
  destruct (hashable _) as [key|]; [|intros [= _ <-]; apply keeps_files_refl].
  assert (∀ r w',
    (let (r0, s') :=
       let '(r0, h) := start_new (host w) in
       (r0, {| host := h; _runs := _runs w; sink := sink w |}) in
     match r0 with
     | Ok state =>
         match as_str (TrainingOptions.run_id o) with
         | Ok run_id =>
             (Ok (TrainingStartResult.started state),
              {| host := host s'; _runs := <[run_id := state]> (_runs s');
                 sink := sink s' |})
         | Raise e => (Raise e, s')
         end
     | Raise e => (Raise e, s')
     end) = (r, w') → keeps_files (host w) (host w')) as Hstart.
  { intros r1 w1. destruct (start_new (host w)) as [[state|e] h1].
    - destruct (as_str _); intros [= _ <-]; cbn; by eapply Hkeep.
    - intros [= _ <-]. cbn. by eapply Hkeep. }
  destruct key as [run_id|]; [|apply Hstart].
  destruct (_runs w !! run_id) as [existing|]; [|apply Hstart].
  destruct (negb _); [intros [= _ <-]; apply keeps_files_refl | apply Hstart].
Qed.
End Frame.

Section PathStrings.
Lemma split_sep_sep (a b cur : string) :
  split_sep (a +:+ String "/" b) cur = split_sep a cur ++ split_sep b "".
Proof.
  revert cur. induction a as [|c a IH]; intros cur; [done|].
  change (String c a +:+ String "/" b) with (String c (a +:+ String "/" b)).
  cbn [split_sep]. destruct (Ascii.eqb c "/"); by rewrite IH.
Qed.

Lemma append_sep_assoc (a b : string) : (a +:+ "/") +:+ b = a +:+ String "/" b.
Proof.
  induction a as [|c a IH]; [done|].
  change ((String c a +:+ "/") +:+ b) with (String c ((a +:+ "/") +:+ b)).
  by rewrite IH.
Qed.

Lemma endswith_sep (a : string) :
  endswith a "/" = true → ∃ a', a = a' +:+ "/".
Proof.
  induction a as [|c a IH]; [discriminate|].
  cbn [endswith]. intros [Heq | Hrest]%orb_true_iff.
  - apply String.eqb_eq in Heq. exists "". by rewrite Heq.
  - destruct (IH Hrest) as [a' ->]. by exists (String c a').
Qed.

Lemma components_join_leaf (a b : string) :
  leaf b → components (os_path_join a b) = components a ++ [b].
Proof.
  intros (Hsplit & Hcomp & Hanchor). unfold os_path_join, components.
  rewrite Hanchor.
  destruct (String.eqb_spec a "") as [->|_]; cbn [orb].
  - change ("" +:+ b) with b. rewrite Hsplit.
    cbn [List.filter split_sep]. by rewrite Hcomp.
  - destruct (endswith a "/") eqn:He.
    + destruct (endswith_sep a He) as [a' ->].
      change (a' +:+ "/") with (a' +:+ String "/" "") at 2.
      rewrite append_sep_assoc, !split_sep_sep, Hsplit.
      change (split_sep "" "") with [""].
      rewrite !List.filter_app. cbn [List.filter]. rewrite Hcomp.
      change (is_component "") with false. cbn iota. by rewrite app_nil_r.
    + change (a +:+ "/" +:+ b) with (a +:+ String "/" b).
      rewrite split_sep_sep, Hsplit, List.filter_app.
      cbn [List.filter]. by rewrite Hcomp.
Qed.

Lemma status_path_last (results_dir run_id : string) :
  last (components (build_training_status_path results_dir run_id))
  = Some "training_status.json".
Proof.
  unfold build_training_status_path.
  rewrite components_join_leaf by (repeat split; reflexivity).
  apply last_snoc.
Qed.
End PathStrings.

Section Resume.
Import TrainingRunStore.

Lemma emit_returns (log : option (string → string)) (msg : string) (w : World) :
  ∃ w', emit log msg w = (Ok [msg], w') ∧ host w' = host w ∧ _runs w' = _runs w.
Proof. destruct log; cbn; eauto. Qed.

Lemma resume_entry_keeps (log : option (string → string)) (results_dir : string)
    (run_directory : Path.t) (w w' : World) (r : result (list string)) :
  resume_entry log results_dir run_directory w = (r, w') →
  keeps_files (host w) (host w').
Proof.
  unfold resume_entry; run_steps.
  destruct (negb _); [intros [= _ <-]; apply keeps_files_refl|].
  rewrite _try_read_status_eq.
  destruct (_is_completed_status _); [intros [= _ <-]; apply keeps_files_refl|].
  destruct (TrainingRunMetadata.try_load _ _) as [[metadata|]|];
    [| |intros [= _ <-]; apply keeps_files_refl].
  - destruct (env_path_rejected _ _) as [[text|]|];
      [| |intros [= _ <-]; apply keeps_files_refl].
    + destruct (emit_returns log
                  ("Skipped '" +:+ Path.name run_directory
                   +:+ "' because envPath is missing or not a valid .exe ("
                   +:+ text +:+ ").") w) as (w1 & -> & Hh & _).
      intros [= _ <-]. rewrite Hh. apply keeps_files_refl.
    + destruct (try_start _ w) as [[start_result|e] w1] eqn:Hstart;
        [|intros [= _ <-]; eapply try_start_keeps, Hstart].
      apply try_start_keeps in Hstart.
      destruct (TrainingStartResult.is_started start_result);
        match goal with
        | |- emit log ?m w1 = _ → _ =>
            destruct (emit_returns log m w1) as (w2 & -> & Hh & _)
        end; intros [= _ <-]; by rewrite Hh.
  - destruct (emit_returns log
                ("Skipped '" +:+ Path.name run_directory
                 +:+ "' because run_metadata.json is missing or unreadable.") w)
      as (w1 & -> & Hh & _).
    intros [= _ <-]. rewrite Hh. apply keeps_files_refl.
Qed.

Lemma _is_completed_status_terminal (s : string) :
  lower s ∈ success_words ++ failure_words →
  _is_completed_status (Some s) = true.
Proof.
  intros Hs. unfold _is_completed_status.
  rewrite lower_nonempty.
  - each_word Hs ltac:(fun H => rewrite H; reflexivity).
  - intros E. rewrite E in Hs. each_word Hs ltac:(fun H => discriminate H).
Qed.

(** The turn for a run whose terminal status file records a recognised
    terminal state does nothing at all. *)
Lemma resume_entry_finished (log : option (string → string)) (results_dir : string)
    (run_directory : Path.t) (w : World) (s : string) :
  status_field (status_node (host w) results_dir (Path.name run_directory)) = Some s →
  lower s ∈ success_words ++ failure_words →
  resume_entry log results_dir run_directory w = (Ok [], w).
Proof.
  intros Hfield Hs. unfold resume_entry; run_steps.
  destruct (negb _); [done|].
  rewrite _try_read_status_eq. fold (status_node (host w) results_dir
                                       (Path.name run_directory)).
  by rewrite Hfield, _is_completed_status_terminal.
Qed.

(** A terminal status file outlives the turns of other runs. *)
Lemma status_field_kept (h h' : Host) (results_dir run_id s : string) :
  keeps_files h h' →
  status_field (status_node h results_dir run_id) = Some s →
  status_field (status_node h' results_dir run_id) = Some s.
Proof.
  intros Hkeep. unfold status_node.
  pose proof (status_path_last results_dir run_id) as Hlast.
  destruct (components (build_training_status_path results_dir run_id)) as [|c k];
    [discriminate|].
  unfold lookup_node. destruct (files h !! (c :: k)) as [n|] eqn:Hn; [|discriminate].
  rewrite (Hkeep (c :: k) n); [done| |done]. rewrite Hlast. discriminate.
Qed.

(** C8. A run whose terminal status file holds, in any casing, one of
    success, succeeded, completed, failure or failed is never resumed:
    its turn of the scan returns at the status check, before the
    metadata is looked at and before [try_start], leaving the world
    untouched and adding no message; and wherever the run comes in the
    scan, the whole scan goes as if the run were not listed. *)
Theorem resume_skips_finished_runs (log : option (string → string))
    (results_dir : string) (run_directory : Path.t) (w : World) (s : string) :
  status_field (status_node (host w) results_dir (Path.name run_directory)) = Some s →
  lower s ∈ success_words ++ failure_words →
  resume_entry log results_dir run_directory w = (Ok [], w)
  ∧ (∀ before after messages,
       resume_loop log results_dir (before ++ run_directory :: after) messages w
       = resume_loop log results_dir (before ++ after) messages w)
  ∧ (∀ results_dir_override name names_before names_after,
       _resolve_results_directory (host w) results_dir_override = results_dir →
       os_path_isdir (host w) results_dir = true →
       listdir (host w) (components results_dir) = names_before ++ name :: names_after →
       run_directory = Path.child (Path.of_string results_dir) name →
       resume_unfinished_runs log results_dir_override w
       = resume_loop log results_dir
           (Path.child (Path.of_string results_dir) <$> names_before ++ names_after)
           [] w).
Proof.
  intros Hfield Hs.
  assert (∀ before after messages w,
            status_field (status_node (host w) results_dir (Path.name run_directory))
              = Some s →
            resume_loop log results_dir (before ++ run_directory :: after) messages w
            = resume_loop log results_dir (before ++ after) messages w) as Hloop.
  { clear w Hfield. intros before.
    induction before as [|x before IH]; intros after messages w Hfield.
    - cbn [app resume_loop]. unfold seq.
      rewrite (resume_entry_finished log results_dir run_directory w s) by done.
      by rewrite app_nil_r.
    - cbn [app resume_loop]. unfold seq.
      destruct (resume_entry log results_dir x w) as [[appended|e] w1] eqn:Hx; [|done].
      apply IH. eapply status_field_kept; [|exact Hfield].
      eapply resume_entry_keeps, Hx. }
  split; [by eapply resume_entry_finished|]. split; [by auto|].
  intros results_dir_override name names_before names_after Hdir Hisdir Hlist ->.
  unfold resume_unfinished_runs, seq, get_world. rewrite Hdir, Hisdir, Hlist.
  cbn [negb]. rewrite !fmap_app, fmap_cons. by apply Hloop.
Qed.

Lemma resume_skips_finished_runs_witness :
  resume_entry None "res" (Path.of_string "res/done") sample_world = (Ok [], sample_world)
  ∧ resume_loop None "res"
      [Path.of_string "res/fresh"; Path.of_string "res/done"] [] sample_world
    = resume_loop None "res" [Path.of_string "res/fresh"] [] sample_world.
Proof.
  assert (lower "Success" ∈ success_words ++ failure_words) as Hs
    by (apply elem_of_cons; by left).
  destruct (resume_skips_finished_runs None "res" (Path.of_string "res/done")
              sample_world "Success" eq_refl Hs) as (Hturn & Hscan & _).
  split; [exact Hturn|]. exact (Hscan [Path.of_string "res/fresh"] [] []).
Defined.

(** An unfinished run without a usable metadata document is skipped with
    a message, and the world stays as it is up to the log sink. *)
Lemma resume_entry_missing_metadata (log : option (string → string))
    (results_dir : string) (run_directory : Path.t) (w : World) :
  Path_is_dir (host w) run_directory = true →
  _is_completed_status
    (status_field (status_node (host w) results_dir (Path.name run_directory))) = false →
  metadata_node (host w) run_directory = None
  ∨ metadata_node (host w) run_directory = Some (File Unreadable)
  ∨ metadata_node (host w) run_directory = Some (File Malformed) →
  ∃ w', resume_entry log results_dir run_directory w
        = (Ok ["Skipped '" +:+ Path.name run_directory
               +:+ "' because run_metadata.json is missing or unreadable."], w')
        ∧ host w' = host w ∧ _runs w' = _runs w.
Proof.
  intros Hdir Hstatus Hmeta. unfold resume_entry; run_steps.
  rewrite Hdir, _try_read_status_eq. cbn [negb].
  fold (status_node (host w) results_dir (Path.name run_directory)).
  rewrite Hstatus, try_load_node.
  destruct Hmeta as [-> | [-> | ->]]; apply emit_returns.
Qed.

(** An unfinished run whose recorded executable is absent from the
    metadata, is no regular file, or lacks the [.exe] extension is
    skipped with a message. *)
Lemma resume_entry_bad_executable (log : option (string → string))
    (results_dir : string) (run_directory : Path.t) (w : World)
    (metadata : TrainingRunMetadata.t) :
  Path_is_dir (host w) run_directory = true →
  _is_completed_status
    (status_field (status_node (host w) results_dir (Path.name run_directory))) = false →
  TrainingRunMetadata.try_load (host w) run_directory = Ok (Some metadata) →
  let shown :=
    match TrainingRunMetadata.env_path metadata with
    | PStr s => if String.eqb s "" then "<null>" else s
    | _ => "<null>"
    end in
  TrainingRunMetadata.env_path metadata = PNone
  ∨ (∃ s, TrainingRunMetadata.env_path metadata = PStr s
          ∧ (os_path_isfile (host w) s = false ∨ endswith (lower s) ".exe" = false)) →
  ∃ w', resume_entry log results_dir run_directory w
        = (Ok ["Skipped '" +:+ Path.name run_directory
               +:+ "' because envPath is missing or not a valid .exe ("
               +:+ shown +:+ ")."], w')
        ∧ host w' = host w ∧ _runs w' = _runs w.
Proof.
  intros Hdir Hstatus Hload shown Henv.
  unfold resume_entry; run_steps.
  rewrite Hdir, _try_read_status_eq. cbn [negb].
  fold (status_node (host w) results_dir (Path.name run_directory)).
  rewrite Hstatus, Hload. subst shown.
  destruct Henv as [Hnone | (s & Hs & Hbad)].
  - rewrite Hnone. cbn. apply emit_returns.
  - rewrite Hs. unfold env_path_rejected. cbn [truthy].
    destruct (String.eqb s ""); cbn [negb]; [apply emit_returns|].
    destruct Hbad as [-> | ->]; cbn [negb orb]; [apply emit_returns|].
    rewrite orb_true_r. apply emit_returns.
Qed.

(** C3 at the failing input: the scan of [res], where the metadata
    document of run [bad] is the JSON array [[]], raises and returns
    no messages; the run is neither skipped with a message nor are the
    runs after it looked at. *)
Theorem resume_raises_on_array_metadata :
  metadata_node sample_host (Path.of_string "res/bad") = Some (File (Json (PList [])))
  ∧ (resume_unfinished_runs None (Some "res") sample_world).1 = Raise AttributeError
  ∧ ∀ log after messages w,
      host w = sample_host →
      (resume_loop log "res" (Path.of_string "res/bad" :: after) messages w).1
      = Raise AttributeError.
Proof.
  split; [reflexivity|]. split; [by vm_compute|].
  intros log after messages [h runs out] Hh. cbn in Hh. subst h.
  cbn [resume_loop]. unfold seq.
  assert (resume_entry log "res" (Path.of_string "res/bad")
            {| host := sample_host; _runs := runs; sink := out |}
          = (Raise AttributeError, {| host := sample_host; _runs := runs; sink := out |}))
    as ->; [|done].
  unfold resume_entry; run_steps. cbn [host].
  replace (Path_is_dir sample_host (Path.of_string "res/bad")) with true
    by (by vm_compute).
  cbn [negb]. rewrite _try_read_status_eq.
  replace (status_field _) with (@None string) by (by vm_compute).
  cbn [_is_completed_status].
  by rewrite (try_load_not_an_object sample_host (Path.of_string "res/bad") (PList [])).
Qed.
End Resume.

(** ** The registry over time *)

Section RegistryOverTime.
Import TrainingRunStore.

(** What [start_new] returns is a record of the options it was given,
    with string path options and a task that has not run. *)
Lemma start_new_record (o : TrainingOptions.t) (h h' : Host) (state : TrainingRunState.t) :
  TrainingRunState.start_new o h = (Ok state, h') →
  TrainingRunState.options state = o
  ∧ TrainingRunState._task state = Pending
  ∧ (∃ d, TrainingOptions.results_directory o = PStr d)
  ∧ (∃ r, TrainingOptions.run_id o = PStr r)
  ∧ TrainingRunState.tensorboard_url state = TrainingSessionRunner.tensorboard_url o.
Proof.
  unfold TrainingRunState.start_new; run_steps.
  destruct (TrainingOptions.results_directory o) as [| | | |d| |]; try discriminate.
  destruct (TrainingOptions.run_id o) as [| | | |r| |]; try discriminate.
  cbn [as_str].
  destruct (Path_mkdir _ h) as [[[]|] h1]; [|discriminate].
  destruct (TrainingRunMetadata.save _ o h1) as [[[]|] h2]; [|discriminate].
  intros [= <- <-]. eauto 10.
Qed.

(** The registry after [try_start]: as before, or with the new record
    under the identifier, which no running record held. The sink is not
    written. *)
Lemma try_start_runs (o : TrainingOptions.t) (w w' : World)
    (r : result TrainingStartResult.t) :
  try_start o w = (r, w') →
  sink w' = sink w
  ∧ (_runs w' = _runs w
     ∨ ∃ key state h',
         TrainingOptions.run_id o = PStr key
         ∧ ¬ running w key
         ∧ TrainingRunState.start_new o (host w) = (Ok state, h')
         ∧ r = Ok (TrainingStartResult.started state)
         ∧ _runs w' = <[key := state]> (_runs w)).
Proof.
  destruct (TrainingOptions.run_id o) as [| | | |key| |] eqn:Hr.
  5:{ destruct (running_dec w key) as [(existing & Hrun & Hc)|Hnot].
      - rewrite (try_start_conflict w o key existing Hr Hrun Hc).
        intros [= _ <-]. auto.
      - rewrite (try_start_fresh w o key Hr Hnot).
        destruct (TrainingRunState.start_new o (host w)) as [[state|e] h'] eqn:Hnew;
          intros [= <- <-]; cbn; (split; [done|]); [right|by left].
        exists key, state, h'. done. }
  all: unfold try_start; run_steps; rewrite Hr; cbn [hashable];
    try (intros [= _ <-]; by auto).
  all: destruct (TrainingRunState.start_new o (host w)) as [[state|e] h'] eqn:Hnew;
    [destruct (start_new_record _ _ _ _ Hnew) as (_ & _ & _ & (key & Hkey) & _); congruence|].
  all: intros [= _ <-]; cbn; auto.
Qed.

Lemma registry_extends_refl (runs : gmap string TrainingRunState.t) :
  registry_extends runs runs.
Proof. intros key state H. by left. Qed.

Lemma registry_extends_trans (m1 m2 m3 : gmap string TrainingRunState.t) :
  registry_extends m1 m2 → registry_extends m2 m3 → registry_extends m1 m3.
Proof.
  intros H12 H23 key state H1.
  destruct (H12 key state H1) as [H2 | (Hc & state' & H2 & Hp)].
  - apply (H23 key state H2).
  - right. split; [done|].
    destruct (H23 key state' H2) as [H3 | (Hc' & _)]; [eauto|].
    unfold TrainingRunState.is_completed in Hc'. by rewrite Hp in Hc'.
Qed.

Lemma try_start_extends (o : TrainingOptions.t) (w w' : World)
    (r : result TrainingStartResult.t) :
  try_start o w = (r, w') → registry_extends (_runs w) (_runs w').
Proof.
  intros Hstart.
  destruct (try_start_runs _ _ _ _ Hstart)
    as (_ & [-> | (key & state & h' & Hr & Hnot & Hnew & _ & ->)]);
    [apply registry_extends_refl|].
  intros key' state' H.
  destruct (decide (key = key')) as [<-|Hne].
  - right. rewrite lookup_insert_eq.
    destruct (TrainingRunState.is_completed state') eqn:Hc.
    + split; [done|]. exists state. split; [done|].
      by destruct (start_new_record _ _ _ _ Hnew) as (_ & ? & _).
    + destruct Hnot. by exists state'.
  - left. by rewrite lookup_insert_ne.
Qed.


(** A turn of the scan touches the registry through [try_start] only. *)
Lemma resume_entry_runs (log : option (string → string)) (results_dir : string)
    (run_directory : Path.t) (w w' : World) (r : result (list string)) :
  resume_entry log results_dir run_directory w = (r, w') →
  _runs w' = _runs w
  ∨ ∃ o r0 w0, try_start o w = (r0, w0) ∧ _runs w' = _runs w0.
Proof.
  unfold resume_entry; run_steps.
  destruct (negb _); [intros [= _ <-]; by left|].
  rewrite _try_read_status_eq.
  destruct (_is_completed_status _); [intros [= _ <-]; by left|].
  destruct (TrainingRunMetadata.try_load _ _) as [[metadata|]|];
    [| |intros [= _ <-]; by left].
  - destruct (env_path_rejected _ _) as [[text|]|];
      [| |intros [= _ <-]; by left].
    + match goal with
      | |- emit log ?m w = _ → _ =>
          destruct (emit_returns log m w) as (w1 & -> & _ & Hruns)
      end. intros [= _ <-]. by left.
    + destruct (try_start _ w) as [[start_result|e] w1] eqn:Hstart;
        [|intros [= _ <-]; right; eauto].
      destruct (TrainingStartResult.is_started start_result);
        match goal with
        | |- emit log ?m w1 = _ → _ =>
            destruct (emit_returns log m w1) as (w2 & -> & _ & Hruns)
        end; intros [= _ <-]; right; rewrite Hruns; eauto.
  - match goal with
    | |- emit log ?m w = _ → _ =>
        destruct (emit_returns log m w) as (w1 & -> & _ & Hruns)
    end. intros [= _ <-]. by left.
Qed.

(** What every [try_start] keeps, reflexively and transitively, a whole
    scan keeps. *)
Lemma resume_unfinished_runs_keeps
    (R : gmap string TrainingRunState.t → gmap string TrainingRunState.t → Prop) :
  (∀ m, R m m) →
  (∀ m1 m2 m3, R m1 m2 → R m2 m3 → R m1 m3) →
  (∀ o w r w', try_start o w = (r, w') → R (_runs w) (_runs w')) →
  ∀ log results_dir_override w r w',
    resume_unfinished_runs log results_dir_override w = (r, w') →
    R (_runs w) (_runs w').
Proof.
  intros Hrefl Htrans Hstart log ov w r w'.
  assert (∀ results_dir entries messages w r w',
            resume_loop log results_dir entries messages w = (r, w') →
            R (_runs w) (_runs w')) as Hloop.
  { clear w r w'. intros results_dir entries.
    induction entries as [|x entries IH]; intros messages w r w'; cbn [resume_loop].
    - intros [= _ <-]. apply Hrefl.
    - unfold seq.
      destruct (resume_entry log results_dir x w) as [[appended|e] w1] eqn:Hx.
      + intros Hrest. eapply Htrans; [|eapply IH, Hrest].
        destruct (resume_entry_runs _ _ _ _ _ _ Hx) as [-> | (o & r0 & w0 & H0 & ->)];
          [apply Hrefl | eapply Hstart, H0].
      + intros [= _ <-].
        destruct (resume_entry_runs _ _ _ _ _ _ Hx) as [-> | (o & r0 & w0 & H0 & ->)];
          [apply Hrefl | eapply Hstart, H0]. }
  unfold resume_unfinished_runs; run_steps.
  destruct (negb _); [|apply Hloop].
  match goal with
  | |- emit log ?m w = _ → _ =>
      destruct (emit_returns log m w) as (w1 & -> & _ & Hruns)
  end. intros [= _ <-]. rewrite Hruns. apply Hrefl.
Qed.





(** X2. Neither [try_start] nor a whole recovery scan ever drops an
    identifier from the registry or replaces a record that is still
    running; a completed record is either kept or replaced by a record
    whose task is pending. *)
Theorem calls_extend_registry (w w' : World) :
  (∃ o r, try_start o w = (r, w'))
  ∨ (∃ log results_dir_override r,
       resume_unfinished_runs log results_dir_override w = (r, w')) →
  registry_extends (_runs w) (_runs w').
Proof.
  intros [(o & r & H) | (log & ov & r & H)].
  - eapply try_start_extends, H.
  - eapply (resume_unfinished_runs_keeps registry_extends);
      [apply registry_extends_refl | apply registry_extends_trans | | exact H].
    intros. eapply try_start_extends; eauto.
Qed.

Lemma calls_extend_registry_witness :
  registry_extends (_runs exited_world)
    (_runs (try_start sample_options exited_world).2)
  ∧ ∃ state, _runs (try_start sample_options exited_world).2 !! "r1" = Some state
             ∧ TrainingRunState._task state = Pending.
Proof.
  split.
  - apply calls_extend_registry. left.
    exists sample_options, (try_start sample_options exited_world).1.
    by destruct (try_start sample_options exited_world).
  - eexists. split; [by vm_compute|]. reflexivity.
Defined.
End RegistryOverTime.

(** ** From a start to a status, and to the disk *)

Section Lifecycle.
Import TrainingRunStore TrainingStatusPayload.

(** A start that is accepted: no running record held the identifier, and
    the record comes from [start_new]. *)
Lemma try_start_started (o : TrainingOptions.t) (w w' : World) (key : string)
    (res : TrainingStartResult.t) :
  try_start o w = (Ok res, w') →
  TrainingStartResult.is_started res = true →
  TrainingOptions.run_id o = PStr key →
  ∃ state h',
    TrainingRunState.start_new o (host w) = (Ok state, h')
    ∧ res = TrainingStartResult.started state
    ∧ w' = {| host := h'; _runs := <[key := state]> (_runs w); sink := sink w |}.
Proof.
  intros Hstart Hflag Hr.
  destruct (running_dec w key) as [(existing & Hrun & Hc)|Hnot].
  - rewrite (try_start_conflict w o key existing Hr Hrun Hc) in Hstart.
    injection Hstart as <- _. discriminate.
  - rewrite (try_start_fresh w o key Hr Hnot) in Hstart.
    destruct (TrainingRunState.start_new o (host w)) as [[state|e] h']; [|discriminate].
    injection Hstart as <- <-. eauto.
Qed.


(** X3. Right after [try_start] has accepted a run, a status query for its
    identifier answers from the live record: status ["running"], not
    completed, no exit code, no message, and the monitor URL of the
    record. *)
Theorem started_run_is_running (o : TrainingOptions.t) (w w' : World) (key : string)
    (res : TrainingStartResult.t) (results_dir_override : option string) :
  try_start o w = (Ok res, w') →
  TrainingStartResult.is_started res = true →
  TrainingOptions.run_id o = PStr key →
  ∃ p, get_status w' key results_dir_override = Ok p
       ∧ status p = "running"
       ∧ completed p = false
       ∧ exit_code p = None
       ∧ message p = None
       ∧ results_directory p = TrainingOptions.results_directory o
       ∧ tensorboard_url p = TrainingSessionRunner.tensorboard_url o.
Proof.
  intros Hstart Hflag Hr.
  destruct (try_start_started _ _ _ _ _ Hstart Hflag Hr) as (state & h' & Hnew & _ & ->).
  destruct (start_new_record _ _ _ _ Hnew) as (Ho & Ht & (d & Hd) & _ & Hurl).
  unfold get_status. cbn [_runs]. rewrite lookup_insert_eq.
  unfold TrainingRunState.to_payload. rewrite Ht, Ho, Hd, Hr. cbn.
  eexists. split; [reflexivity|]. cbn. repeat split; done.
Qed.

Lemma started_run_is_running_witness :
  ∃ res w' p,
    try_start sample_options sample_world = (Ok res, w')
    ∧ get_status w' "r1" None = Ok p
    ∧ status p = "running" ∧ completed p = false
    ∧ tensorboard_url p = Some "http://localhost:6006".
Proof.
  destruct (try_start sample_options sample_world) as [r w'] eqn:Hstart.
  assert (∃ res, r = Ok res ∧ TrainingStartResult.is_started res = true)
    as (res & -> & Hflag).
  { apply (f_equal fst) in Hstart. vm_compute in Hstart. subst r. eauto. }
  destruct (started_run_is_running sample_options sample_world w' "r1" res None
              Hstart Hflag eq_refl) as (p & Hp & Hs & Hc & _ & _ & _ & Hurl).
  exists res, w', p. repeat split; assumption.
Defined.


End Lifecycle.

(** ** The payload of a live record *)

Section LiveRecord.
Import TrainingStatusPayload.

(** X5. The payload of a live record says ["running"] exactly while its
    task is pending and [completed] exactly when the task is done; it says
    ["succeeded"] exactly when the task returned a successful outcome, and
    ["failed"] in every other case; the exit code is that of the returned
    outcome, and absent when the task was cancelled or raised. *)
Theorem to_payload_tells_task (self : TrainingRunState.t) (p : t) :
  TrainingRunState.to_payload self = Ok p →
  completed p = TrainingRunState.is_completed self
  ∧ (status p = "running" ↔ TrainingRunState._task self = Pending)
  ∧ (status p = "succeeded"
     ↔ ∃ outcome, TrainingRunState._task self = Returned outcome
                  ∧ TrainingRunOutcome.is_success outcome = true)
  ∧ (status p = "failed"
     ↔ TrainingRunState._task self ≠ Pending ∧ status p ≠ "succeeded")
  ∧ exit_code p = match TrainingRunState._task self with
                  | Returned outcome => TrainingRunOutcome.exit_code outcome
                  | _ => None
                  end.
Proof.
  unfold TrainingRunState.to_payload, TrainingRunState.is_completed.
  destruct (TrainingRunState._task self) as [| |outcome|exc];
    (destruct (as_str (TrainingOptions.results_directory _)); [|discriminate]);
    (destruct (as_str (TrainingOptions.run_id _)); [|discriminate]);
    cbn; intros [= <-]; cbn.
  - repeat split; try done; try discriminate.
    + by intros (o & [=] & _).
    + by intros [? _].
  - repeat split; try done; try discriminate. by intros (o & [=] & _).
  - destruct (TrainingRunOutcome.is_success outcome) eqn:Hs; cbn;
      repeat split; try done; try discriminate; eauto.
    + by intros [_ ?].
    + intros (o & [= <-] & Ho). congruence.
  - repeat split; try done; try discriminate. by intros (o & [=] & _).
Qed.

Lemma to_payload_tells_task_witness :
  ∃ p, TrainingRunState.to_payload exited_state = Ok p
       ∧ completed p = true
       ∧ status p = "failed"
       ∧ exit_code p = Some 1%Z.
Proof.
  eexists. split; [reflexivity|].
  destruct (to_payload_tells_task exited_state _ eq_refl) as (Hc & _ & _ & Hf & He).
  split; [exact Hc|]. split; [|exact He].
  apply Hf. split; discriminate.
Defined.

(** X6. Once the coroutine of a run has finished, the record reports what
    the supervisor did: an exit code [n] gives ["succeeded"] when [n] is
    zero and ["failed"] otherwise, with [exit_code = n] and no message; an
    exception gives ["failed"] with the text of the exception as message
    and no exit code. *)
Theorem finished_run_payload (state : TrainingRunState.t) (run : Z + string) (p : t) :
  TrainingRunState.to_payload (with_task (Returned (_execute run)) state) = Ok p →
  completed p = true
  ∧ match run with
    | inl n =>
        status p = (if (n =? 0)%Z then "succeeded" else "failed")
        ∧ exit_code p = Some n
        ∧ message p = None
    | inr exc =>
        status p = "failed" ∧ exit_code p = None ∧ message p = Some exc
    end.
Proof.
  unfold TrainingRunState.to_payload, with_task. cbn.
  (destruct (as_str (TrainingOptions.results_directory _)); [|discriminate]).
  (destruct (as_str (TrainingOptions.run_id _)); [|discriminate]).
  destruct run as [n|exc]; [|cbn; intros [= <-]; by cbn].
  unfold _execute, TrainingRunOutcome.from_exit_code, TrainingRunOutcome.is_success,
    TrainingRunOutcome.or_zero.
  cbn [TrainingRunOutcome.error TrainingRunOutcome.exit_code andb].
  destruct (Z.eqb_spec n 0) as [->|Hn].
  - cbn. by intros [= <-].
  - destruct (Z.eqb_spec n 0); [done|]. cbn. by intros [= <-].
Qed.

Lemma finished_run_payload_witness :
  ∃ p, TrainingRunState.to_payload
         (with_task (Returned (_execute (inr "spawn failed"))) exited_state) = Ok p
       ∧ status p = "failed" ∧ message p = Some "spawn failed".
Proof.
  eexists. split; [reflexivity|].
  destruct (finished_run_payload exited_state (inr "spawn failed") _ eq_refl)
    as (_ & Hs & _ & Hm).
  split; [exact Hs | exact Hm].
Defined.
End LiveRecord.

(** ** More on the recovery scan *)

Section ResumeMore.
Import TrainingRunStore.

Lemma emit_sink (log : option (string → string)) (msg : string) (w : World) :
  ∃ w', emit log msg w = (Ok [msg], w')
        ∧ host w' = host w ∧ _runs w' = _runs w
        ∧ sink w' = sink w ++ logged log [msg].
Proof.
  destruct log; cbn; eexists; (split; [reflexivity|]); cbn; by rewrite ?app_nil_r.
Qed.

(** An executable path that is a string naming a regular file with the
    [.exe] extension, in any casing, passes the test. *)
Lemma env_path_accepted (h : Host) (exe : string) :
  os_path_isfile h exe = true →
  endswith (lower exe) ".exe" = true →
  env_path_rejected h (PStr exe) = Ok None.
Proof.
  intros Hfile Hext. unfold env_path_rejected. cbn [truthy].
  destruct exe as [|c exe]; [discriminate|]. cbn [String.eqb negb].
  by rewrite Hfile, Hext.
Qed.

(** X7. When the results root is not a directory, the scan does nothing
    but say so: it returns the one message naming the resolved root, logs
    it, and leaves disk and registry as they are. *)
Theorem resume_without_results_directory (log : option (string → string))
    (results_dir_override : option string) (w : World) :
  os_path_isdir (host w)
    (_resolve_results_directory (host w) results_dir_override) = false →
  ∃ w', resume_unfinished_runs log results_dir_override w
        = (Ok ["Results directory '"
               +:+ _resolve_results_directory (host w) results_dir_override
               +:+ "' does not exist. Nothing to resume."], w')
        ∧ host w' = host w
        ∧ _runs w' = _runs w
        ∧ sink w' = sink w
                    ++ logged log ["Results directory '"
                                   +:+ _resolve_results_directory (host w)
                                         results_dir_override
                                   +:+ "' does not exist. Nothing to resume."].
Proof.
  intros Hdir. unfold resume_unfinished_runs; run_steps. rewrite Hdir. cbn [negb].
  apply emit_sink.
Qed.

Lemma resume_without_results_directory_witness :
  ∃ w', resume_unfinished_runs (Some (λ m, "[Resume] " +:+ m)) None sample_world
        = (Ok ["Results directory 'X:\workspace\ml-agents\results' does not exist. Nothing to resume."],
           w')
        ∧ sink w'
          = ["[Resume] Results directory 'X:\workspace\ml-agents\results' does not exist. Nothing to resume."].
Proof.
  destruct (resume_without_results_directory (Some (λ m, "[Resume] " +:+ m)) None
              sample_world eq_refl) as (w' & Hrun & _ & _ & Hsink).
  exists w'. split; [exact Hrun | exact Hsink].
Defined.



(** X9. When the identifier recorded in the metadata of an unfinished run
    is already running in the registry, the scan does not start it again:
    the turn reports the conflict message of [try_start] and leaves disk
    and registry as they are. *)
Theorem resume_entry_conflict (log : option (string → string)) (results_dir : string)
    (run_directory : Path.t) (w : World) (metadata : TrainingRunMetadata.t)
    (exe key : string) :
  Path_is_dir (host w) run_directory = true →
  _is_completed_status
    (status_field (status_node (host w) results_dir (Path.name run_directory))) = false →
  TrainingRunMetadata.try_load (host w) run_directory = Ok (Some metadata) →
  TrainingRunMetadata.env_path metadata = PStr exe →
  os_path_isfile (host w) exe = true →
  endswith (lower exe) ".exe" = true →
  TrainingRunMetadata.run_id metadata = PStr key →
  running w key →
  ∃ w',
    resume_entry log results_dir run_directory w
    = (Ok ["Training run '" +:+ key +:+ "' is already in progress."], w')
    ∧ host w' = host w
    ∧ _runs w' = _runs w.
Proof.
  intros Hdir Hstatus Hload Henv Hfile Hext Hkey (existing & Hrun & Hc).
  unfold resume_entry; run_steps.
  rewrite Hdir, _try_read_status_eq. cbn [negb].
  fold (status_node (host w) results_dir (Path.name run_directory)).
  rewrite Hstatus, Hload, Henv, (env_path_accepted _ _ Hfile Hext).
  rewrite (try_start_conflict w (TrainingRunMetadata.to_options metadata) key existing
             Hkey Hrun Hc).
  cbn [TrainingStartResult.is_started TrainingStartResult.conflict
       TrainingStartResult.message].
  change (String.eqb ("Training run '" +:+ key +:+ "' is already in progress.") "")
    with false. cbn iota.
  destruct (emit_sink log ("Training run '" +:+ key +:+ "' is already in progress.") w)
    as (w2 & -> & Hh & Hruns & _).
  exists w2. done.
Qed.

Lemma resume_entry_conflict_witness :
  ∃ w',
    resume_entry None "runs" (Path.of_string "runs/ball") resumed_world
    = (Ok ["Training run 'ball-7' is already in progress."], w')
    ∧ _runs w' = _runs resumed_world.
Proof.
  assert (running resumed_world "ball-7") as Hbusy
    by (eexists; split; [by vm_compute | reflexivity]).
  destruct (resume_entry_conflict None "runs" (Path.of_string "runs/ball")
              resumed_world
              {| TrainingRunMetadata.env_path := PStr "env/Ball.EXE";
                 TrainingRunMetadata.config_path := PStr "config/ppo/3DBall.yaml";
                 TrainingRunMetadata.run_id := PStr "ball-7";
                 TrainingRunMetadata.results_directory := PStr "runs";
                 TrainingRunMetadata.conda_environment_name := PStr "mlagents";
                 TrainingRunMetadata.base_port := PNone;
                 TrainingRunMetadata.no_graphics := PBool true;
                 TrainingRunMetadata.skip_conda := PBool false;
                 TrainingRunMetadata.launch_tensorboard := PBool false |}
              "env/Ball.EXE" "ball-7")
    as (w' & Hrun & _ & Hruns);
    [by vm_compute | by vm_compute | by vm_compute | reflexivity | by vm_compute
    | reflexivity | reflexivity | exact Hbusy |].
  exists w'. split; [exact Hrun | exact Hruns].
Defined.

(** What a turn of the scan returns is what it logs, and it is one
    message at most. *)
Lemma resume_entry_sink (log : option (string → string)) (results_dir : string)
    (run_directory : Path.t) (w w' : World) (appended : list string) :
  resume_entry log results_dir run_directory w = (Ok appended, w') →
  (length appended ≤ 1)%nat ∧ sink w' = sink w ++ logged log appended.
Proof.
  assert (∀ log, logged log [] = []) as Hnil by (by intros []).
  unfold resume_entry; run_steps.
  destruct (negb _);
    [intros [= <- <-]; rewrite Hnil, app_nil_r; split; [cbn; lia | done]|].
  rewrite _try_read_status_eq.
  destruct (_is_completed_status _);
    [intros [= <- <-]; rewrite Hnil, app_nil_r; split; [cbn; lia | done]|].
  destruct (TrainingRunMetadata.try_load _ _) as [[metadata|]|]; [| |discriminate].
  - destruct (env_path_rejected _ _) as [[text|]|]; [| |discriminate].
    + match goal with
      | |- emit log ?m w = _ → _ =>
          destruct (emit_sink log m w) as (w1 & -> & _ & _ & Hsink)
      end. intros [= <- <-]. split; [cbn; lia | done].
    + destruct (try_start _ w) as [[start_result|e] w1] eqn:Hstart; [|discriminate].
      destruct (try_start_runs _ _ _ _ Hstart) as [Hsame _].
      destruct (TrainingStartResult.is_started start_result);
        match goal with
        | |- emit log ?m w1 = _ → _ =>
            destruct (emit_sink log m w1) as (w2 & -> & _ & _ & Hsink)
        end; intros [= <- <-]; (split; [cbn; lia | by rewrite Hsink, Hsame]).
  - match goal with
    | |- emit log ?m w = _ → _ =>
        destruct (emit_sink log m w) as (w1 & -> & _ & _ & Hsink)
    end. intros [= <- <-]. split; [cbn; lia | done].
Qed.

Lemma logged_app (log : option (string → string)) (a b : list string) :
  logged log (a ++ b) = logged log a ++ logged log b.
Proof. destruct log; cbn; [apply fmap_app | done]. Qed.

Lemma resume_loop_sink (log : option (string → string)) (results_dir : string)
    (entries : list Path.t) (messages out : list string) (w w' : World) :
  resume_loop log results_dir entries messages w = (Ok out, w') →
  ∃ added, out = messages ++ added
           ∧ (length added ≤ length entries)%nat
           ∧ sink w' = sink w ++ logged log added.
Proof.
  revert messages w. induction entries as [|x entries IH]; intros messages w;
    cbn [resume_loop].
  - intros [= <- <-]. exists []. destruct log; by rewrite !app_nil_r.
  - unfold seq.
    destruct (resume_entry log results_dir x w) as [[appended|e] w1] eqn:Hx;
      [|discriminate].
    intros Hrest. destruct (IH _ _ Hrest) as (added & -> & Hlen & Hsink).
    destruct (resume_entry_sink _ _ _ _ _ _ Hx) as [Hone Hsink1].
    exists (appended ++ added). rewrite app_assoc, length_app. split; [done|].
    split; [cbn; lia|]. by rewrite Hsink, Hsink1, logged_app, app_assoc.
Qed.

(** X10. When the scan returns, the messages it returns are exactly the
    lines it handed to the log callback, in the same order, and there is
    at most one message per entry of the results root (one in all when the
    root is missing). *)
Theorem resume_returns_what_it_logs (log : option (string → string))
    (results_dir_override : option string) (w w' : World) (messages : list string) :
  resume_unfinished_runs log results_dir_override w = (Ok messages, w') →
  sink w' = sink w ++ logged log messages
  ∧ (length messages
     ≤ max 1 (length (listdir (host w)
                        (components (_resolve_results_directory (host w)
                                       results_dir_override)))))%nat.
Proof.
  unfold resume_unfinished_runs; run_steps.
  destruct (negb _).
  - match goal with
    | |- emit log ?m w = _ → _ =>
        destruct (emit_sink log m w) as (w1 & -> & _ & _ & Hsink)
    end. intros [= <- <-]. split; [done|]. cbn. lia.
  - intros Hloop. destruct (resume_loop_sink _ _ _ _ _ _ _ Hloop) as (added & -> & Hlen & Hsink).
    rewrite length_fmap in Hlen. cbn [app]. split; [done|]. lia.
Qed.

Lemma resume_returns_what_it_logs_witness :
  ∃ messages w',
    resume_unfinished_runs (Some (λ m, "[Resume] " +:+ m)) (Some "runs") recoverable_world
    = (Ok messages, w')
    ∧ messages = ["Resumed unfinished training 'ball' (previous status: unknown)."]
    ∧ sink w'
      = ["[Resume] Resumed unfinished training 'ball' (previous status: unknown)."].
Proof.
  destruct (resume_unfinished_runs (Some (λ m, "[Resume] " +:+ m)) (Some "runs")
              recoverable_world) as [r w'] eqn:Hscan.
  assert (r = Ok ["Resumed unfinished training 'ball' (previous status: unknown)."])
    as -> by (apply (f_equal fst) in Hscan; by vm_compute in Hscan).
  destruct (resume_returns_what_it_logs _ _ _ _ _ Hscan) as [Hsink _].
  eexists _, w'. split; [reflexivity|]. split; [reflexivity|]. exact Hsink.
Defined.


End ResumeMore.

(** ** The commands of a session *)

Section Runner.
Import SessionRunner.

(** The runner [start_new] builds, with no explicit port, reports the URL
    recorded in the run state. *)
Lemma init_tensorboard_url (env : RunnerEnv) (o : TypedOptions.t) (log_path : string) :
  tensorboard_url (init env o log_path None)
  = TrainingSessionRunner.tensorboard_url (TypedOptions.to_options o).
Proof.
  unfold init, TrainingSessionRunner.tensorboard_url, _determine_tensorboard_port.
  cbn [TypedOptions.to_options TrainingOptions.launch_tensorboard truthy].
  destruct (TypedOptions.launch_tensorboard o); [|done].
  by destruct (port_in_use env _).
Qed.





End Runner.

(** ** Text and integers *)

Section Text.

Lemma lstrip_with_idemp (p : ascii → bool) (s : string) :
  lstrip_with p (lstrip_with p s) = lstrip_with p s.
Proof.
  induction s as [|c r IH]; [done|]. cbn.
  destruct (p c) eqn:Hc; [done|]. cbn. by rewrite Hc.
Qed.

Lemma rstrip_with_idemp (p : ascii → bool) (s : string) :
  rstrip_with p (rstrip_with p s) = rstrip_with p s.
Proof.
  induction s as [|c r IH]; [done|]. cbn.
  destruct (rstrip_with p r) as [|c' r'] eqn:Hr.
  - destruct (p c) eqn:Hc; [done|]. cbn. by rewrite Hc.
  - cbn [rstrip_with]. cbn [rstrip_with] in IH. by rewrite IH.
Qed.

(** What [rstrip] leaves of a text that starts with a character it keeps
    starts with that character. *)
Lemma rstrip_with_head (p : ascii → bool) (c : ascii) (r : string) :
  p c = false → ∃ r', rstrip_with p (String c r) = String c r'.
Proof.
  intros Hc. cbn. destruct (rstrip_with p r); [rewrite Hc|]; eauto.
Qed.

Lemma lstrip_with_head (p : ascii → bool) (s : string) :
  lstrip_with p s = "" ∨ ∃ c r, lstrip_with p s = String c r ∧ p c = false.
Proof.
  induction s as [|c r IH]; [by left|]. cbn.
  destruct (p c) eqn:Hc; [done|]. right. eauto.
Qed.

Lemma strip_with_idemp (p : ascii → bool) (s : string) :
  strip_with p (strip_with p s) = strip_with p s.
Proof.
  unfold strip_with.
  destruct (lstrip_with_head p s) as [-> | (c & r & -> & Hc)]; [done|].
  destruct (rstrip_with_head p c r Hc) as (r' & Hr).
  rewrite Hr. cbn [lstrip_with]. rewrite Hc, <- Hr. apply rstrip_with_idemp.
Qed.

Lemma strip_idemp (s : string) : strip (strip s) = strip s.
Proof. apply strip_with_idemp. Qed.

(** What [strip] leaves neither starts nor ends with a character it
    removes. *)
Lemma strip_with_first (p : ascii → bool) (s : string) (c : ascii) (r : string) :
  strip_with p s = String c r → p c = false.
Proof.
  unfold strip_with.
  destruct (lstrip_with_head p s) as [-> | (c' & r' & -> & Hc)]; [done|].
  destruct (rstrip_with_head p c' r' Hc) as (r'' & ->). by intros [= <- _].
Qed.

Lemma rstrip_with_last (p : ascii → bool) (s r : string) (c : ascii) :
  rstrip_with p s = r +:+ String c "" → p c = false.
Proof.
  revert r. induction s as [|c' s IH]; intros r; cbn.
  { destruct r; discriminate. }
  destruct (rstrip_with p s) as [|c'' r''] eqn:Hs.
  - destruct (p c') eqn:Hc'; [destruct r; discriminate|].
    destruct r as [|? [|]]; cbn; [by intros [= <-] | discriminate..].
  - destruct r as [|c0 r0]; cbn; [discriminate|]. intros [= _ Heq].
    by apply (IH r0).
Qed.

Lemma strip_with_last (p : ascii → bool) (s r : string) (c : ascii) :
  strip_with p s = r +:+ String c "" → p c = false.
Proof. apply rstrip_with_last. Qed.

(** *** Decimal text *)

Lemma pretty_N_char_digit (x : N) :
  (x < 10)%N →
  is_digit (pretty_N_char x) = true ∧ digit_value (pretty_N_char x) = Z.of_N x.
Proof.
  intros Hx.
  assert (x = 0 ∨ x = 1 ∨ x = 2 ∨ x = 3 ∨ x = 4 ∨ x = 5 ∨ x = 6 ∨ x = 7 ∨ x = 8
          ∨ x = 9)%N as Hcases by lia.
  repeat (destruct Hcases as [-> | Hcases]; [by vm_compute|]). subst. by vm_compute.
Qed.

Lemma is_digit_not_underscore (c : ascii) : is_digit c = true → Ascii.eqb c "_" = false.
Proof.
  intros Hd. destruct (Ascii.eqb_spec c "_") as [->|]; [by vm_compute in Hd | done].
Qed.

(** A digit is no white space, sign or underscore. *)
Lemma is_digit_plain (c : ascii) :
  is_digit c = true →
  is_c_space c = false ∧ Ascii.eqb c "+" = false ∧ Ascii.eqb c "-" = false
  ∧ Ascii.eqb c "_" = false.
Proof.
  destruct c as [[] [] [] [] [] [] [] []]; vm_compute; intros; by repeat split.
Qed.

(** The decimal text of a positive [x] in front of [s]: its [k] digits
    start with a digit, and scanning them adds [x] to the value shifted by
    [k] places. *)
Lemma scan_pretty_N_go (x : N) :
  (0 < x)%N →
  ∃ k : nat,
    (0 < k)%nat ∧ (10 ^ (N.of_nat k - 1) ≤ x)%N
    ∧ ∀ s, String.length (pretty_N_go x s) = (k + String.length s)%nat
           ∧ (∃ c r, pretty_N_go x s = String c r ∧ is_digit c = true)
           ∧ ∃ last, is_digit last = true
                     ∧ ∀ prev value digits,
                         scan_digits (pretty_N_go x s) prev value digits
                         = scan_digits s last
                             (value * 10 ^ Z.of_nat k + Z.of_N x)%Z (digits + k)%nat.
Proof.
  induction (N.lt_wf_0 x) as [x _ IH]. intros Hx.
  destruct (pretty_N_char_digit (x `mod` 10)%N) as [Hdigit Hvalue];
    [by apply N.mod_lt|].
  pose proof (N.div_mod x 10 ltac:(done)) as Hx10.
  destruct (decide (x `div` 10 = 0)%N) as [Hsmall | Hbig].
  - exists 1%nat. split; [lia|]. split; [change (1 ≤ x)%N; lia|]. intros s.
    rewrite pretty_N_go_step, Hsmall, pretty_N_go_0 by done.
    split; [done|]. split; [eauto|].
    exists (pretty_N_char (x `mod` 10)). split; [done|]. intros prev value digits.
    cbn [scan_digits]. rewrite Hdigit, Hvalue.
    rewrite Hsmall in Hx10. revert Hx10. generalize (x `mod` 10)%N. intros m Hm.
    change (10 ^ Z.of_nat 1)%Z with 10%Z. f_equal; lia.
  - destruct (IH (x `div` 10)%N) as (k & Hk & Hlow & Hgo);
      [by apply N.div_lt | by apply N.neq_0_lt_0 |].
    exists (S k). split; [lia|]. split.
    { replace (N.of_nat (S k) - 1)%N with (N.succ (N.of_nat k - 1)) by lia.
      rewrite N.pow_succ_r'. revert Hlow Hx10.
      generalize (x `div` 10)%N (x `mod` 10)%N (10 ^ (N.of_nat k - 1))%N. lia. }
    intros s. rewrite pretty_N_go_step by done.
    destruct (Hgo (String (pretty_N_char (x `mod` 10)) s))
      as (Hlen & Hhead & last & Hlast & Hscan).
    split; [rewrite Hlen; cbn; lia|]. split; [done|].
    exists (pretty_N_char (x `mod` 10)). split; [done|]. intros prev value digits.
    rewrite Hscan. cbn [scan_digits]. rewrite Hdigit, Hvalue.
    f_equal; [|lia].
    rewrite Nat2Z.inj_succ, Z.pow_succ_r by lia. revert Hx10.
    generalize (x `div` 10)%N (x `mod` 10)%N (10 ^ Z.of_nat k)%Z. lia.
Qed.

(** The number of decimal digits of a number below [10 ^ n]. *)
Lemma pretty_positive_length (p : positive) (n : nat) :
  (Z.pos p < 10 ^ Z.of_nat n)%Z →
  (String.length (pretty (Z.pos p)) ≤ n)%nat.
Proof.
  intros Hp. change (pretty (Z.pos p)) with (pretty (N.pos p)).
  unfold pretty, pretty_N. destruct (decide _) as [|_]; [done|].
  destruct (scan_pretty_N_go (N.pos p)) as (k & Hk & Hlow & Hgo); [lia|].
  destruct (Hgo "") as (-> & _). cbn.
  destruct (decide (k ≤ n)%nat) as [|Hover]; [lia|].
  assert (10 ^ Z.of_nat n ≤ 10 ^ Z.of_N (N.of_nat k - 1))%Z
    by (apply Z.pow_le_mono_r; lia).
  assert (Z.of_N (10 ^ (N.of_nat k - 1)) ≤ Z.of_N (N.pos p))%Z by lia.
  rewrite N2Z.inj_pow in *. cbn in *. lia.
Qed.

(** [int(str(n)) == n] for a positive [n] of at most 640 digits, whatever
    the limit of the interpreter. *)
Lemma py_int_py_str_int (i : Interpreter) (n : Z) :
  (0 < n < 10 ^ 640)%Z →
  py_str_int i n = Some (pretty n) ∧ py_int i (pretty n) = Some n.
Proof.
  intros [Hpos Hlt]. destruct n as [|p|p]; [lia| |lia].
  pose proof (pretty_positive_length p 640 Hlt) as Hlen.
  split.
  { unfold py_str_int, over_digit_limit, str_digits_check_threshold.
    destruct (Nat.ltb_spec 640 (String.length (pretty (Z.pos p)))); [lia | done]. }
  revert Hlen. change (pretty (Z.pos p)) with (pretty (N.pos p)).
  unfold pretty, pretty_N. destruct (decide _) as [|_]; [done|].
  destruct (scan_pretty_N_go (N.pos p)) as (k & Hk & _ & Hgo); [lia|].
  destruct (Hgo "") as (Hlen & (c & r & Htext & Hc) & last & Hlast & Hscan).
  rewrite Hlen. cbn [String.length]. intros Hk640.
  unfold py_int. rewrite Htext. cbn [lstrip_with].
  destruct (is_digit_plain c Hc) as (-> & Hplus & Hminus & Hus).
  unfold split_sign. rewrite Hplus, Hminus.
  assert (startswith (String c r) "_" = false) as ->.
  { unfold startswith. cbn [String.prefix].
    destruct (Ascii.ascii_dec "_" c) as [<-|]; [by vm_compute in Hc | done]. }
  rewrite <- Htext, Hscan. cbn [scan_digits].
  rewrite (is_digit_not_underscore last Hlast).
  destruct (Nat.eqb_spec (0 + k) 0); [lia|]. cbn [lstrip_with String.eqb negb].
  unfold over_digit_limit, str_digits_check_threshold.
  destruct (Nat.ltb_spec 640 (0 + k)); [lia|]. cbn. f_equal; lia.
Qed.
End Text.

(** ** The argument parsers *)

Section Parsers.
Import options.

Section Loop.
Context {Locals : Type}.
Variable value_keys : list string.
Variable handle : string → option string → Locals → result (string + Locals).

(** The loop raises only what [handle] raises, and [handle] is given a
    value exactly for the keys that take one. *)
Lemma parse_loop_returns :
  (∀ key value l,
     existsb (String.eqb key) value_keys = true → ∃ r, handle key (Some value) l = Ok r) →
  (∀ key l,
     existsb (String.eqb key) value_keys = false → ∃ r, handle key None l = Ok r) →
  ∀ args l, ∃ r, parse_loop value_keys handle args l = Ok r.
Proof.
  intros Hvalue Hflag args.
  assert (∀ n (args : list string), (length args ≤ n)%nat →
            ∀ l, ∃ r, parse_loop value_keys handle args l = Ok r) as Hn;
    [|by apply (Hn (length args))].
  clear args. induction n as [|n IH]; intros [|raw_arg rest] Hlen l;
    cbn [parse_loop]; eauto; cbn in Hlen; [lia|].
  destruct (negb _); [eauto|]. cbn zeta.
  destruct (existsb _ value_keys) eqn:Hkey.
  - destruct rest as [|value rest']; [eauto|].
    destruct (Hvalue _ value l Hkey) as ([error|l'] & ->); [eauto|].
    apply IH. cbn in Hlen. lia.
  - destruct (Hflag _ l Hkey) as ([error|l'] & ->); [eauto|].
    apply IH. lia.
Qed.

(** What every turn of the loop keeps of the local variables holds of
    them when the loop ends. *)
Lemma parse_loop_invariant (P : Locals → Prop) :
  (∀ key value l l', P l → handle key value l = Ok (inr l') → P l') →
  ∀ args l l', P l → parse_loop value_keys handle args l = Ok (inr l') → P l'.
Proof.
  intros Hstep args.
  assert (∀ n (args : list string), (length args ≤ n)%nat →
            ∀ l l', P l → parse_loop value_keys handle args l = Ok (inr l') → P l')
    as Hn; [|by apply (Hn (length args))].
  clear args. induction n as [|n IH]; intros [|raw_arg rest] Hlen l l' Hl;
    cbn [parse_loop]; try (by intros [= <-]); cbn in Hlen; [lia|].
  destruct (negb _); [discriminate|]. cbn zeta.
  destruct (existsb _ value_keys).
  - destruct rest as [|value rest']; [discriminate|].
    destruct (handle _ (Some value) l) as [[error|l1]|e] eqn:Hh; try discriminate.
    apply IH; [cbn in Hlen; lia | eapply Hstep; eauto].
  - destruct (handle _ None l) as [[error|l1]|e] eqn:Hh; try discriminate.
    apply IH; [lia | eapply Hstep; eauto].
Qed.

(** An error of the loop is one of its own two or one of [handle]. *)
Lemma parse_loop_error (E : string → Prop) :
  (∀ raw_arg, E ("Unrecognized argument '" +:+ raw_arg +:+ "'.")) →
  (∀ key, E ("Missing value for --" +:+ key +:+ ".")) →
  (∀ key value l error, handle key value l = Ok (inl error) → E error) →
  ∀ args l error, parse_loop value_keys handle args l = Ok (inl error) → E error.
Proof.
  intros Hraw Hmissing Hstep args.
  assert (∀ n (args : list string), (length args ≤ n)%nat →
            ∀ l error, parse_loop value_keys handle args l = Ok (inl error) → E error)
    as Hn; [|by apply (Hn (length args))].
  clear args. induction n as [|n IH]; intros [|raw_arg rest] Hlen l error;
    cbn [parse_loop]; try discriminate; cbn in Hlen; [lia|].
  destruct (negb _); [by intros [= <-]|]. cbn zeta.
  destruct (existsb _ value_keys).
  - destruct rest as [|value rest']; [by intros [= <-]|].
    destruct (handle _ (Some value) l) as [[error'|l1]|e] eqn:Hh; try discriminate.
    + intros [= <-]. eauto.
    + apply IH. cbn in Hlen. lia.
  - destruct (handle _ None l) as [[error'|l1]|e] eqn:Hh; try discriminate.
    + intros [= <-]. eauto.
    + apply IH. lia.
Qed.

(** The loop on what [cli_args] appends for a value: nothing, or the key
    and the value, which is read as the value whatever it looks like. *)
Lemma parse_loop_extend_if (key : string) (value : option string)
    (rest : list string) (l : Locals) :
  existsb (String.eqb key) value_keys = true →
  parse_loop value_keys handle (cli_args.extend_if ("--" +:+ key) value ++ rest) l
  = if str_truthy value
    then match handle key value l with
         | Ok (inr l') => parse_loop value_keys handle rest l'
         | stop => stop
         end
    else parse_loop value_keys handle rest l.
Proof.
  intros Hkey. destruct value as [v|]; [|done]. cbn [cli_args.extend_if str_truthy].
  destruct (String.eqb v ""); [done|]. cbn [negb app parse_loop].
  change (startswith ("--" +:+ key) "--") with (String.prefix "" key).
  assert (String.prefix "" key = true) as -> by by destruct key.
  cbn [negb]. change (drop_chars 2 ("--" +:+ key)) with key. cbn zeta.
  by rewrite Hkey.
Qed.

Lemma parse_loop_append_if (key : string) (flag : option bool)
    (rest : list string) (l : Locals) :
  existsb (String.eqb key) value_keys = false →
  parse_loop value_keys handle (cli_args.append_if ("--" +:+ key) flag ++ rest) l
  = if bool_truthy flag
    then match handle key None l with
         | Ok (inr l') => parse_loop value_keys handle rest l'
         | stop => stop
         end
    else parse_loop value_keys handle rest l.
Proof.
  intros Hkey. unfold cli_args.append_if. destruct (bool_truthy flag); [|done].
  cbn [app parse_loop].
  change (startswith ("--" +:+ key) "--") with (String.prefix "" key).
  assert (String.prefix "" key = true) as -> by by destruct key.
  cbn [negb]. change (drop_chars 2 ("--" +:+ key)) with key. cbn zeta.
  by rewrite Hkey.
Qed.
End Loop.

(** A key outside a list of keys differs from each of them. *)
Lemma existsb_eqb_false (key : string) (keys : list string) :
  existsb (String.eqb key) keys = false →
  Forall (λ k, String.eqb key k = false) keys.
Proof.
  induction keys as [|k keys IH]; cbn; [by constructor|].
  intros [Hk Hrest]%orb_false_iff. constructor; auto.
Qed.

Lemma os_path_isfile_nonempty (h : Host) (p : string) :
  os_path_isfile h p = true → p ≠ "".
Proof. by intros Hp ->. Qed.

Lemma TrainingOptions_handle_returns (i : Interpreter) (h : Host) (key value : string)
    (l : TrainingOptions.locals) :
  ∃ r, TrainingOptions.handle i h key (Some value) l = Ok r.
Proof.
  unfold TrainingOptions.handle, _normalize_file, _normalize_directory.
  each_key; cbn [argument_of method_of bind]; each_key; eauto.
  - destruct (negb _); eauto.
  - destruct (negb _); eauto.
  - destruct (py_int i value) as [port|]; [destruct (port <=? 0)%Z|]; eauto.
Qed.

Lemma TrainingOptions_handle_flag (i : Interpreter) (h : Host) (key : string)
    (l : TrainingOptions.locals) :
  existsb (String.eqb key) TrainingOptions.value_keys = false →
  ∃ r, TrainingOptions.handle i h key None l = Ok r.
Proof.
  intros Hkey%existsb_eqb_false. unfold TrainingOptions.value_keys in Hkey.
  repeat (apply Forall_cons in Hkey as [? Hkey]).
  unfold TrainingOptions.handle. each_key; eauto; congruence.
Qed.

Lemma TrainingOptions_handle_error (i : Interpreter) (h : Host) (key : string)
    (value : option string) (l : TrainingOptions.locals) (error : string) :
  TrainingOptions.handle i h key value l = Ok (inl error) → error ≠ "".
Proof.
  unfold TrainingOptions.handle, _normalize_file, _normalize_directory.
  each_key; destruct value as [v|]; cbn [argument_of method_of bind];
    try discriminate; each_key; try (by intros [= <-]).
  - destruct (negb _); [by intros [= <-] | discriminate].
  - destruct (negb _); [by intros [= <-] | discriminate].
  - destruct (py_int i v) as [port|]; [destruct (port <=? 0)%Z|];
      try discriminate; by intros [= <-].
Qed.

Lemma ReportOptions_handle_returns (h : Host) (key value : string)
    (l : ReportOptions.locals) :
  ∃ r, ReportOptions.handle h key (Some value) l = Ok r.
Proof.
  unfold ReportOptions.handle, _normalize_directory.
  each_key; cbn [argument_of method_of bind]; each_key; eauto.
Qed.

Lemma ReportOptions_handle_flag (h : Host) (key : string) (l : ReportOptions.locals) :
  existsb (String.eqb key) ReportOptions.value_keys = false →
  ∃ r, ReportOptions.handle h key None l = Ok r.
Proof.
  intros Hkey%existsb_eqb_false. unfold ReportOptions.value_keys in Hkey.
  repeat (apply Forall_cons in Hkey as [? Hkey]).
  unfold ReportOptions.handle. each_key; eauto; congruence.
Qed.

Lemma ReportOptions_handle_error (h : Host) (key : string) (value : option string)
    (l : ReportOptions.locals) (error : string) :
  ReportOptions.handle h key value l = Ok (inl error) → error ≠ "".
Proof.
  unfold ReportOptions.handle, _normalize_directory.
  each_key; destruct value as [v|]; cbn [argument_of method_of bind];
    try discriminate; each_key; try discriminate; by intros [= <-].
Qed.

Lemma ReportInterpreterOptions_handle_returns (h : Host) (key value : string)
    (l : ReportInterpreterOptions.locals) :
  ∃ r, ReportInterpreterOptions.handle h key (Some value) l = Ok r.
Proof.
  unfold ReportInterpreterOptions.handle, _normalize_directory.
  each_key; cbn [argument_of method_of bind]; each_key; eauto.
Qed.

Lemma ReportInterpreterOptions_handle_flag (h : Host) (key : string)
    (l : ReportInterpreterOptions.locals) :
  existsb (String.eqb key) ReportInterpreterOptions.value_keys = false →
  ∃ r, ReportInterpreterOptions.handle h key None l = Ok r.
Proof.
  intros Hkey%existsb_eqb_false. unfold ReportInterpreterOptions.value_keys in Hkey.
  repeat (apply Forall_cons in Hkey as [? Hkey]).
  unfold ReportInterpreterOptions.handle. each_key; eauto; congruence.
Qed.

Lemma ReportInterpreterOptions_handle_error (h : Host) (key : string)
    (value : option string) (l : ReportInterpreterOptions.locals) (error : string) :
  ReportInterpreterOptions.handle h key value l = Ok (inl error) → error ≠ "".
Proof.
  unfold ReportInterpreterOptions.handle, _normalize_directory.
  each_key; destruct value as [v|]; cbn [argument_of method_of bind];
    try discriminate; each_key; try discriminate; by intros [= <-].
Qed.

Lemma resolve_results_directory_error (h : Host) (results_directory : option string)
    (error : string) :
  ReportOptions.resolve_results_directory h results_directory = inl error →
  error = "Failed to resolve default results directory.".
Proof.
  unfold ReportOptions.resolve_results_directory, _normalize_directory.
  destruct (negb (str_truthy results_directory));
    destruct (negb (str_truthy _)); try discriminate; by intros [= <-].
Qed.

(** X14. The three parsers never raise: whatever the list of arguments,
    a parse ends with options or with an error message, and the message
    is never empty. No branch of a parser reads the value of a key that
    takes none. *)
Theorem parsers_never_raise (i : Interpreter) (h : Host) (args : list string) :
  (∃ r, TrainingOptions.try_parse i h args = Ok r ∧ r ≠ inl "")
  ∧ (∃ r, ReportOptions.try_parse h args = Ok r ∧ r ≠ inl "")
  ∧ (∃ r, ReportInterpreterOptions.try_parse h args = Ok r ∧ r ≠ inl "").
Proof.
  split; [|split].
  - unfold TrainingOptions.try_parse.
    destruct (parse_loop_returns TrainingOptions.value_keys (TrainingOptions.handle i h)
                (λ key value l _, TrainingOptions_handle_returns i h key value l)
                (TrainingOptions_handle_flag i h) args TrainingOptions.initial)
      as ([error|l] & Hloop); rewrite Hloop; cbn [bind]; eexists; (split; [done|]).
    + intros [= ->].
      by refine (parse_loop_error _ _ (λ e, e ≠ "") _ _ (TrainingOptions_handle_error i h)
                   _ _ _ Hloop eq_refl).
    + unfold TrainingOptions.finish, _normalize_directory.
      destruct (negb (str_truthy (TrainingOptions.config_path l))); [done|].
      destruct (negb (str_truthy (TrainingOptions.results_dir l)));
        by destruct (negb (str_truthy _)).
  - unfold ReportOptions.try_parse.
    destruct (parse_loop_returns ReportOptions.value_keys (ReportOptions.handle h)
                (λ key value l _, ReportOptions_handle_returns h key value l)
                (ReportOptions_handle_flag h) args ReportOptions.initial)
      as ([error|l] & Hloop); rewrite Hloop; cbn [bind]; eexists; (split; [done|]).
    + intros [= ->].
      by refine (parse_loop_error _ _ (λ e, e ≠ "") _ _ (ReportOptions_handle_error h)
                   _ _ _ Hloop eq_refl).
    + unfold ReportOptions.finish.
      destruct (negb (str_truthy (ReportOptions.l_run_id l))); [done|].
      destruct (ReportOptions.resolve_results_directory h _) as [error|d] eqn:Hd;
        [|done].
      by rewrite (resolve_results_directory_error _ _ _ Hd).
  - unfold ReportInterpreterOptions.try_parse.
    destruct (parse_loop_returns ReportInterpreterOptions.value_keys
                (ReportInterpreterOptions.handle h)
                (λ key value l _, ReportInterpreterOptions_handle_returns h key value l)
                (ReportInterpreterOptions_handle_flag h) args
                ReportInterpreterOptions.initial)
      as ([error|l] & Hloop); rewrite Hloop; cbn [bind]; eexists; (split; [done|]).
    + intros [= ->].
      by refine (parse_loop_error _ _ (λ e, e ≠ "") _ _ (ReportInterpreterOptions_handle_error h)
                   _ _ _ Hloop eq_refl).
    + unfold ReportInterpreterOptions.finish.
      destruct (negb (str_truthy (ReportInterpreterOptions.l_run_id l))); [done|].
      destruct (ReportOptions.resolve_results_directory h _) as [error|d] eqn:Hd;
        [|done].
      by rewrite (resolve_results_directory_error _ _ _ Hd).
Qed.
(** What the loop of [TrainingOptions.try_parse] keeps of its local
    variables. *)
Lemma TrainingOptions_handle_valid (i : Interpreter) (h : Host) (key : string)
    (value : option string) (l l' : TrainingOptions.locals) :
  let valid l :=
    (∀ p, TrainingOptions.env_path l = Some p → os_path_isfile h p = true)
    ∧ (∀ p, TrainingOptions.config_path l = Some p → os_path_isfile h p = true)
    ∧ (∀ r, TrainingOptions.run_id l = Some r → r ≠ "" ∧ trimmed isspace r)
    ∧ (∀ c, TrainingOptions.conda_env l = Some c → c ≠ "" ∧ trimmed isspace c)
    ∧ (∀ n, TrainingOptions.base_port l = Some n → (0 < n)%Z) in
  valid l → TrainingOptions.handle i h key value l = Ok (inr l') → valid l'.
Proof.
  cbn zeta. intros (Henv & Hconfig & Hrun & Hconda & Hport).
  unfold TrainingOptions.handle, _normalize_file, _normalize_directory, _abspath.
  each_key; destruct value as [v|]; cbn [argument_of method_of bind];
    try discriminate; each_key; try discriminate;
    try (intros [= <-]; cbn; done).
  - destruct (os_path_isfile h (abspath h v)) eqn:Hfile; [|discriminate].
    intros [= <-]. cbn. split; [|done]. by intros ? [= <-].
  - destruct (os_path_isfile h (abspath h v)) eqn:Hfile; [|discriminate].
    intros [= <-]. cbn. split; [done|]. split; [|done]. by intros ? [= <-].
  - intros [= <-]. cbn. split; [done|]. split; [done|]. split; [|done].
    intros ? [= <-]. split; [by apply String.eqb_neq | apply strip_idemp].
  - intros [= <-]. cbn. do 3 (split; [done|]). split; [|done].
    intros ? [= <-]. split; [by apply String.eqb_neq | apply strip_idemp].
  - destruct (py_int i v) as [port|]; [|discriminate].
    destruct (Z.leb_spec port 0); [discriminate|].
    intros [= <-]. cbn. do 4 (split; [done|]). by intros ? [= <-].
Qed.

(** X15. The options a parse returns are valid on the machine that parsed
    them: the trainer configuration is a regular file, and so is the
    executable when there is one; the base port, when there is one, is
    positive; run identifier, results directory and environment name are
    not empty; the environment name has no white space around it, and
    neither has the run identifier unless it is the generated one. This
    holds whatever the arguments were, in whatever order and however often
    an option was given. *)
Theorem parsed_training_options_are_valid (i : Interpreter) (h : Host)
    (args : list string) (o : TypedOptions.t) :
  TrainingOptions.try_parse i h args = Ok (inr o) →
  os_path_isfile h (TypedOptions.trainer_config_path o) = true
  ∧ (∀ p, TypedOptions.env_executable_path o = Some p → os_path_isfile h p = true)
  ∧ (∀ n, TypedOptions.base_port o = Some n → (0 < n)%Z)
  ∧ TypedOptions.run_id o ≠ ""
  ∧ TypedOptions.results_directory o ≠ ""
  ∧ TypedOptions.conda_environment_name o ≠ ""
  ∧ trimmed isspace (TypedOptions.conda_environment_name o)
  ∧ (trimmed isspace (TypedOptions.run_id o)
     ∨ TypedOptions.run_id o
       = _default_run_id i h (Some (TypedOptions.trainer_config_path o))).
Proof.
  unfold TrainingOptions.try_parse.
  destruct (parse_loop _ _ args _) as [[error|l]|e] eqn:Hloop; cbn [bind];
    try discriminate.
  intros [= Hfinish].
  apply (parse_loop_invariant _ _ _ (TrainingOptions_handle_valid i h)) in Hloop
    as (Henv & Hconfig & Hrun & Hconda & Hport); [|done].
  revert Hfinish. unfold TrainingOptions.finish, _normalize_directory.
  destruct (TrainingOptions.config_path l) as [config|] eqn:Hc; [|done].
  cbn [str_truthy]. destruct (String.eqb config ""); [done|]. cbn [negb default].
  set (results_dir := if negb (str_truthy (TrainingOptions.results_dir l)) then _ else _).
  assert (∃ d, results_dir = inr d) as (d & ->).
  { subst results_dir. destruct (negb _); eauto. }
  destruct d as [d|]; [|done]. cbn [str_truthy].
  destruct (String.eqb_spec d ""); [done|]. cbn [negb default].
  intros [= <-]. cbn. split; [by apply Hconfig|]. split; [done|]. split; [done|].
  split.
  { destruct (TrainingOptions.run_id l) as [r|] eqn:Hr; cbn.
    - destruct (Hrun r eq_refl) as [Hne _]. by destruct (String.eqb_spec r "").
    - unfold _default_run_id. by destruct (_extract_behavior_name _ _ _) as [[|]|]. }
  split; [done|].
  destruct (TrainingOptions.conda_env l) as [c|] eqn:Hce; cbn.
  - destruct (Hconda c eq_refl) as [Hne Htrim].
    destruct (String.eqb_spec c ""); [done|]. cbn.
    split; [done|]. split; [done|].
    destruct (TrainingOptions.run_id l) as [r|] eqn:Hr; cbn.
    + destruct (Hrun r eq_refl) as [Hrne ?]. destruct (String.eqb_spec r ""); [done|].
      by left.
    + by right.
  - split; [done|]. split; [done|].
    destruct (TrainingOptions.run_id l) as [r|] eqn:Hr; cbn.
    + destruct (Hrun r eq_refl) as [Hrne ?]. destruct (String.eqb_spec r ""); [done|].
      by left.
    + by right.
Qed.

Lemma parsed_training_options_are_valid_witness :
  ∃ o, TrainingOptions.try_parse sample_interpreter training_host
         ["--base-port"; " +5_005 "; "--config"; "config/ppo/3DBall.yaml"]
       = Ok (inr o)
       ∧ os_path_isfile training_host (TypedOptions.trainer_config_path o) = true
       ∧ TypedOptions.base_port o = Some 5005%Z.
Proof.
  eexists. split; [by vm_compute|]. split; [|done].
  by apply (parsed_training_options_are_valid sample_interpreter training_host
              ["--base-port"; " +5_005 "; "--config"; "config/ppo/3DBall.yaml"]).
Defined.
End Parsers.

(** ** From a request to options *)

Section Request.
Import options.

Section Turns.
Variable i : Interpreter.
Variable h : Host.

(** A turn of the loop of [TrainingOptions.try_parse] on what
    [cli_args.from_training] appends for a field: the turn ends the parse with
    the error of the field, or goes on with the field set. *)
Lemma turn_env_path v rest a b c d e f g s t :
  parse_loop TrainingOptions.value_keys (TrainingOptions.handle i h)
    (cli_args.extend_if "--env-path" v ++ rest) (TrainingOptions.mk_locals a b c d e f g s t)
  = if str_truthy v && negb (os_path_isfile h (abspath h (default "" v)))
    then Ok (inl ("Could not find the specified environment executable at '"
                  +:+ abspath h (default "" v) +:+ "'."))
    else parse_loop TrainingOptions.value_keys (TrainingOptions.handle i h) rest (TrainingOptions.mk_locals (if str_truthy v then Some (abspath h (default "" v)) else a)
                      b c d e f g s t).
Proof.
  rewrite (parse_loop_extend_if _ _ "env-path") by done.
  destruct v as [v|]; [|done]. cbn [str_truthy default].
  destruct (negb (String.eqb v "")); [|done].
  cbn -[os_path_isfile abspath]. unfold _normalize_file, _abspath.
  by destruct (os_path_isfile h (abspath h v)).
Qed.

Lemma turn_config v rest a b c d e f g s t :
  parse_loop TrainingOptions.value_keys (TrainingOptions.handle i h)
    (cli_args.extend_if "--config" v ++ rest) (TrainingOptions.mk_locals a b c d e f g s t)
  = if str_truthy v && negb (os_path_isfile h (abspath h (default "" v)))
    then Ok (inl ("Could not find the specified trainer config at '"
                  +:+ abspath h (default "" v) +:+ "'."))
    else parse_loop TrainingOptions.value_keys (TrainingOptions.handle i h) rest (TrainingOptions.mk_locals a (if str_truthy v then Some (abspath h (default "" v)) else b)
                      c d e f g s t).
Proof.
  rewrite (parse_loop_extend_if _ _ "config") by done.
  destruct v as [v|]; [|done]. cbn [str_truthy default].
  destruct (negb (String.eqb v "")); [|done].
  cbn -[os_path_isfile abspath]. unfold _normalize_file, _abspath.
  by destruct (os_path_isfile h (abspath h v)).
Qed.

Lemma turn_run_id v rest a b c d e f g s t :
  parse_loop TrainingOptions.value_keys (TrainingOptions.handle i h)
    (cli_args.extend_if "--run-id" v ++ rest) (TrainingOptions.mk_locals a b c d e f g s t)
  = if str_truthy v && String.eqb (strip (default "" v)) ""
    then Ok (inl "--run-id must not be empty.")
    else parse_loop TrainingOptions.value_keys (TrainingOptions.handle i h) rest (TrainingOptions.mk_locals a b (if str_truthy v then Some (strip (default "" v)) else c)
                      d e f g s t).
Proof.
  rewrite (parse_loop_extend_if _ _ "run-id") by done.
  destruct v as [v|]; [|done]. cbn [str_truthy default].
  destruct (negb (String.eqb v "")); [|done].
  cbn -[strip]. by destruct (String.eqb (strip v) "").
Qed.

Lemma turn_results_dir v rest a b c d e f g s t :
  parse_loop TrainingOptions.value_keys (TrainingOptions.handle i h)
    (cli_args.extend_if "--results-dir" v ++ rest) (TrainingOptions.mk_locals a b c d e f g s t)
  = parse_loop TrainingOptions.value_keys (TrainingOptions.handle i h) rest (TrainingOptions.mk_locals a b c (if str_truthy v then Some (abspath h (default "" v)) else d)
                 e f g s t).
Proof.
  rewrite (parse_loop_extend_if _ _ "results-dir") by done.
  destruct v as [v|]; [|done]. cbn [str_truthy default].
  by destruct (negb (String.eqb v "")).
Qed.

Lemma turn_conda_env v rest a b c d e f g s t :
  parse_loop TrainingOptions.value_keys (TrainingOptions.handle i h)
    (cli_args.extend_if "--conda-env" v ++ rest) (TrainingOptions.mk_locals a b c d e f g s t)
  = if str_truthy v && String.eqb (strip (default "" v)) ""
    then Ok (inl "--conda-env must not be empty.")
    else parse_loop TrainingOptions.value_keys (TrainingOptions.handle i h) rest (TrainingOptions.mk_locals a b c d
                      (if str_truthy v then Some (strip (default "" v)) else e)
                      f g s t).
Proof.
  rewrite (parse_loop_extend_if _ _ "conda-env") by done.
  destruct v as [v|]; [|done]. cbn [str_truthy default].
  destruct (negb (String.eqb v "")); [|done].
  cbn -[strip]. by destruct (String.eqb (strip v) "").
Qed.

Lemma turn_base_port text rest a b c d e f g s t :
  parse_loop TrainingOptions.value_keys (TrainingOptions.handle i h)
    ("--base-port" :: text :: rest) (TrainingOptions.mk_locals a b c d e f g s t)
  = match py_int i text with
    | Some port =>
        if (port <=? 0)%Z then Ok (inl "--base-port must be a positive integer.")
        else parse_loop TrainingOptions.value_keys (TrainingOptions.handle i h) rest (TrainingOptions.mk_locals a b c d e (Some port) g s t)
    | None => Ok (inl "--base-port must be a positive integer.")
    end.
Proof.
  cbn -[py_int Z.leb]. destruct (py_int i text) as [port|]; [|done]. by destruct (port <=? 0)%Z.
Qed.

Lemma turn_flags no_graphics skip_conda tensorboard a b c d e f g s t :
  parse_loop TrainingOptions.value_keys (TrainingOptions.handle i h)
    (cli_args.append_if "--no-graphics" no_graphics
        ++ cli_args.append_if "--skip-conda" skip_conda
        ++ cli_args.append_if "--tensorboard" tensorboard)
       (TrainingOptions.mk_locals a b c d e f g s t)
  = Ok (inr (TrainingOptions.mk_locals a b c d e f
               (if bool_truthy no_graphics then true else g)
               (if bool_truthy skip_conda then true else s)
               (if bool_truthy tensorboard then true else t))).
Proof.
  assert (∀ g' s', parse_loop TrainingOptions.value_keys (TrainingOptions.handle i h)
                     (cli_args.append_if "--tensorboard" tensorboard)
                     (TrainingOptions.mk_locals a b c d e f g' s' t)
                   = Ok (inr (TrainingOptions.mk_locals a b c d e f g' s'
                                (if bool_truthy tensorboard then true else t))))
    as Htensorboard.
  { intros g' s'.
    rewrite <- (app_nil_r (cli_args.append_if "--tensorboard" tensorboard)).
    rewrite (parse_loop_append_if _ _ "tensorboard") by done.
    by destruct (bool_truthy tensorboard). }
  rewrite (parse_loop_append_if _ _ "no-graphics") by done.
  destruct (bool_truthy no_graphics); cbn -[cli_args.append_if];
    rewrite (parse_loop_append_if _ _ "skip-conda") by done;
    destruct (bool_truthy skip_conda); cbn -[cli_args.append_if];
    by rewrite Htensorboard.
Qed.
End Turns.

(** The identifier [/train] passes on has no white space around it and is
    not the placeholder. *)
Lemma _normalize_run_id_Some (requested_run_id : option string) (id : string) :
  app._normalize_run_id requested_run_id = Some id →
  String.eqb id "" = false ∧ strip id = id
  ∧ String.eqb (lower id) "first3dballrun" = false.
Proof.
  unfold app._normalize_run_id. destruct requested_run_id as [requested|]; [|done].
  destruct (String.eqb requested "" || String.eqb (strip requested) "") eqn:Hempty;
    [done|].
  destruct (String.eqb (lower (strip requested)) "first3dballrun") eqn:Hplaceholder;
    [done|].
  intros [= <-]. rewrite strip_idemp. by apply orb_false_iff in Hempty as [_ ?].
Qed.

(** The arguments of [/train]: the executable when the request names one,
    the configuration of the request or else the default one, the
    normalized identifier, and the other fields as [from_training] renders
    them. *)
Lemma train_arguments_eq (i : Interpreter) (request : TrainingRequest.t) :
  app.train_arguments i request
  = let config :=
      if str_truthy (TrainingRequest.config request)
      then default "" (TrainingRequest.config request) else "config/ppo/3DBall.yaml" in
    let fields :=
      cli_args.extend_if "--env-path" (TrainingRequest.env_path request)
      ++ cli_args.extend_if "--config" (Some config)
      ++ cli_args.extend_if "--run-id"
           (app._normalize_run_id (TrainingRequest.run_id request))
      ++ cli_args.extend_if "--results-dir" (TrainingRequest.results_dir request)
      ++ cli_args.extend_if "--conda-env" (TrainingRequest.conda_env request) in
    let flags :=
      cli_args.append_if "--no-graphics" (TrainingRequest.no_graphics request)
      ++ cli_args.append_if "--skip-conda" (TrainingRequest.skip_conda request)
      ++ cli_args.append_if "--tensorboard" (TrainingRequest.tensorboard request) in
    match TrainingRequest.base_port request with
    | Some port =>
        match py_str_int i port with
        | Some text => Some (fields ++ ["--base-port"; text] ++ flags)
        | None => None
        end
    | None => Some (fields ++ flags)
    end.
Proof.
  unfold app.train_arguments, cli_args.from_training. cbn zeta.
  assert (cli_args.extend_if "--env-path"
            (str_or (str_or (TrainingRequest.env_path request) None)
                    (TrainingRequest.env_path request))
          = cli_args.extend_if "--env-path" (TrainingRequest.env_path request)) as ->.
  { destruct (TrainingRequest.env_path request) as [v|]; [|done].
    unfold str_or. cbn.
    by destruct (String.eqb v "") eqn:Hv; cbn; rewrite ?Hv; cbn; rewrite ?Hv. }
  assert (str_or (str_or (TrainingRequest.config request) (Some "config/ppo/3DBall.yaml"))
                 (TrainingRequest.config request)
          = Some (if str_truthy (TrainingRequest.config request)
                  then default "" (TrainingRequest.config request)
                  else "config/ppo/3DBall.yaml")) as ->.
  { destruct (TrainingRequest.config request) as [v|]; [|done].
    unfold str_or. cbn.
    by destruct (String.eqb v "") eqn:Hv; cbn; rewrite ?Hv; cbn; rewrite ?Hv. }
  done.
Qed.

(** X16. Every field of a [/train] request reaches the options as it was
    sent: when the files the request names exist, the environment name is
    not blank and the base port is a positive number (of at most 640
    digits), the arguments built from the request parse, and the options
    carry the absolute path of the executable (none when the request names
    none) and of the configuration (of [config/ppo/3DBall.yaml] when the
    request names none), the requested identifier without the white space
    around it (the generated one when it is absent, blank or the
    placeholder [first3dballrun] in any casing), the absolute results
    directory (of the default one when absent), the trimmed environment
    name (or [mlagents]), the base port and the three flags. A value is
    never read as an option, whatever it looks like. *)
Theorem train_request_is_parsed (i : Interpreter) (h : Host)
    (request : TrainingRequest.t) :
  let env_path := TrainingRequest.env_path request in
  let config :=
    if str_truthy (TrainingRequest.config request)
    then default "" (TrainingRequest.config request) else "config/ppo/3DBall.yaml" in
  let results_dir :=
    if str_truthy (TrainingRequest.results_dir request)
    then default "" (TrainingRequest.results_dir request)
    else DEFAULT_RESULTS_DIRECTORY in
  let conda_env := TrainingRequest.conda_env request in
  (str_truthy env_path = true →
   os_path_isfile h (abspath h (default "" env_path)) = true) →
  os_path_isfile h (abspath h config) = true →
  abspath h results_dir ≠ "" →
  (str_truthy conda_env = true → strip (default "" conda_env) ≠ "") →
  (∀ port, TrainingRequest.base_port request = Some port → (0 < port < 10 ^ 640)%Z) →
  ∃ args,
    app.train_arguments i request = Some args
    ∧ TrainingOptions.try_parse i h args
      = Ok (inr {| TypedOptions.env_executable_path :=
                     if str_truthy env_path
                     then Some (abspath h (default "" env_path)) else None;
                   TypedOptions.trainer_config_path := abspath h config;
                   TypedOptions.run_id :=
                     match app._normalize_run_id (TrainingRequest.run_id request) with
                     | Some id => id
                     | None => _default_run_id i h (Some (abspath h config))
                     end;
                   TypedOptions.results_directory := abspath h results_dir;
                   TypedOptions.conda_environment_name :=
                     if str_truthy conda_env
                     then strip (default "" conda_env) else DEFAULT_CONDA_ENV;
                   TypedOptions.base_port := TrainingRequest.base_port request;
                   TypedOptions.no_graphics :=
                     bool_truthy (TrainingRequest.no_graphics request);
                   TypedOptions.skip_conda :=
                     bool_truthy (TrainingRequest.skip_conda request);
                   TypedOptions.launch_tensorboard :=
                     bool_truthy (TrainingRequest.tensorboard request) |}).
Proof.
  cbn zeta. intros Henv Hconfig Hresults Hconda Hport.
  set (config := if str_truthy (TrainingRequest.config request)
                 then default "" (TrainingRequest.config request)
                 else "config/ppo/3DBall.yaml") in *.
  assert (str_truthy (Some config) = true) as Hconfig_given.
  { subst config. destruct (TrainingRequest.config request) as [v|]; [|done].
    cbn. by destruct (String.eqb v "") eqn:Hv; cbn; rewrite ?Hv. }
  pose proof (os_path_isfile_nonempty _ _ Hconfig) as Hconfig_path%String.eqb_neq.
  (* the loop on the fields *)
  assert (∀ flags,
            parse_loop TrainingOptions.value_keys (TrainingOptions.handle i h)
              (cli_args.extend_if "--env-path" (TrainingRequest.env_path request)
               ++ cli_args.extend_if "--config" (Some config)
               ++ cli_args.extend_if "--run-id"
                    (app._normalize_run_id (TrainingRequest.run_id request))
               ++ cli_args.extend_if "--results-dir" (TrainingRequest.results_dir request)
               ++ cli_args.extend_if "--conda-env" (TrainingRequest.conda_env request)
               ++ flags)
              TrainingOptions.initial
            = parse_loop TrainingOptions.value_keys (TrainingOptions.handle i h) flags
                (TrainingOptions.mk_locals
                   (if str_truthy (TrainingRequest.env_path request)
                    then Some (abspath h (default "" (TrainingRequest.env_path request)))
                    else None)
                   (Some (abspath h config))
                   (app._normalize_run_id (TrainingRequest.run_id request))
                   (if str_truthy (TrainingRequest.results_dir request)
                    then Some (abspath h (default "" (TrainingRequest.results_dir request)))
                    else None)
                   (if str_truthy (TrainingRequest.conda_env request)
                    then Some (strip (default "" (TrainingRequest.conda_env request)))
                    else None)
                   None false false false)) as Hfields.
  { intros flags. unfold TrainingOptions.initial.
    assert (str_truthy (TrainingRequest.conda_env request)
            && String.eqb (strip (default "" (TrainingRequest.conda_env request))) ""
            = false) as Hconda_given.
    { destruct (str_truthy (TrainingRequest.conda_env request)); [|done].
      by apply String.eqb_neq, Hconda. }
    rewrite turn_env_path.
    assert (str_truthy (TrainingRequest.env_path request)
            && negb (os_path_isfile h
                       (abspath h (default "" (TrainingRequest.env_path request))))
            = false) as ->.
    { destruct (str_truthy (TrainingRequest.env_path request)); [by rewrite Henv | done]. }
    rewrite turn_config, Hconfig_given.
    change (default "" (Some config)) with config. rewrite Hconfig. cbn [andb negb].
    rewrite turn_run_id.
    destruct (app._normalize_run_id (TrainingRequest.run_id request)) as [id|] eqn:Hid.
    - destruct (_normalize_run_id_Some _ _ Hid) as (Hne & Htrim & _).
      change (default "" (Some id)) with id. rewrite Htrim, Hne.
      cbn [str_truthy]. rewrite Hne. cbn [negb andb].
      by rewrite turn_results_dir, turn_conda_env, Hconda_given.
    - cbn [str_truthy andb].
      by rewrite turn_results_dir, turn_conda_env, Hconda_given. }
  (* what follows the loop *)
  assert (∀ port no_graphics skip_conda launch_tensorboard,
            TrainingOptions.finish i h
              (TrainingOptions.mk_locals
                 (if str_truthy (TrainingRequest.env_path request)
                  then Some (abspath h (default "" (TrainingRequest.env_path request)))
                  else None)
                 (Some (abspath h config))
                 (app._normalize_run_id (TrainingRequest.run_id request))
                 (if str_truthy (TrainingRequest.results_dir request)
                  then Some (abspath h (default "" (TrainingRequest.results_dir request)))
                  else None)
                 (if str_truthy (TrainingRequest.conda_env request)
                  then Some (strip (default "" (TrainingRequest.conda_env request)))
                  else None)
                 port no_graphics skip_conda launch_tensorboard)
            = inr {| TypedOptions.env_executable_path :=
                       if str_truthy (TrainingRequest.env_path request)
                       then Some (abspath h (default "" (TrainingRequest.env_path request)))
                       else None;
                     TypedOptions.trainer_config_path := abspath h config;
                     TypedOptions.run_id :=
                       match app._normalize_run_id (TrainingRequest.run_id request) with
                       | Some id => id
                       | None => _default_run_id i h (Some (abspath h config))
                       end;
                     TypedOptions.results_directory :=
                       abspath h
                         (if str_truthy (TrainingRequest.results_dir request)
                          then default "" (TrainingRequest.results_dir request)
                          else DEFAULT_RESULTS_DIRECTORY);
                     TypedOptions.conda_environment_name :=
                       if str_truthy (TrainingRequest.conda_env request)
                       then strip (default "" (TrainingRequest.conda_env request))
                       else DEFAULT_CONDA_ENV;
                     TypedOptions.base_port := port;
                     TypedOptions.no_graphics := no_graphics;
                     TypedOptions.skip_conda := skip_conda;
                     TypedOptions.launch_tensorboard := launch_tensorboard |}) as Hfinish.
  { intros port no_graphics skip_conda launch_tensorboard.
    unfold TrainingOptions.finish, _normalize_directory.
    cbn [TrainingOptions.config_path TrainingOptions.results_dir TrainingOptions.run_id
         TrainingOptions.conda_env TrainingOptions.env_path TrainingOptions.base_port
         TrainingOptions.no_graphics TrainingOptions.skip_conda
         TrainingOptions.launch_tensorboard str_truthy].
    rewrite Hconfig_path. cbn [negb].
    apply String.eqb_neq in Hresults.
    assert ((if negb (str_truthy
                        (if str_truthy (TrainingRequest.results_dir request)
                         then Some (abspath h
                                      (default "" (TrainingRequest.results_dir request)))
                         else None))
             then inr (Some (abspath h DEFAULT_RESULTS_DIRECTORY))
             else inr (if str_truthy (TrainingRequest.results_dir request)
                       then Some (abspath h
                                    (default "" (TrainingRequest.results_dir request)))
                       else None))
            = (inr (Some (abspath h
                            (if str_truthy (TrainingRequest.results_dir request)
                             then default "" (TrainingRequest.results_dir request)
                             else DEFAULT_RESULTS_DIRECTORY))) : string + option string))
      as ->.
    { destruct (str_truthy (TrainingRequest.results_dir request)); [|done].
      cbn [str_truthy]. by rewrite Hresults. }
    cbn [str_truthy]. rewrite Hresults. cbn [negb].
    f_equal. f_equal.
    - destruct (app._normalize_run_id (TrainingRequest.run_id request)) as [id|] eqn:Hid;
        [|done].
      destruct (_normalize_run_id_Some _ _ Hid) as (Hne & _). cbn. by rewrite Hne.
    - destruct (str_truthy (TrainingRequest.conda_env request)) eqn:Hgiven; [|done].
      cbn. by destruct (String.eqb_spec (strip (default "" (TrainingRequest.conda_env request))) "");
        [destruct (Hconda eq_refl)|]. }
  rewrite train_arguments_eq. cbn zeta. fold config.
  unfold TrainingOptions.try_parse.
  destruct (TrainingRequest.base_port request) as [port|] eqn:Hbase.
  - destruct (py_int_py_str_int i port (Hport port eq_refl)) as [-> Hint].
    eexists. split; [done|].
    rewrite <- !app_assoc, Hfields. cbn [app]. rewrite turn_base_port, Hint.
    destruct (Z.leb_spec port 0); [pose proof (Hport port eq_refl); lia|].
    rewrite turn_flags. cbn [bind]. rewrite Hfinish.
    by destruct (bool_truthy _), (bool_truthy _), (bool_truthy _).
  - eexists. split; [done|].
    rewrite <- !app_assoc, Hfields, turn_flags. cbn [bind]. rewrite Hfinish.
    by destruct (bool_truthy _), (bool_truthy _), (bool_truthy _).
Qed.

Lemma train_request_is_parsed_witness :
  ∃ args,
    app.train_arguments sample_interpreter sample_request = Some args
    ∧ TrainingOptions.try_parse sample_interpreter training_host args
      = Ok (inr {| TypedOptions.env_executable_path := Some "env/Ball.exe";
                   TypedOptions.trainer_config_path := "config/ppo/3DBall.yaml";
                   TypedOptions.run_id := "run-3d-ball-20240131-093000";
                   TypedOptions.results_directory := "--skip-conda";
                   TypedOptions.conda_environment_name := "mlagents";
                   TypedOptions.base_port := Some 5005%Z;
                   TypedOptions.no_graphics := true;
                   TypedOptions.skip_conda := false;
                   TypedOptions.launch_tensorboard := false |}).
Proof.
  destruct (train_request_is_parsed sample_interpreter training_host sample_request)
    as (args & Hargs & Hparse); try done.
  { intros port [= <-]. split; [done | by vm_compute]. }
  exists args. split; [exact Hargs|]. rewrite Hparse. by vm_compute.
Defined.

(** The fields of the arguments of [/train] end the parse with a refusal,
    or leave the configuration set to a regular file. *)
Lemma train_fields_outcome (i : Interpreter) (h : Host) (request : TrainingRequest.t)
    (rest : list string) :
  let config :=
    if str_truthy (TrainingRequest.config request)
    then default "" (TrainingRequest.config request) else "config/ppo/3DBall.yaml" in
  let r :=
    parse_loop TrainingOptions.value_keys (TrainingOptions.handle i h)
      (cli_args.extend_if "--env-path" (TrainingRequest.env_path request)
       ++ cli_args.extend_if "--config" (Some config)
       ++ cli_args.extend_if "--run-id"
            (app._normalize_run_id (TrainingRequest.run_id request))
       ++ cli_args.extend_if "--results-dir" (TrainingRequest.results_dir request)
       ++ cli_args.extend_if "--conda-env" (TrainingRequest.conda_env request)
       ++ rest)
      TrainingOptions.initial in
  (∃ error, r = Ok (inl error) ∧ train_refusal h error)
  ∨ (os_path_isfile h (abspath h config) = true
     ∧ ∃ a c d e,
         r = parse_loop TrainingOptions.value_keys (TrainingOptions.handle i h) rest
               (TrainingOptions.mk_locals a (Some (abspath h config)) c d e
                  None false false false)).
Proof.
  cbn zeta.
  set (config := if str_truthy (TrainingRequest.config request)
                 then default "" (TrainingRequest.config request)
                 else "config/ppo/3DBall.yaml").
  assert (str_truthy (Some config) = true) as Hconfig_given.
  { subst config. destruct (TrainingRequest.config request) as [v|]; [|done].
    cbn. by destruct (String.eqb v "") eqn:Hv; cbn; rewrite ?Hv. }
  unfold TrainingOptions.initial. rewrite turn_env_path.
  destruct (str_truthy (TrainingRequest.env_path request)
            && negb (os_path_isfile h
                       (abspath h (default "" (TrainingRequest.env_path request)))))
    eqn:Henv.
  { left. eexists. split; [done|]. left. eexists. split; [|done].
    apply andb_true_iff in Henv as [_ Hfile]. by apply negb_true_iff in Hfile. }
  rewrite turn_config, Hconfig_given. change (default "" (Some config)) with config.
  destruct (os_path_isfile h (abspath h config)) eqn:Hconfig; cbn [andb negb].
  2:{ left. eexists. split; [done|]. right. left. eauto. }
  rewrite turn_run_id.
  assert (str_truthy (app._normalize_run_id (TrainingRequest.run_id request))
          && String.eqb
               (strip (default "" (app._normalize_run_id
                                     (TrainingRequest.run_id request)))) ""
          = false) as ->.
  { destruct (app._normalize_run_id (TrainingRequest.run_id request)) as [id|] eqn:Hid;
      [|done].
    destruct (_normalize_run_id_Some _ _ Hid) as (Hne & Htrim & _).
    change (default "" (Some id)) with id. rewrite Htrim, Hne. apply andb_false_r. }
  rewrite turn_results_dir, turn_conda_env.
  destruct (str_truthy (TrainingRequest.conda_env request)
            && String.eqb (strip (default "" (TrainingRequest.conda_env request))) "").
  { left. eexists. split; [done|]. right. right. by left. }
  right. split; [done|]. eauto 10.
Qed.

(** X17. A [/train] request is refused by the parser for one of five
    reasons only: the executable or the configuration it names is not a
    regular file, its environment name is blank, its base port is not a
    positive integer, or the default results directory does not resolve.
    No request makes the parser see an unrecognized argument, a missing
    value or an unknown option, and the run identifier and the
    configuration are never found missing or empty. *)
Theorem train_request_refusals (i : Interpreter) (h : Host)
    (request : TrainingRequest.t) (args : list string) (error : string) :
  app.train_arguments i request = Some args →
  TrainingOptions.try_parse i h args = Ok (inl error) →
  (∃ path, os_path_isfile h path = false
           ∧ error = "Could not find the specified environment executable at '"
                     +:+ path +:+ "'.")
  ∨ (∃ path, os_path_isfile h path = false
             ∧ error = "Could not find the specified trainer config at '"
                       +:+ path +:+ "'.")
  ∨ error = "--conda-env must not be empty."
  ∨ error = "--base-port must be a positive integer."
  ∨ error = "Failed to resolve default results directory.".
Proof.
  rewrite train_arguments_eq. cbn zeta.
  set (config := if str_truthy (TrainingRequest.config request)
                 then default "" (TrainingRequest.config request)
                 else "config/ppo/3DBall.yaml").
  assert (∀ a c d e f g s t,
            os_path_isfile h (abspath h config) = true →
            TrainingOptions.finish i h
              (TrainingOptions.mk_locals a (Some (abspath h config)) c d e f g s t)
            = inl error →
            error = "Failed to resolve default results directory.") as Hfinish.
  { intros a c d e f g s t Hconfig%os_path_isfile_nonempty%String.eqb_neq.
    unfold TrainingOptions.finish, _normalize_directory.
    cbn [TrainingOptions.config_path TrainingOptions.results_dir str_truthy].
    rewrite Hconfig. cbn [negb].
    destruct (negb (str_truthy d)); destruct (negb (str_truthy _));
      try discriminate; by intros [= <-]. }
  unfold TrainingOptions.try_parse.
  destruct (TrainingRequest.base_port request) as [port|].
  - destruct (py_str_int i port) as [text|]; [|discriminate].
    intros Hargs%(inj Some). subst args. rewrite <- !app_assoc.
    pose proof (train_fields_outcome i h request
                  (["--base-port"; text]
                   ++ cli_args.append_if "--no-graphics"
                        (TrainingRequest.no_graphics request)
                   ++ cli_args.append_if "--skip-conda"
                        (TrainingRequest.skip_conda request)
                   ++ cli_args.append_if "--tensorboard"
                        (TrainingRequest.tensorboard request))) as Hfields.
    cbn zeta in Hfields. fold config in Hfields.
    destruct Hfields as [(error' & -> & Hrefusal) | (Hconfig & a & c & d & e & ->)].
    { by intros [= <-]. }
    cbn [app]. rewrite turn_base_port.
    destruct (py_int i text) as [port'|]; [|intros [= <-]; tauto].
    destruct (port' <=? 0)%Z; [intros [= <-]; tauto|].
    rewrite turn_flags. cbn [bind]. intros [= Herror%Hfinish]; [tauto | done].
  - intros Hargs%(inj Some). subst args. rewrite <- !app_assoc.
    pose proof (train_fields_outcome i h request
                  (cli_args.append_if "--no-graphics"
                     (TrainingRequest.no_graphics request)
                   ++ cli_args.append_if "--skip-conda"
                        (TrainingRequest.skip_conda request)
                   ++ cli_args.append_if "--tensorboard"
                        (TrainingRequest.tensorboard request))) as Hfields.
    cbn zeta in Hfields. fold config in Hfields.
    destruct Hfields as [(error' & -> & Hrefusal) | (Hconfig & a & c & d & e & ->)].
    { by intros [= <-]. }
    rewrite turn_flags. cbn [bind]. intros [= Herror%Hfinish]; [tauto | done].
Qed.

Lemma train_request_refusals_witness :
  train_refusal sample_host
    "Could not find the specified environment executable at 'env/Ball.exe'.".
Proof.
  apply (train_request_refusals sample_interpreter sample_host sample_request
           ["--env-path"; "env/Ball.exe"; "--config"; "config/ppo/3DBall.yaml";
            "--results-dir"; "--skip-conda"; "--base-port"; "5005"; "--no-graphics"]);
    by vm_compute.
Defined.
End Request.
